(** * Edit-history store and its callers (pixel-1)

    A shallow embedding of the Redux editor slice ([store/editorSlice.ts]),
    of the handlers of [pages/EditorPage.tsx] and [pages/HomePage.tsx] that
    drive it, of [handleApiResponse] from [services/geminiService.ts] and of
    the batch minter of [components/home/CollectionMinter.tsx].

    Conventions of the embedding:
    - a JavaScript [number] used as an index or a counter is a [Z];
      non-integral numbers and [NaN] are outside the model;
    - a [File] is an opaque object, compared by identity;
    - [null] and [undefined] are [None];
    - an [async] handler runs to completion without interleaving: the
      store a handler closed over is the store its dispatches act on. *)

From Stdlib Require Import ZArith List String Ascii Bool Lia DecimalString.
From Stdlib Require Import Permutation Sorted.
Import ListNotations.
Local Open Scope string_scope.
Local Open Scope list_scope.
Local Open Scope Z_scope.

Set Implicit Arguments.

(* ------------------------------------------------------------------ *)
(** * JavaScript primitives used by the sources *)
(* ------------------------------------------------------------------ *)

Module Js.

(** ** Arrays *)
Section Arrays.
Context {A : Type}.

(** [arr.length] *)
Definition length (arr : list A) : Z := Z.of_nat (List.length arr).

(** Relative index of [slice]: a negative argument counts from the end. *)
Definition clamp (len k : Z) : Z :=
  if k <? 0 then Z.max (len + k) 0 else Z.min k len.

(** [arr.slice(start, end)] *)
Definition slice (arr : list A) (start end_ : Z) : list A :=
  let k := clamp (length arr) start in
  let final := clamp (length arr) end_ in
  firstn (Z.to_nat (Z.max (final - k) 0)) (skipn (Z.to_nat k) arr).

(** [arr.push(x)], as the array after the call *)
Definition push (arr : list A) (x : A) : list A := arr ++ [x].

(** [arr[i]]; [undefined] out of range *)
Definition get (arr : list A) (i : Z) : option A :=
  if i <? 0 then None else nth_error arr (Z.to_nat i).
End Arrays.

(** ** Strings *)

(** White space removed by [trim] (the ASCII part of it). *)
Definition is_space (c : ascii) : bool :=
  let n := nat_of_ascii c in
  (Nat.eqb n 32 || (Nat.leb 9 n && Nat.leb n 13))%bool.

Fixpoint trimStart (s : string) : string :=
  match s with
  | String c rest => if is_space c then trimStart rest else s
  | EmptyString => EmptyString
  end.

Fixpoint rev_string (s acc : string) : string :=
  match s with
  | String c rest => rev_string rest (String c acc)
  | EmptyString => acc
  end.

(** [s.trim()] *)
Definition trim (s : string) : string :=
  rev_string (trimStart (rev_string (trimStart s) "")) "".

(** Truthiness of a string: only the empty string is falsy. *)
Definition truthy (s : string) : bool :=
  match s with EmptyString => false | _ => true end.

(** Truthiness of a possibly missing string. *)
Definition truthy_opt (s : option string) : bool :=
  match s with Some t => truthy t | None => false end.

(** [a || b] on strings *)
Definition or_else (a : option string) (b : string) : string :=
  match a with
  | Some t => if truthy t then t else b
  | None => b
  end.

(** Decimal rendering of an integral number in a template string. *)
Definition of_number (n : Z) : string := NilZero.string_of_int (Z.to_int n).

(** The double-quote character. *)
Definition dquote : string := String (ascii_of_nat 34) EmptyString.

(** ** Exceptions *)

(** A thrown value: an [Error] object with its message, or some other
    value (which has no [message]). *)
Inductive Thrown : Type :=
| ErrorObj (message : string)
| NotAnError.

(** How a call ends. *)
Inductive Outcome (A : Type) : Type :=
| Returned (a : A)
| Threw (e : Thrown).
Arguments Threw {A} e.

(** [err instanceof Error ? err.message : fallback] *)
Definition message_or (e : Thrown) (fallback : string) : string :=
  match e with ErrorObj m => m | NotAnError => fallback end.

(** [err.message] *)
Definition message (e : Thrown) : option string :=
  match e with ErrorObj m => Some m | NotAnError => None end.

End Js.

Import Js.

(* ------------------------------------------------------------------ *)
(** * A monad for handlers: state, exceptions and an event log *)
(* ------------------------------------------------------------------ *)

Module Eff.
Section Monad.
Variables S E : Type.

Definition M (A : Type) : Type := S -> Outcome A * S * list E.

Definition ret {A} (a : A) : M A := fun s => (Returned a, s, []).

Definition bind {A B} (m : M A) (k : A -> M B) : M B :=
  fun s =>
    match m s with
    | (Returned a, s1, l1) =>
        match k a s1 with (r, s2, l2) => (r, s2, l1 ++ l2) end
    | (Threw e, s1, l1) => (Threw e, s1, l1)
    end.

(** [throw e] *)
Definition throw {A} (e : Thrown) : M A := fun s => (Threw e, s, []).

Definition gets {A} (f : S -> A) : M A := fun s => (Returned (f s), s, []).

Definition modify (f : S -> S) : M unit := fun s => (Returned tt, f s, []).

Definition emit (mk : S -> E) : M unit := fun s => (Returned tt, s, [mk s]).

(** Completes with a given outcome (the result of an awaited call). *)
Definition settle {A} (r : Outcome A) : M A := fun s => (r, s, []).

(** [try { body } catch (err) { handler err }] *)
Definition try_catch {A} (body : M A) (handler : Thrown -> M A) : M A :=
  fun s =>
    match body s with
    | (Returned a, s1, l1) => (Returned a, s1, l1)
    | (Threw e, s1, l1) =>
        match handler e s1 with (r, s2, l2) => (r, s2, l1 ++ l2) end
    end.

(** [try { body } finally { fin }]: [fin] runs on every exit path; the
    outcome is the body's unless [fin] itself throws. *)
Definition try_finally {A} (body : M A) (fin : M unit) : M A :=
  fun s =>
    match body s with
    | (r, s1, l1) =>
        match fin s1 with
        | (Returned _, s2, l2) => (r, s2, l1 ++ l2)
        | (Threw e, s2, l2) => (Threw e, s2, l1 ++ l2)
        end
    end.

(** [for (const x of xs) { body x }] *)
Fixpoint for_of {A} (xs : list A) (body : A -> M unit) : M unit :=
  match xs with
  | [] => ret tt
  | x :: rest => bind (body x) (fun _ => for_of rest body)
  end.
End Monad.

Arguments ret {S E A} a.
Arguments bind {S E A B} m k.
Arguments throw {S E A} e.
Arguments gets {S E A} f.
Arguments modify {S E} f.
Arguments emit {S E} mk.
Arguments settle {S E A} r.
Arguments try_catch {S E A} body handler.
Arguments try_finally {S E A} body fin.
Arguments for_of {S E A} xs body.

Definition outcome {S E A} (r : Outcome A * S * list E) : Outcome A := fst (fst r).
Definition final {S E A} (r : Outcome A * S * list E) : S := snd (fst r).
Definition log {S E A} (r : Outcome A * S * list E) : list E := snd r.
End Eff.

Declare Scope eff_scope.
Delimit Scope eff_scope with eff.
Notation "x <- m ;; k" := (Eff.bind m (fun x => k))
  (at level 61, m at next level, right associativity) : eff_scope.
Notation "m ;; k" := (Eff.bind m (fun _ => k))
  (at level 61, right associativity) : eff_scope.

(* ------------------------------------------------------------------ *)
(** * store/editorSlice.ts *)
(* ------------------------------------------------------------------ *)

Section Editor.
(** The browser's [File] objects. *)
Variable File : Type.

Record EditorState : Type := mkEditorState
  { history : list File;
    historyIndex : Z;
    isLoading : bool;
    error : option string }.

Definition initialState : EditorState :=
  {| history := [];
     historyIndex := -1;
     isLoading := true;
     error := None |}.

(** The actions of the slice, one per reducer. *)
Inductive Action : Type :=
| setHistoryState (payload_history : list File) (payload_historyIndex : Z)
| setHistory (payload : list File)
| setHistoryIndex (payload : Z)
| addImageToHistory (payload : File)
| resetHistory
| setIsLoading (payload : bool)
| setError (payload : option string).

(** [editorSlice.reducer] *)
Definition reducer (state : EditorState) (action : Action) : EditorState :=
  match action with
  | setHistoryState h i =>
      {| history := h; historyIndex := i;
         isLoading := isLoading state; error := error state |}
  | setHistory h =>
      {| history := h; historyIndex := historyIndex state;
         isLoading := isLoading state; error := error state |}
  | setHistoryIndex i =>
      {| history := history state; historyIndex := i;
         isLoading := isLoading state; error := error state |}
  | addImageToHistory f =>
      let newHistory :=
        push (slice (history state) 0 (historyIndex state + 1)) f in
      {| history := newHistory;
         historyIndex := Js.length newHistory - 1;
         isLoading := isLoading state; error := error state |}
  | resetHistory =>
      {| history := []; historyIndex := -1;
         isLoading := isLoading state; error := error state |}
  | setIsLoading b =>
      {| history := history state; historyIndex := historyIndex state;
         isLoading := b; error := error state |}
  | setError e =>
      {| history := history state; historyIndex := historyIndex state;
         isLoading := isLoading state; error := e |}
  end.

(** A dispatch with the way it ends: no reducer of the slice contains a
    [throw], and [slice] and [push] are total on arrays. *)
Definition dispatch_outcome (state : EditorState) (action : Action)
  : Outcome EditorState :=
  Returned (reducer state action).

(** [history[historyIndex]], the current image *)
Definition currentImage (state : EditorState) : option File :=
  get (history state) (historyIndex state).

(** [history[0]], the original image *)
Definition originalImage (state : EditorState) : option File :=
  get (history state) 0.

(** [const canUndo = historyIndex > 0] (EditorPage.tsx) *)
Definition canUndo (state : EditorState) : bool := 0 <? historyIndex state.

(** The data-model invariant on the cursor. *)
Definition history_inv (state : EditorState) : Prop :=
  (history state = [] -> historyIndex state = -1)
  /\ (0 < Js.length (history state) ->
      0 <= historyIndex state < Js.length (history state)).

End Editor.

Arguments initialState {File}.
Arguments resetHistory {File}.
Arguments setIsLoading {File} payload.
Arguments setError {File} payload.
Arguments setHistoryIndex {File} payload.

(* ------------------------------------------------------------------ *)
(** * services/geminiService.ts *)
(* ------------------------------------------------------------------ *)

Module Gemini.

Record InlineData : Type := { mimeType : string; data : string }.

(** A part of a model response or request: image data, or text. *)
Record Part : Type := { inlineData : option InlineData; partText : option string }.

Record Candidate : Type :=
  { parts : option (list Part);        (* [content?.parts] *)
    finishReason : option string }.

Record PromptFeedback : Type :=
  { blockReason : option string;
    blockReasonMessage : option string }.

Record GenerateContentResponse : Type :=
  { promptFeedback : option PromptFeedback;
    candidates : option (list Candidate);
    text : option string }.

(** [response.candidates?.[0]] *)
Definition firstCandidate (response : GenerateContentResponse) : option Candidate :=
  match candidates response with
  | Some cs => get cs 0
  | None => None
  end.

(** [handleApiResponse(response, context)] *)
Definition handleApiResponse (response : GenerateContentResponse) (context : string)
  : Outcome string :=
  (* 1. prompt blocking *)
  let blocked :=
    match promptFeedback response with
    | Some fb => if truthy_opt (blockReason fb) then Some fb else None
    | None => None
    end in
  match blocked with
  | Some fb =>
      Threw (ErrorObj ("Request was blocked. Reason: "
                         ++ or_else (blockReason fb) "" ++ ". "
                         ++ or_else (blockReasonMessage fb) ""))
  | None =>
      (* 2. the image part *)
      let imagePartFromResponse :=
        match firstCandidate response with
        | Some c =>
            match parts c with
            | Some ps =>
                find (fun p => match inlineData p with Some _ => true | None => false end) ps
            | None => None
            end
        | None => None
        end in
      match imagePartFromResponse with
      | Some {| inlineData := Some i |} =>
          Returned ("data:" ++ mimeType i ++ ";base64," ++ data i)
      | _ =>
          (* 3. other reasons *)
          let finish :=
            match firstCandidate response with
            | Some c => finishReason c
            | None => None
            end in
          if (truthy_opt finish && negb (String.eqb (or_else finish "") "STOP"))%bool then
            Threw (ErrorObj ("Image generation for " ++ context
                               ++ " stopped unexpectedly. Reason: " ++ or_else finish ""
                               ++ ". This often relates to safety settings."))
          else
            let textFeedback := option_map trim (text response) in
            Threw (ErrorObj
                     ("The AI model did not return an image for the " ++ context ++ ". "
                        ++ (if truthy_opt textFeedback
                            then "The model responded with text: "
                                   ++ dquote ++ or_else textFeedback "" ++ dquote
                            else "This can happen due to safety filters or if the request is too complex. Please try rephrasing your prompt to be more direct.")))
      end
  end%string.

Section Service.
Variable File : Type.

(** The module [geminiService] as its callers see it: every function
    resolves to a data URL or rejects. *)
Record Service : Type :=
  { generateImageFromText : string -> Outcome string;
    generateEditedImage : File -> string -> Z * Z -> Outcome string;
    generateFilteredImage : File -> string -> Outcome string;
    generateAdjustedImage : File -> string -> Outcome string;
    removeImageBackground : File -> Outcome string;
    removeObjectWithMask : File -> File -> Outcome string;
    upscaleImage : File -> Z -> Outcome string;
    generateArtStyleImage : File -> string -> Outcome string }.

(** What the module itself awaits: reading a file into a request part
    and the model call. The prompt text sent with a request is a
    function of the request kind and of the user's inputs; its wording
    is not modelled. *)
Record Backend : Type :=
  { fileToPart : File -> Outcome Part;
    promptText : string -> list string -> string;
    generateContent : list Part -> Outcome GenerateContentResponse;
    (* [generateImageFromText] as a whole; its body is not unfolded *)
    textToImage : string -> Outcome string }.

Variable ai : Backend.

Definition textPart (kind : string) (inputs : list string) : Part :=
  {| inlineData := None; partText := Some (promptText ai kind inputs) |}.

(** The body shared by the one-image editing functions:
    [fileToPart], [generateContent], then [handleApiResponse]. *)
Definition editWith (originalImage : File) (kind : string) (inputs : list string)
           (context : string) : Outcome string :=
  match fileToPart ai originalImage with
  | Threw e => Threw e
  | Returned originalImagePart =>
      match generateContent ai [originalImagePart; textPart kind inputs] with
      | Threw e => Threw e
      | Returned response => handleApiResponse response context
      end
  end.

(** [removeObjectWithMask]: two image parts. *)
Definition eraseWith (originalImage maskImage : File) : Outcome string :=
  match fileToPart ai originalImage with
  | Threw e => Threw e
  | Returned originalImagePart =>
      match fileToPart ai maskImage with
      | Threw e => Threw e
      | Returned maskImagePart =>
          match generateContent ai
                  [originalImagePart; maskImagePart; textPart "magic erase" []] with
          | Threw e => Threw e
          | Returned response => handleApiResponse response "magic erase"
          end
      end
  end.

(** The module built on a backend. *)
Definition geminiService : Service :=
  {| generateImageFromText := textToImage ai;
     generateEditedImage := fun img userPrompt hotspot =>
       editWith img "edit"
                [userPrompt; of_number (fst hotspot); of_number (snd hotspot)] "edit";
     generateFilteredImage := fun img filterPrompt =>
       editWith img "filter" [filterPrompt] "filter";
     generateAdjustedImage := fun img adjustmentPrompt =>
       editWith img "adjustment" [adjustmentPrompt] "adjustment";
     removeImageBackground := fun img =>
       editWith img "background removal" [] "background removal";
     removeObjectWithMask := eraseWith;
     upscaleImage := fun img scaleFactor =>
       editWith img "upscale" [of_number scaleFactor]
                ("upscale " ++ of_number scaleFactor ++ "x")%string;
     generateArtStyleImage := fun img stylePrompt =>
       editWith img "art style" [stylePrompt] "art style" |}.
End Service.
End Gemini.

(* ------------------------------------------------------------------ *)
(** * pages/EditorPage.tsx and pages/HomePage.tsx *)
(* ------------------------------------------------------------------ *)

Module Page.

Inductive Tab : Type :=
| generative_fill | magic_eraser | adjust | filters | style_presets | crop_tab | upscale.

Record PixelCrop : Type := { crop_x : Z; crop_y : Z; crop_width : Z; crop_height : Z }.

(** The [useState] cells of [EditorPage] that its handlers read or write. *)
Record Local : Type := mkLocal
  { prompt : string;
    editHotspot : option (Z * Z);
    displayHotspot : option (Z * Z);
    activeTab : Tab;
    crop : option PixelCrop;
    completedCrop : option PixelCrop;
    maskDataUrl : option string }.

(** The names under which [geminiService] is called. *)
Inductive ServiceName : Type :=
| svc_generateImageFromText
| svc_generateEditedImage
| svc_generateFilteredImage
| svc_generateAdjustedImage
| svc_removeImageBackground
| svc_removeObjectWithMask
| svc_upscaleImage
| svc_generateArtStyleImage.

Section Handlers.
Variable File : Type.

(** The Redux store's editor slice together with the page's local state. *)
Record World : Type := mkWorld
  { store : EditorState File;
    page : Local }.

(** What a handler does that can be observed from outside. *)
Inductive Event : Type :=
| EvDispatch (action : Action File)
  (* an awaited [geminiService] call: the store when it was issued and
     how it settled *)
| EvService (name : ServiceName) (issued_in : EditorState File) (result : Outcome string)
| EvNavigate (path : string)
| EvSetNftTraits (traits : list (string * string)).

(** What the handlers read from their surroundings. *)
Record Env : Type :=
  { service : Gemini.Service File;
    (* [dataURLtoFile(dataurl, filename)] of App.tsx; it throws on a
       malformed data URL *)
    dataURLtoFile : string -> string -> Outcome File;
    (* [Date.now()] *)
    now : Z;
    (* [canvasRef.current] and [imgRef.current] are mounted *)
    canvasRef : bool;
    imgRef : bool;
    (* [maskCanvas.getContext('2d')] gave a context *)
    maskContext : bool;
    (* [maskCanvas.toDataURL('image/png')] *)
    maskCanvasDataUrl : string;
    (* [canvas.getContext('2d')] of the crop canvas and its data URL *)
    cropContext : bool;
    cropCanvasDataUrl : string }.

Variable env : Env.

Definition M := Eff.M World Event.

Local Open Scope eff_scope.

(** [dispatch(action)] *)
Definition dispatch (action : Action File) : M unit :=
  fun w => (Returned tt,
            {| store := reducer (store w) action; page := page w |},
            [EvDispatch action]).

(** [await geminiService.name(...)] *)
Definition await_service (name : ServiceName) (result : Outcome string) : M string :=
  fun w => (result, w, [EvService name (store w) result]).

Definition navigate (path : string) : M unit :=
  Eff.emit (fun _ => EvNavigate path).

Definition setLocal (f : Local -> Local) : M unit :=
  Eff.modify (fun w => {| store := store w; page := f (page w) |}).

Definition setEditHotspot (v : option (Z * Z)) : M unit :=
  setLocal (fun p => mkLocal (prompt p) v (displayHotspot p) (activeTab p)
                             (crop p) (completedCrop p) (maskDataUrl p)).
Definition setDisplayHotspot (v : option (Z * Z)) : M unit :=
  setLocal (fun p => mkLocal (prompt p) (editHotspot p) v (activeTab p)
                             (crop p) (completedCrop p) (maskDataUrl p)).
Definition setActiveTab (v : Tab) : M unit :=
  setLocal (fun p => mkLocal (prompt p) (editHotspot p) (displayHotspot p) v
                             (crop p) (completedCrop p) (maskDataUrl p)).
Definition setCrop (v : option PixelCrop) : M unit :=
  setLocal (fun p => mkLocal (prompt p) (editHotspot p) (displayHotspot p) (activeTab p)
                             v (completedCrop p) (maskDataUrl p)).
Definition setCompletedCrop (v : option PixelCrop) : M unit :=
  setLocal (fun p => mkLocal (prompt p) (editHotspot p) (displayHotspot p) (activeTab p)
                             (crop p) v (maskDataUrl p)).
Definition setMaskDataUrl (v : option string) : M unit :=
  setLocal (fun p => mkLocal (prompt p) (editHotspot p) (displayHotspot p) (activeTab p)
                             (crop p) (completedCrop p) v).

(** File names: [`prefix-${Date.now()}.png`] *)
Definition stamped (prefix : string) : string :=
  (prefix ++ "-" ++ of_number (now env) ++ ".png")%string.

(** The [catch] block shared by the handlers. *)
Definition report (err : Thrown) : M unit :=
  dispatch (setError (Some (message_or err "An unknown error occurred."))).

(** [addNewImage(newImageFile, newTab?)]; clearing the canvas changes
    neither the store nor the local state. *)
Definition addNewImage (newImageFile : File) (newTab : option Tab) : M unit :=
  dispatch (addImageToHistory newImageFile) ;;
  setCrop None ;;
  setCompletedCrop None ;;
  setMaskDataUrl None ;;
  match newTab with
  | Some t => setActiveTab t
  | None => Eff.ret tt
  end.

Definition handleGenerate : M unit :=
  w <- Eff.gets (fun w => w) ;;
  match currentImage (store w), truthy (trim (prompt (page w))), editHotspot (page w) with
  | Some currentImage, true, Some hotspot =>
      dispatch (setIsLoading true) ;;
      dispatch (setError None) ;;
      Eff.try_finally
        (Eff.try_catch
           (editedImageUrl <-
              await_service svc_generateEditedImage
                (Gemini.generateEditedImage (service env) currentImage
                                            (prompt (page w)) hotspot) ;;
            newImageFile <- Eff.settle (dataURLtoFile env editedImageUrl (stamped "edited")) ;;
            addNewImage newImageFile None ;;
            setEditHotspot None ;;
            setDisplayHotspot None)
           report)
        (dispatch (setIsLoading false))
  | _, _, _ => Eff.ret tt
  end.

Definition handleApplyFilter (filterPrompt : string) : M unit :=
  w <- Eff.gets (fun w => w) ;;
  match currentImage (store w) with
  | Some currentImage =>
      dispatch (setIsLoading true) ;;
      dispatch (setError None) ;;
      Eff.try_finally
        (Eff.try_catch
           (filteredImageUrl <-
              await_service svc_generateFilteredImage
                (Gemini.generateFilteredImage (service env) currentImage filterPrompt) ;;
            newImageFile <- Eff.settle (dataURLtoFile env filteredImageUrl (stamped "filtered")) ;;
            addNewImage newImageFile None)
           report)
        (dispatch (setIsLoading false))
  | None => Eff.ret tt
  end.

Definition handleApplyAdjustment (adjustmentPrompt : string) : M unit :=
  w <- Eff.gets (fun w => w) ;;
  match currentImage (store w) with
  | Some currentImage =>
      dispatch (setIsLoading true) ;;
      dispatch (setError None) ;;
      Eff.try_finally
        (Eff.try_catch
           (adjustedImageUrl <-
              await_service svc_generateAdjustedImage
                (Gemini.generateAdjustedImage (service env) currentImage adjustmentPrompt) ;;
            newImageFile <- Eff.settle (dataURLtoFile env adjustedImageUrl (stamped "adjusted")) ;;
            addNewImage newImageFile None)
           report)
        (dispatch (setIsLoading false))
  | None => Eff.ret tt
  end.

Definition handleRemoveBackground : M unit :=
  w <- Eff.gets (fun w => w) ;;
  match currentImage (store w) with
  | Some currentImage =>
      dispatch (setIsLoading true) ;;
      dispatch (setError None) ;;
      Eff.try_finally
        (Eff.try_catch
           (resultImageUrl <-
              await_service svc_removeImageBackground
                (Gemini.removeImageBackground (service env) currentImage) ;;
            newImageFile <- Eff.settle (dataURLtoFile env resultImageUrl (stamped "bg-removed")) ;;
            addNewImage newImageFile None)
           report)
        (dispatch (setIsLoading false))
  | None => Eff.ret tt
  end.

(** [handleApplyCrop] calls no service and has no [try]: a throw of
    [dataURLtoFile] leaves the handler. *)
Definition handleApplyCrop : M unit :=
  w <- Eff.gets (fun w => w) ;;
  match completedCrop (page w), imgRef env, cropContext env with
  | Some _, true, true =>
      newImageFile <- Eff.settle (dataURLtoFile env (cropCanvasDataUrl env) (stamped "cropped")) ;;
      addNewImage newImageFile None
  | _, _, _ => Eff.ret tt
  end.

Definition handleUpscale (scaleFactor : Z) : M unit :=
  w <- Eff.gets (fun w => w) ;;
  match currentImage (store w) with
  | Some currentImage =>
      dispatch (setIsLoading true) ;;
      dispatch (setError None) ;;
      Eff.try_finally
        (Eff.try_catch
           (upscaledImageUrl <-
              await_service svc_upscaleImage
                (Gemini.upscaleImage (service env) currentImage scaleFactor) ;;
            newImageFile <-
              Eff.settle (dataURLtoFile env upscaledImageUrl
                            (stamped ("upscaled-" ++ of_number scaleFactor ++ "x")%string)) ;;
            addNewImage newImageFile None)
           report)
        (dispatch (setIsLoading false))
  | None => Eff.ret tt
  end.

Definition handleApplyArtStyle (stylePrompt : string) : M unit :=
  w <- Eff.gets (fun w => w) ;;
  match currentImage (store w) with
  | Some currentImage =>
      dispatch (setIsLoading true) ;;
      dispatch (setError None) ;;
      Eff.try_finally
        (Eff.try_catch
           (styledImageUrl <-
              await_service svc_generateArtStyleImage
                (Gemini.generateArtStyleImage (service env) currentImage stylePrompt) ;;
            newImageFile <- Eff.settle (dataURLtoFile env styledImageUrl (stamped "styled")) ;;
            addNewImage newImageFile None)
           report)
        (dispatch (setIsLoading false))
  | None => Eff.ret tt
  end.

Definition handleMagicErase : M unit :=
  w <- Eff.gets (fun w => w) ;;
  match currentImage (store w), truthy_opt (maskDataUrl (page w)),
        canvasRef env, imgRef env with
  | Some currentImage, true, true, true =>
      dispatch (setIsLoading true) ;;
      dispatch (setError None) ;;
      Eff.try_finally
        (Eff.try_catch
           ((if maskContext env then Eff.ret tt
             else Eff.throw (ErrorObj "Could not create mask context.")) ;;
            maskFile <- Eff.settle (dataURLtoFile env (maskCanvasDataUrl env) (stamped "mask")) ;;
            resultUrl <-
              await_service svc_removeObjectWithMask
                (Gemini.removeObjectWithMask (service env) currentImage maskFile) ;;
            newImageFile <- Eff.settle (dataURLtoFile env resultUrl (stamped "erased")) ;;
            addNewImage newImageFile None)
           report)
        (dispatch (setIsLoading false))
  | _, _, _, _ => Eff.ret tt
  end.

Definition handleHistoryNavigation (index : Z) : M unit :=
  w <- Eff.gets (fun w => w) ;;
  if ((0 <=? index) && (index <? Js.length (history (store w))))%bool then
    dispatch (setHistoryIndex index) ;;
    setEditHotspot None ;;
    setDisplayHotspot None
  else Eff.ret tt.

Definition handleReset : M unit :=
  w <- Eff.gets (fun w => w) ;;
  if 0 <? Js.length (history (store w)) then
    dispatch (setHistoryIndex 0) ;;
    dispatch (setError None) ;;
    setEditHotspot None ;;
    setDisplayHotspot None
  else Eff.ret tt.

(** ** HomePage.tsx *)

Definition handleFileSelect (files : option (list File)) : M unit :=
  match files with
  | Some (file :: _) =>
      dispatch (setHistoryState [file] 0) ;;
      navigate "/editor"
  | _ => Eff.ret tt
  end.

Definition handleGenerateImage (prompt : string) : M unit :=
  dispatch (setIsLoading true) ;;
  dispatch (setError None) ;;
  Eff.try_finally
    (Eff.try_catch
       (generatedImageUrl <-
          await_service svc_generateImageFromText
            (Gemini.generateImageFromText (service env) prompt) ;;
        newImageFile <- Eff.settle (dataURLtoFile env generatedImageUrl (stamped "generated")) ;;
        dispatch (setHistoryState [newImageFile] 0) ;;
        navigate "/editor")
       report)
    (dispatch (setIsLoading false)).

Definition handleCharacterFinalized (imageFile : File) (traits : list (string * string))
  : M unit :=
  Eff.emit (fun _ => EvSetNftTraits traits) ;;
  dispatch (setHistoryState [imageFile] 0) ;;
  navigate "/editor".

(** [handleUploadNew] of App.tsx (the removal of the saved session is
    outside the store). *)
Definition handleUploadNew : M unit :=
  dispatch resetHistory ;;
  navigate "/".

(** ** The operations that call the image service *)

Inductive EditOp : Type :=
| op_generate
| op_applyFilter (filterPrompt : string)
| op_applyAdjustment (adjustmentPrompt : string)
| op_removeBackground
| op_upscale (scaleFactor : Z)
| op_applyArtStyle (stylePrompt : string)
| op_magicErase
| op_generateImage (prompt : string).

Definition runEdit (op : EditOp) : M unit :=
  match op with
  | op_generate => handleGenerate
  | op_applyFilter p => handleApplyFilter p
  | op_applyAdjustment p => handleApplyAdjustment p
  | op_removeBackground => handleRemoveBackground
  | op_upscale k => handleUpscale k
  | op_applyArtStyle p => handleApplyArtStyle p
  | op_magicErase => handleMagicErase
  | op_generateImage p => handleGenerateImage p
  end.

(** ** The history store as its callers drive it *)

Inductive HistoryOp : Type :=
| seed (artifact : File)      (* [setHistoryState({history: [file], historyIndex: 0})] *)
| append (artifact : File)    (* [addImageToHistory(file)] *)
| seek (index : Z)            (* [handleHistoryNavigation(index)] *)
| reset.                      (* [resetHistory()] *)

Definition runHistoryOp (op : HistoryOp) : M unit :=
  match op with
  | seed a => dispatch (setHistoryState [a] 0)
  | append a => dispatch (addImageToHistory a)
  | seek i => handleHistoryNavigation i
  | reset => dispatch resetHistory
  end.

(** A sequence of operations, one after the other. *)
Fixpoint runHistoryOps (ops : list HistoryOp) (w : World) : World :=
  match ops with
  | [] => w
  | op :: rest => runHistoryOps rest (Eff.final (runHistoryOp op w))
  end.

End Handlers.

Arguments EvNavigate {File} path.
Arguments EvSetNftTraits {File} traits.
Arguments reset {File}.
Arguments seek {File} index.
End Page.

(* ------------------------------------------------------------------ *)
(** * components/home/CollectionMinter.tsx *)
(* ------------------------------------------------------------------ *)

Module Minter.

Record CsvData : Type := { tokenId : string; metadataUrl : string }.

Record MintResult : Type := { minted_tokenId : string; txHash : string }.

Record MintError : Type := { failed_tokenId : string; mint_error : string }.

Inductive NetworkName : Type := polygon_mainnet | polygon_mumbai.

Record Progress : Type := mkProgress
  { total : Z;
    completed : Z;
    errors : Z;
    currentAction : string;
    successfulMints : list MintResult;
    failedMints : list MintError }.

(** The [useState] cells of [CollectionMinter]. *)
Record Component : Type := mkComponent
  { contractAddress : string;
    network : NetworkName;
    parsedData : list CsvData;
    fileName : string;
    error : option string;
    isMinting : bool;
    isFinished : bool;
    mintingProgress : Progress }.

(** The component with another [mintingProgress]. *)
Definition withProgress (c : Component) (p : Progress) : Component :=
  mkComponent (contractAddress c) (network c) (parsedData c) (fileName c)
              (error c) (isMinting c) (isFinished c) p.

(** The argument of [polygonService.mintFromMetadataUrl]. *)
Record MintOptions : Type :=
  { opt_contractAddress : string;
    opt_networkName : NetworkName;
    opt_toAddress : string;
    opt_metadataUrl : string }.

(** A transaction receipt, as far as the minter reads it. *)
Record Receipt : Type := { hash : string }.

Section Handler.
(** The wallet and the chain behind [polygonService]: a mint call is a
    transition of their state, which the component cannot see. *)
Variable Chain : Type.

Record World : Type := mkWorld
  { component : Component;
    chain : Chain }.

Inductive Event : Type :=
| EvMint (options : MintOptions) (result : Outcome (option Receipt)).

Record Env : Type :=
  { (* [walletAddress] of the wallet slice *)
    walletAddress : option string;
    (* the user's answer to [confirm(message)] *)
    confirm : string -> bool;
    (* [polygonService.mintFromMetadataUrl(options)] *)
    mintFromMetadataUrl : Chain -> MintOptions -> Outcome (option Receipt) * Chain }.

Variable env : Env.

Definition M := Eff.M World Event.

Local Open Scope eff_scope.

Definition setComponent (f : Component -> Component) : M unit :=
  Eff.modify (fun w => {| component := f (component w); chain := chain w |}).

Definition setError (v : option string) : M unit :=
  setComponent (fun c => mkComponent (contractAddress c) (network c) (parsedData c)
                                     (fileName c) v (isMinting c) (isFinished c)
                                     (mintingProgress c)).
Definition setIsMinting (v : bool) : M unit :=
  setComponent (fun c => mkComponent (contractAddress c) (network c) (parsedData c)
                                     (fileName c) (error c) v (isFinished c)
                                     (mintingProgress c)).
Definition setIsFinished (v : bool) : M unit :=
  setComponent (fun c => mkComponent (contractAddress c) (network c) (parsedData c)
                                     (fileName c) (error c) (isMinting c) v
                                     (mintingProgress c)).
(** [setMintingProgress(prev => f prev)] *)
Definition setMintingProgress (f : Progress -> Progress) : M unit :=
  setComponent (fun c => withProgress c (f (mintingProgress c))).

(** [await polygonService.mintFromMetadataUrl(options)] *)
Definition await_mint (options : MintOptions) : M (option Receipt) :=
  fun w =>
    let '(result, chain') := mintFromMetadataUrl env (chain w) options in
    (result, {| component := component w; chain := chain' |}, [EvMint options result]).

(** The body of the [for] loop, with its [try]/[catch]. *)
Definition mintItem (contract : string) (net : NetworkName) (wallet : string)
           (item : CsvData) : M unit :=
  Eff.try_catch
    (setMintingProgress
       (fun prev => mkProgress (total prev) (completed prev) (errors prev)
                      ("Minting Token ID: " ++ tokenId item ++ "...")%string
                      (successfulMints prev) (failedMints prev)) ;;
     receipt <- await_mint {| opt_contractAddress := contract;
                              opt_networkName := net;
                              opt_toAddress := wallet;
                              opt_metadataUrl := metadataUrl item |} ;;
     txhash <- match receipt with
               | Some r =>
                   if truthy (hash r) then Eff.ret (hash r)
                   else Eff.throw (ErrorObj "Transaction failed or hash not found.")
               | None => Eff.throw (ErrorObj "Transaction failed or hash not found.")
               end ;;
     setMintingProgress
       (fun prev => mkProgress (total prev) (completed prev + 1) (errors prev)
                      (currentAction prev)
                      (successfulMints prev
                         ++ [{| minted_tokenId := tokenId item; txHash := txhash |}])
                      (failedMints prev)))
    (fun err =>
       setMintingProgress
         (fun prev => mkProgress (total prev) (completed prev) (errors prev + 1)
                        (currentAction prev)
                        (successfulMints prev)
                        (failedMints prev
                           ++ [{| failed_tokenId := tokenId item;
                                  mint_error := or_else (message err) "Unknown error" |}]))).

(** The text shown by [confirm]. *)
Definition confirmText (n : Z) : string :=
  ("You are about to mint " ++ of_number n
     ++ " NFTs. This will require you to approve " ++ of_number n
     ++ " separate transactions in your wallet. Do you want to proceed?")%string.

Definition handleMintCollection : M unit :=
  w <- Eff.gets (fun w => w) ;;
  let c := component w in
  match parsedData c, truthy (contractAddress c), walletAddress env with
  | _ :: _, true, Some wallet =>
      if truthy wallet then
        if confirm env (confirmText (Js.length (parsedData c))) then
          setIsMinting true ;;
          setIsFinished false ;;
          setMintingProgress
            (fun _ => mkProgress (Js.length (parsedData c)) 0 0 "Starting..." [] []) ;;
          Eff.for_of (parsedData c)
                     (mintItem (contractAddress c) (network c) wallet) ;;
          setMintingProgress
            (fun prev => mkProgress (total prev) (completed prev) (errors prev)
                           "All transactions processed."
                           (successfulMints prev) (failedMints prev)) ;;
          setIsFinished true
        else Eff.ret tt
      else
        setError (Some "Please ensure wallet is connected, contract is set, and a valid CSV is loaded.")
  | _, _, _ =>
      setError (Some "Please ensure wallet is connected, contract is set, and a valid CSV is loaded.")
  end.

(** ** Reading a run of the batch *)

(** Whether a mint call counts as a success for the minter: it
    resolved with a receipt that carries a hash. *)
Definition succeeded (result : Outcome (option Receipt)) : bool :=
  match result with
  | Returned (Some r) => truthy (hash r)
  | _ => false
  end.

Definition ev_options (e : Event) : MintOptions :=
  match e with EvMint o _ => o end.

Definition ev_result (e : Event) : Outcome (option Receipt) :=
  match e with EvMint _ r => r end.

(** The metadata URLs the mint calls of a log were made for, in order. *)
Definition mintedUrls (l : list Event) : list string :=
  map (fun e => opt_metadataUrl (ev_options e)) l.

(** The token ids of the items whose mint call succeeded, and of those
    whose call failed: items and calls are paired in order. *)
Definition successIds (items : list CsvData) (l : list Event) : list string :=
  map (fun ie => tokenId (fst ie))
      (filter (fun ie => succeeded (ev_result (snd ie))) (combine items l)).

Definition failureIds (items : list CsvData) (l : list Event) : list string :=
  map (fun ie => tokenId (fst ie))
      (filter (fun ie => negb (succeeded (ev_result (snd ie)))) (combine items l)).

End Handler.

Arguments EvMint options result : clear implicits.
End Minter.

(* ------------------------------------------------------------------ *)
(** * Concrete scenarios *)
(* ------------------------------------------------------------------ *)

Module Scenario.

(** Files are told apart by their names. *)
Definition File : Type := string.

(** A session of three images with the cursor on the first. *)
Definition rewound : EditorState File :=
  {| history := ["original.png"; "edit-1.png"; "edit-2.png"];
     historyIndex := 0;
     isLoading := false;
     error := None |}.

Definition atTip : EditorState File :=
  {| history := ["original.png"; "edit-1.png"];
     historyIndex := 1;
     isLoading := false;
     error := None |}.

Definition idle : Page.Local :=
  {| Page.prompt := "make the sky pink";
     Page.editHotspot := Some (120, 48);
     Page.displayHotspot := Some (60, 24);
     Page.activeTab := Page.generative_fill;
     Page.crop := None;
     Page.completedCrop := None;
     Page.maskDataUrl := None |}.

Definition editing : Page.World File :=
  {| Page.store := rewound; Page.page := idle |}.

(** An image service that refuses every request. *)
Definition refusing : Gemini.Service File :=
  let blocked := Threw (ErrorObj "Request was blocked. Reason: SAFETY. ") in
  {| Gemini.generateImageFromText := fun _ => blocked;
     Gemini.generateEditedImage := fun _ _ _ => blocked;
     Gemini.generateFilteredImage := fun _ _ => blocked;
     Gemini.generateAdjustedImage := fun _ _ => blocked;
     Gemini.removeImageBackground := fun _ => blocked;
     Gemini.removeObjectWithMask := fun _ _ => blocked;
     Gemini.upscaleImage := fun _ _ => blocked;
     Gemini.generateArtStyleImage := fun _ _ => blocked |}.

(** An image service that answers every request with the same image. *)
Definition obliging : Gemini.Service File :=
  let done := Returned "data:image/png;base64,AAAA" in
  {| Gemini.generateImageFromText := fun _ => done;
     Gemini.generateEditedImage := fun _ _ _ => done;
     Gemini.generateFilteredImage := fun _ _ => done;
     Gemini.generateAdjustedImage := fun _ _ => done;
     Gemini.removeImageBackground := fun _ => done;
     Gemini.removeObjectWithMask := fun _ _ => done;
     Gemini.upscaleImage := fun _ _ => done;
     Gemini.generateArtStyleImage := fun _ _ => done |}.

Definition browser (svc : Gemini.Service File) : Page.Env File :=
  {| Page.service := svc;
     Page.dataURLtoFile := fun _ filename => Returned filename;
     Page.now := 1700000000000;
     Page.canvasRef := true;
     Page.imgRef := true;
     Page.maskContext := true;
     Page.maskCanvasDataUrl := "data:image/png;base64,MASK";
     Page.cropContext := true;
     Page.cropCanvasDataUrl := "data:image/png;base64,CROP" |}.

(** A fresh page: the store in its initial state. *)
Definition fresh : Page.World File :=
  {| Page.store := initialState; Page.page := idle |}.

(** A model response that was blocked, and one that carries an image. *)
Definition blockedResponse : Gemini.GenerateContentResponse :=
  {| Gemini.promptFeedback :=
       Some {| Gemini.blockReason := Some "SAFETY";
               Gemini.blockReasonMessage := None |};
     Gemini.candidates := None;
     Gemini.text := None |}.

Definition imageResponse : Gemini.GenerateContentResponse :=
  {| Gemini.promptFeedback := None;
     Gemini.candidates :=
       Some [ {| Gemini.parts :=
                   Some [ {| Gemini.inlineData := None;
                             Gemini.partText := Some "Here it is." |};
                          {| Gemini.inlineData :=
                               Some {| Gemini.mimeType := "image/png";
                                       Gemini.data := "AAAA" |};
                             Gemini.partText := None |} ];
                 Gemini.finishReason := Some "STOP" |} ];
     Gemini.text := Some "Here it is." |}.

(** A backend whose model blocks every request. *)
Definition blockingBackend : Gemini.Backend File :=
  {| Gemini.fileToPart := fun _ =>
       Returned {| Gemini.inlineData :=
                     Some {| Gemini.mimeType := "image/png"; Gemini.data := "BBBB" |};
                   Gemini.partText := None |};
     Gemini.promptText := fun kind _ => kind;
     Gemini.generateContent := fun _ => Returned blockedResponse;
     Gemini.textToImage := fun _ =>
       Threw (ErrorObj "The AI model did not return an image. Please try a different prompt.") |}.

(** A batch of three tokens. The chain state counts the mint calls made
    so far; the second call is rejected in the wallet. *)
Definition item1 : Minter.CsvData :=
  {| Minter.tokenId := "1"; Minter.metadataUrl := "ipfs://one" |}.
Definition item2 : Minter.CsvData :=
  {| Minter.tokenId := "2"; Minter.metadataUrl := "ipfs://two" |}.
Definition item3 : Minter.CsvData :=
  {| Minter.tokenId := "3"; Minter.metadataUrl := "ipfs://three" |}.

Definition batch : list Minter.CsvData := [item1; item2; item3].

Definition secondRejected : Minter.Env nat :=
  {| Minter.walletAddress := Some "0xA11CE";
     Minter.confirm := fun _ => true;
     Minter.mintFromMetadataUrl := fun calls _ =>
       (if Nat.eqb calls 1
        then Threw (ErrorObj "Transaction rejected in wallet.")
        else Returned (Some {| Minter.hash := "0xBEEF" |}),
        S calls) |}.

Definition minter : Minter.World nat :=
  {| Minter.component :=
       {| Minter.contractAddress := "0xC0FFEE";
          Minter.network := Minter.polygon_mainnet;
          Minter.parsedData := batch;
          Minter.fileName := "collection.csv";
          Minter.error := None;
          Minter.isMinting := false;
          Minter.isFinished := false;
          Minter.mintingProgress := Minter.mkProgress 0 0 0 "" [] [] |};
     Minter.chain := 0%nat |}.

End Scenario.

(* ------------------------------------------------------------------ *)
(** * CollectionMinter.tsx: reading the CSV file *)
(* ------------------------------------------------------------------ *)

Module Csv.

(** ** String operations of the parser (on ASCII text) *)

(** [s.toLowerCase()] *)
Definition lower (c : ascii) : ascii :=
  let n := nat_of_ascii c in
  if (Nat.leb 65 n && Nat.leb n 90)%bool then ascii_of_nat (n + 32) else c.

Fixpoint toLowerCase (s : string) : string :=
  match s with
  | String c rest => String (lower c) (toLowerCase rest)
  | EmptyString => EmptyString
  end.

(** [s.split(sep)] for a one-character separator; the empty string splits
    into one empty piece. *)
Fixpoint split (sep : ascii) (s : string) : list string :=
  match s with
  | EmptyString => [EmptyString]
  | String c rest =>
      if Ascii.eqb c sep then EmptyString :: split sep rest
      else match split sep rest with
           | piece :: pieces => String c piece :: pieces
           | [] => [String c EmptyString]
           end
  end.

Definition newline : ascii := ascii_of_nat 10.
Definition carriageReturn : ascii := ascii_of_nat 13.
Definition comma : ascii := ascii_of_nat 44.

(** Removes one carriage return from the end of a piece, if there is one. *)
Fixpoint dropTrailingCR (s : string) : string :=
  match s with
  | EmptyString => EmptyString
  | String c EmptyString => if Ascii.eqb c carriageReturn then EmptyString else s
  | String c rest => String c (dropTrailingCR rest)
  end.

(** Every piece but the last was cut at a newline: a carriage return
    before that newline belongs to the separator. *)
Fixpoint stripSeparators (pieces : list string) : list string :=
  match pieces with
  | [] => []
  | [lastPiece] => [lastPiece]
  | piece :: rest => dropTrailingCR piece :: stripSeparators rest
  end.

(** [text.split(/\r?\n/)] *)
Definition splitLines (text : string) : list string :=
  stripSeparators (split newline text).

(** [arr.indexOf(x)] on an array of strings *)
Fixpoint indexOfFrom (x : string) (arr : list string) (i : Z) : Z :=
  match arr with
  | [] => -1
  | y :: rest => if String.eqb y x then i else indexOfFrom x rest (i + 1)
  end.

Definition indexOf (x : string) (arr : list string) : Z := indexOfFrom x arr 0.

(** ** The parser: the body of the [try] in [reader.onload] *)

(** The non-blank lines of the file. *)
Definition nonBlankLines (text : string) : list string :=
  filter (fun line => negb (String.eqb (trim line) "")) (splitLines text).

(** The callback of [lines.slice(1).map((line, i) => ...)]. *)
Definition parseRow (tokenIdIndex metadataUrlIndex : Z) (line : string) (i : Z)
  : Outcome Minter.CsvData :=
  let values := split comma line in
  let tokenId := option_map trim (get values tokenIdIndex) in
  let metadataUrl := option_map trim (get values metadataUrlIndex) in
  if (negb (truthy_opt tokenId) || negb (truthy_opt metadataUrl))%bool then
    Threw (ErrorObj ("Invalid data on row " ++ of_number (i + 2)
                       ++ ". Both token_id and metadata_url are required.")%string)
  else
    Returned {| Minter.tokenId := or_else tokenId "";
                Minter.metadataUrl := or_else metadataUrl "" |}.

(** A row the minter can use: both fields are non-empty. *)
Definition validRow (row : Minter.CsvData) : Prop :=
  truthy (Minter.tokenId row) = true /\ truthy (Minter.metadataUrl row) = true.

(** The text of the error for data row [i] (counted from 0). *)
Definition rowError (i : Z) : Thrown :=
  ErrorObj ("Invalid data on row " ++ of_number (i + 2)
              ++ ". Both token_id and metadata_url are required.")%string.

(** [rows.map(callback)] with a callback that may throw: the first throw
    ends the map. *)
Fixpoint mapRows (tokenIdIndex metadataUrlIndex : Z) (rows : list string) (i : Z)
  : Outcome (list Minter.CsvData) :=
  match rows with
  | [] => Returned []
  | line :: rest =>
      match parseRow tokenIdIndex metadataUrlIndex line i with
      | Threw e => Threw e
      | Returned row =>
          match mapRows tokenIdIndex metadataUrlIndex rest (i + 1) with
          | Threw e => Threw e
          | Returned rows' => Returned (row :: rows')
          end
      end
  end.

Definition parseCsv (text : string) : Outcome (list Minter.CsvData) :=
  let lines := nonBlankLines text in
  if Js.length lines <? 2 then
    Threw (ErrorObj "CSV must have a header and at least one data row.")
  else
    let header :=
      map (fun h => toLowerCase (trim h)) (split comma (nth 0 lines "")) in
    let tokenIdIndex := indexOf "token_id" header in
    let metadataUrlIndex := indexOf "metadata_url" header in
    if ((tokenIdIndex =? -1) || (metadataUrlIndex =? -1))%bool then
      Threw (ErrorObj "CSV header must contain 'token_id' and 'metadata_url' columns.")
    else
      mapRows tokenIdIndex metadataUrlIndex (slice lines 1 (Js.length lines)) 0.

(** ** The handler *)

(** The chosen file: its name and the text [readAsText] delivers. *)
Record CsvFile : Type := { file_name : string; file_text : string }.

Section Handler.
Variable Chain : Type.

Local Open Scope eff_scope.

Definition setParsedData (v : list Minter.CsvData) : Minter.M Chain unit :=
  Minter.setComponent
    (fun c => Minter.mkComponent (Minter.contractAddress c) (Minter.network c) v
                                 (Minter.fileName c) (Minter.error c) (Minter.isMinting c)
                                 (Minter.isFinished c) (Minter.mintingProgress c)).

Definition setFileName (v : string) : Minter.M Chain unit :=
  Minter.setComponent
    (fun c => Minter.mkComponent (Minter.contractAddress c) (Minter.network c)
                                 (Minter.parsedData c) v (Minter.error c)
                                 (Minter.isMinting c) (Minter.isFinished c)
                                 (Minter.mintingProgress c)).

(** [handleFileChange], with [reader.onload] run on the file's text. *)
Definition handleFileChange (file : option CsvFile) : Minter.M Chain unit :=
  match file with
  | None => Eff.ret tt
  | Some f =>
      Minter.setError None ;;
      setParsedData [] ;;
      setFileName (file_name f) ;;
      match parseCsv (file_text f) with
      | Returned data => setParsedData data
      | Threw err =>
          Minter.setError (message err) ;;
          setFileName ""
      end
  end.

End Handler.
End Csv.

(* ------------------------------------------------------------------ *)
(** * store/index.ts, nftsSlice.ts, walletSlice.ts, uiSlice.ts *)
(* ------------------------------------------------------------------ *)

Module Store.

Record Trait : Type := { trait_type : string; trait_value : string }.

Record MintedNft : Type :=
  { title : string;
    description : string;
    properties : list Trait;
    imageUrl : string;
    mintDate : Z;
    transactionHash : option string }.

Record UiState : Type :=
  { isMintingModalOpen : bool;
    nftTraits : list Trait }.

(** [window.localStorage] and [window.sessionStorage]: keys to strings. *)
Definition Storage : Type := string -> option string.

Definition emptyStorage : Storage := fun _ => None.

Definition getItem (st : Storage) (key : string) : option string := st key.

Definition setItem (st : Storage) (key value : string) : Storage :=
  fun k => if String.eqb k key then Some value else st k.

Definition removeItem (st : Storage) (key : string) : Storage :=
  fun k => if String.eqb k key then None else st k.

Section Root.
Variable File : Type.

(** [RootState] *)
Record RootState : Type := mkRoot
  { editor : EditorState File;
    walletAddress : option string;
    myNfts : list MintedNft;
    ui : UiState }.

Definition initialRoot : RootState :=
  {| editor := initialState;
     walletAddress := None;
     myNfts := [];
     ui := {| isMintingModalOpen := false; nftTraits := [] |} |}.

(** The actions of the four slices. *)
Inductive RootAction : Type :=
| editorAction (action : Action File)
| setWalletAddress (payload : option string)
| setNfts (payload : list MintedNft)
| addNft (payload : MintedNft)
| setIsMintingModalOpen (payload : bool)
| setNftTraits (payload : list Trait).

(** The root reducer: each slice reduces its own actions. *)
Definition rootReducer (state : RootState) (action : RootAction) : RootState :=
  match action with
  | editorAction a =>
      mkRoot (reducer (editor state) a) (walletAddress state) (myNfts state) (ui state)
  | setWalletAddress a =>
      mkRoot (editor state) a (myNfts state) (ui state)
  | setNfts l =>
      mkRoot (editor state) (walletAddress state) l (ui state)
  | addNft n =>
      mkRoot (editor state) (walletAddress state) (push (myNfts state) n) (ui state)
  | setIsMintingModalOpen b =>
      mkRoot (editor state) (walletAddress state) (myNfts state)
             {| isMintingModalOpen := b; nftTraits := nftTraits (ui state) |}
  | setNftTraits l =>
      mkRoot (editor state) (walletAddress state) (myNfts state)
             {| isMintingModalOpen := isMintingModalOpen (ui state); nftTraits := l |}
  end.

(** The store with the browser's two storages. *)
Record World : Type := mkWorld
  { root : RootState;
    localStorage : Storage;
    sessionStorage : Storage }.

(** A minting status shown by the modal. *)
Inductive Step : Type :=
| idle | step_network | uploading | confirming | minting | success | step_error.

Record MintingStatus : Type :=
  { step : Step; status_message : string; status_txHash : option string }.

Inductive Event : Type :=
| EvDispatch (action : RootAction)
| EvNavigate (path : string)
| EvStatus (status : MintingStatus).

Definition M := Eff.M World Event.

Local Open Scope eff_scope.

Definition dispatch (action : RootAction) : M unit :=
  fun w => (Returned tt,
            mkWorld (rootReducer (root w) action) (localStorage w) (sessionStorage w),
            [EvDispatch action]).

Definition localSetItem (key value : string) : M unit :=
  Eff.modify (fun w => mkWorld (root w) (setItem (localStorage w) key value)
                               (sessionStorage w)).

Definition localRemoveItem (key : string) : M unit :=
  Eff.modify (fun w => mkWorld (root w) (removeItem (localStorage w) key)
                               (sessionStorage w)).

Definition sessionSetItem (key value : string) : M unit :=
  Eff.modify (fun w => mkWorld (root w) (localStorage w)
                               (setItem (sessionStorage w) key value)).

Definition sessionRemoveItem (key : string) : M unit :=
  Eff.modify (fun w => mkWorld (root w) (localStorage w)
                               (removeItem (sessionStorage w) key)).

End Root.

Arguments setWalletAddress {File} payload.
Arguments setNfts {File} payload.
Arguments addNft {File} payload.
Arguments setIsMintingModalOpen {File} payload.
Arguments setNftTraits {File} payload.
Arguments EvNavigate {File} path.
Arguments EvStatus {File} status.
End Store.

(* ------------------------------------------------------------------ *)
(** * store/walletActions.ts *)
(* ------------------------------------------------------------------ *)

Module Wallet.

Definition WALLET_ADDRESS_STORAGE_KEY : string := "pixshop-last-connected-wallet".

(** [`nfts-${walletAddress}`] *)
Definition nftsKey (address : string) : string := ("nfts-" ++ address)%string.

Section Thunks.
Variable File : Type.

(** The wallet provider and the JSON codec of the NFT list. *)
Record Env : Type :=
  { (* [window.ethereum] is present *)
    ethereum : bool;
    (* [ethereum.request({method: 'eth_requestAccounts'})] *)
    eth_requestAccounts : Outcome (option (list string));
    (* [ethereum.request({method: 'eth_accounts'})] *)
    eth_accounts : Outcome (option (list string));
    (* [JSON.parse] of a stored NFT list *)
    parseNfts : string -> Outcome (list Store.MintedNft);
    (* [JSON.stringify] of the NFT list *)
    stringifyNfts : list Store.MintedNft -> string }.

Variable env : Env.

Local Open Scope eff_scope.

Definition M := Store.M File.

Definition loadNftsForWallet (address : string) : M unit :=
  Eff.try_catch
    (storedNfts <- Eff.gets (fun w => Store.getItem (Store.localStorage w) (nftsKey address)) ;;
     if truthy_opt storedNfts then
       parsed <- Eff.settle (parseNfts env (or_else storedNfts "")) ;;
       Store.dispatch (Store.setNfts parsed)
     else
       Store.dispatch (Store.setNfts []))
    (fun _ => Store.dispatch (Store.setNfts [])).

(** The NFT list kept in storage for a wallet: what the stored text
    parses to, and the empty list when there is no text or it does not
    parse. *)
Definition savedNfts (st : Store.Storage) (address : string) : list Store.MintedNft :=
  match Store.getItem st (nftsKey address) with
  | Some text =>
      if truthy text then
        match parseNfts env text with
        | Returned l => l
        | Threw _ => []
        end
      else []
  | None => []
  end.

Definition connectWallet : M unit :=
  if ethereum env then
    Eff.try_catch
      (accounts <- Eff.settle (eth_requestAccounts env) ;;
       match accounts with
       | Some (address :: _) =>
           Store.localSetItem WALLET_ADDRESS_STORAGE_KEY address ;;
           Store.dispatch (Store.setWalletAddress (Some address)) ;;
           loadNftsForWallet address
       | _ => Eff.ret tt
       end)
      (fun _ =>
         Store.dispatch
           (Store.editorAction (setError (Some "Failed to connect wallet. Please try again."))))
  else
    Store.dispatch
      (Store.editorAction (setError (Some "Please install a Web3 wallet like MetaMask."))).

Definition disconnectWallet : M unit :=
  Store.localRemoveItem WALLET_ADDRESS_STORAGE_KEY ;;
  Store.dispatch (Store.setWalletAddress None) ;;
  Store.dispatch (Store.setNfts []).

(** [a !== b] between a string and a string or [null] *)
Definition differs (a : string) (b : option string) : bool :=
  match b with
  | Some s => negb (String.eqb a s)
  | None => true
  end.

Definition silentConnect : M unit :=
  if negb (ethereum env) then
    Store.dispatch (Store.editorAction (setIsLoading false))
  else
    Eff.try_finally
      (Eff.try_catch
         (accounts <- Eff.settle (eth_accounts env) ;;
          lastConnectedAddress <-
            Eff.gets (fun w => Store.getItem (Store.localStorage w)
                                             WALLET_ADDRESS_STORAGE_KEY) ;;
          match accounts with
          | Some (address :: _) =>
              (if differs address lastConnectedAddress
               then Store.localSetItem WALLET_ADDRESS_STORAGE_KEY address
               else Eff.ret tt) ;;
              Store.dispatch (Store.setWalletAddress (Some address)) ;;
              loadNftsForWallet address
          | _ =>
              if truthy_opt lastConnectedAddress
              then Store.localRemoveItem WALLET_ADDRESS_STORAGE_KEY
              else Eff.ret tt
          end)
         (fun _ => Eff.ret tt))
      (Store.dispatch (Store.editorAction (setIsLoading false))).

Definition handleAccountsChanged (accounts : list string) : M unit :=
  walletAddress <- Eff.gets (fun w => Store.walletAddress (Store.root w)) ;;
  match accounts with
  | newAddress :: _ =>
      if differs newAddress walletAddress then
        Store.localSetItem WALLET_ADDRESS_STORAGE_KEY newAddress ;;
        Store.dispatch (Store.setWalletAddress (Some newAddress)) ;;
        loadNftsForWallet newAddress
      else Eff.ret tt
  | [] => disconnectWallet
  end.

(** The effect of App.tsx that saves the NFT list of the connected
    wallet whenever the list or the wallet changes. *)
Definition saveNftsEffect : M unit :=
  w <- Eff.gets (fun w => w) ;;
  match Store.walletAddress (Store.root w) with
  | Some address =>
      if truthy address then
        Store.localSetItem (nftsKey address)
                           (stringifyNfts env (Store.myNfts (Store.root w)))
      else Eff.ret tt
  | None => Eff.ret tt
  end.

End Thunks.
End Wallet.

(* ------------------------------------------------------------------ *)
(** * App.tsx: the session effects and the mint confirmation *)
(* ------------------------------------------------------------------ *)

Module App.

Definition SESSION_STORAGE_KEY : string := "pixshop-session".

(** What [JSON.parse(savedSession)] destructures into: [history] when it
    is an array (of data URLs), and [historyIndex]. *)
Record SavedSession : Type :=
  { saved_history : option (list string);
    saved_index : Z }.

(** The metadata typed into the minting modal. *)
Record Metadata : Type :=
  { meta_title : string;
    meta_description : string;
    meta_properties : list Store.Trait }.

Section Handlers.
Variable File : Type.

Record Env : Type :=
  { (* [JSON.parse] of the saved session with its destructuring; it throws
       on text that is not JSON or not an object *)
    parseSession : string -> Outcome SavedSession;
    (* [JSON.stringify({history, historyIndex})] *)
    stringifySession : list string -> Z -> string;
    (* [dataURLtoFile(dataurl, filename)] *)
    dataURLtoFile : string -> string -> Outcome File;
    (* [fileToDataURL(file)] *)
    fileToDataURL : File -> Outcome string;
    (* [location.pathname] *)
    pathname : string;
    (* the two constants imported from polygonService *)
    DEFAULT_CONTRACT_ADDRESS : string;
    DEFAULT_NETWORK : string;
    (* [polygonService.mintNftOnPolygon(file, metadata, setStatus, config)]:
       the statuses it reports and how it settles *)
    mintNftOnPolygon :
      File -> Metadata -> string -> string
      -> list Store.MintingStatus * Outcome (option Minter.Receipt);
    (* [URL.createObjectURL(file)] *)
    createObjectURL : File -> string;
    (* [Date.now()] *)
    now : Z }.

Variable env : Env.

Local Open Scope eff_scope.

Definition M := Store.M File.

(** [Promise.all(urls.map(async (dataUrl, i) => dataURLtoFile(dataUrl,
    `session-img-${i}.png`)))]: all the files, or the first rejection. *)
Fixpoint decodeAll (urls : list string) (i : Z) : Outcome (list File) :=
  match urls with
  | [] => Returned []
  | dataUrl :: rest =>
      match dataURLtoFile env dataUrl ("session-img-" ++ of_number i ++ ".png")%string with
      | Threw e => Threw e
      | Returned file =>
          match decodeAll rest (i + 1) with
          | Threw e => Threw e
          | Returned files => Returned (file :: files)
          end
      end
  end.

(** The session loading effect. The [then] callback of [Promise.all] runs
    after the [finally] block; a rejected [Promise.all] has no handler. *)
Definition loadSessionEffect : M unit :=
  w0 <- Eff.gets (fun w => w) ;;
  pending <-
    Eff.try_finally
      (Eff.try_catch
         (savedSession <-
            Eff.gets (fun w => Store.getItem (Store.sessionStorage w) SESSION_STORAGE_KEY) ;;
          if truthy_opt savedSession then
            parsed <- Eff.settle (parseSession env (or_else savedSession "")) ;;
            match saved_history parsed with
            | Some (dataUrl :: rest) =>
                Eff.ret (Some (decodeAll (dataUrl :: rest) 0, saved_index parsed))
            | _ => Eff.ret None
            end
          else Eff.ret None)
         (fun _ =>
            Store.sessionRemoveItem SESSION_STORAGE_KEY ;;
            Eff.ret None))
      (if isLoading (Store.editor (Store.root w0))
       then Store.dispatch (Store.editorAction (setIsLoading false))
       else Eff.ret tt) ;;
  match pending with
  | Some (Returned files, savedIndex) =>
      Store.dispatch (Store.editorAction (setHistoryState files savedIndex)) ;;
      if String.eqb (pathname env) "/"
      then Eff.emit (fun _ => Store.EvNavigate "/editor")
      else Eff.ret tt
  | _ => Eff.ret tt
  end.

(** [Promise.all(history.map(file => fileToDataURL(file)))] *)
Fixpoint encodeAll (files : list File) : Outcome (list string) :=
  match files with
  | [] => Returned []
  | file :: rest =>
      match fileToDataURL env file with
      | Threw e => Threw e
      | Returned url =>
          match encodeAll rest with
          | Threw e => Threw e
          | Returned urls => Returned (url :: urls)
          end
      end
  end.

(** The session saving effect ([setItem] is taken to succeed). *)
Definition saveSessionEffect : M unit :=
  w <- Eff.gets (fun w => w) ;;
  let e := Store.editor (Store.root w) in
  if ((0 <? Js.length (history e)) && (0 <=? historyIndex e))%bool then
    Eff.try_catch
      (historyDataUrls <- Eff.settle (encodeAll (history e)) ;;
       Store.sessionSetItem SESSION_STORAGE_KEY
                            (stringifySession env historyDataUrls (historyIndex e)))
      (fun _ => Eff.ret tt)
  else Eff.ret tt.

Definition handleUploadNew : M unit :=
  Store.sessionRemoveItem SESSION_STORAGE_KEY ;;
  Store.dispatch (Store.editorAction resetHistory) ;;
  Eff.emit (fun _ => Store.EvNavigate "/").

Definition handleOpenMintModal : M unit :=
  w <- Eff.gets (fun w => w) ;;
  if truthy_opt (Store.walletAddress (Store.root w)) then
    Store.dispatch (Store.setIsMintingModalOpen true)
  else
    Store.dispatch (Store.editorAction (setError (Some "Please connect your wallet to mint."))).

(** [setStatus(status)] of the modal *)
Definition setStatus (st : Store.Step) (msg : string) (tx : option string) : M unit :=
  Eff.emit (fun _ => Store.EvStatus
                       {| Store.step := st; Store.status_message := msg;
                          Store.status_txHash := tx |}).

Fixpoint reportAll (statuses : list Store.MintingStatus) : M unit :=
  match statuses with
  | [] => Eff.ret tt
  | s :: rest => Eff.emit (fun _ => Store.EvStatus s) ;; reportAll rest
  end.

Definition knownNetwork (networkName : string) : bool :=
  (String.eqb networkName "polygon-mainnet"
   || String.eqb networkName "polygon-mumbai"
   || String.eqb networkName "mega-testnet")%bool.

Definition handleConfirmMint (metadata : Metadata) : M unit :=
  w <- Eff.gets (fun w => w) ;;
  match currentImage (Store.editor (Store.root w)) with
  | None => setStatus Store.step_error "No image found to mint." None
  | Some currentImageFile =>
      let contractAddress :=
        or_else (Store.getItem (Store.localStorage w) "pixshop-contract-address")
                (DEFAULT_CONTRACT_ADDRESS env) in
      let networkName :=
        or_else (Store.getItem (Store.localStorage w) "pixshop-network")
                (DEFAULT_NETWORK env) in
      if (negb (truthy contractAddress) || String.eqb contractAddress "0x..."
          || String.eqb (trim contractAddress) "")%bool then
        setStatus Store.step_error
          ("Contract address is not configured. Please set it in the "
             ++ dquote ++ "Minter" ++ dquote
             ++ " tab on the Home page, or update the placeholder in the services/polygonService.ts file.")%string
          None
      else if negb (knownNetwork networkName) then
        setStatus Store.step_error
          ("Invalid network configured: " ++ dquote ++ networkName ++ dquote
             ++ ". Please select a valid network in the "
             ++ dquote ++ "Minter" ++ dquote ++ " tab.")%string
          None
      else
        Eff.try_catch
          (let '(statuses, result) :=
             mintNftOnPolygon env currentImageFile metadata contractAddress networkName in
           reportAll statuses ;;
           receipt <- Eff.settle result ;;
           txhash <- match receipt with
                     | Some r =>
                         if truthy (Minter.hash r) then Eff.ret (Minter.hash r)
                         else Eff.throw (ErrorObj "Transaction failed or hash not found.")
                     | None => Eff.throw (ErrorObj "Transaction failed or hash not found.")
                     end ;;
           Store.dispatch
             (Store.addNft
                {| Store.title := meta_title metadata;
                   Store.description := meta_description metadata;
                   Store.properties := meta_properties metadata;
                   Store.imageUrl := createObjectURL env currentImageFile;
                   Store.mintDate := now env;
                   Store.transactionHash := Some txhash |}) ;;
           setStatus Store.success "Your NFT has been successfully minted!" (Some txhash))
          (fun error =>
             setStatus Store.step_error
               (or_else (message error) "An unexpected error occurred during minting.")
               None)
  end.

End Handlers.
End App.

(* ------------------------------------------------------------------ *)
(** * services/polygonService.ts *)
(* ------------------------------------------------------------------ *)

Module Polygon.

(** [error.code]: a number (wallet errors) or a string (ethers errors). *)
Inductive Code : Type :=
| NumCode (n : Z)
| StrCode (s : string).

(** A thrown value, through the fields the service reads from it:
    [code], [reason], [data?.message] and [message]. What the wallet and
    ethers reject with is an object; a rejection with [null] or
    [undefined], on which reading [code] would itself raise, has no
    counterpart here. *)
Record Err : Type :=
  { code : option Code;
    reason : option string;
    dataMessage : option string;
    errMessage : option string }.

(** [new Error(message)] *)
Definition newError (m : string) : Err :=
  {| code := None; reason := None; dataMessage := None; errMessage := Some m |}.

Inductive Reply (A : Type) : Type :=
| Ok (a : A)
| Fail (e : Err).
Arguments Ok {A} a.
Arguments Fail {A} e.

Record Network : Type :=
  { chainId : string;
    chainName : string;
    rpcUrl : string;
    blockExplorerUrl : string }.

(** [NETWORKS[networkName]] *)
Definition NETWORKS (networkName : string) : option Network :=
  if String.eqb networkName "polygon-mainnet" then
    Some {| chainId := "0x89"; chainName := "Polygon Mainnet";
            rpcUrl := "https://polygon-rpc.com/";
            blockExplorerUrl := "https://polygonscan.com/" |}
  else if String.eqb networkName "polygon-mumbai" then
    Some {| chainId := "0x13881"; chainName := "Polygon Mumbai Testnet";
            rpcUrl := "https://rpc-mumbai.maticvigil.com/";
            blockExplorerUrl := "https://mumbai.polygonscan.com/" |}
  else None.

(** What is asked of the wallet and of the chain. *)
Inductive Request : Type :=
| wallet_switchEthereumChain (chain_id : string)
| wallet_addEthereumChain (network : Network)
| getSigner
| safeMint (contract to uri : string)
| waitForReceipt (tx : string).

Record MintOptions : Type :=
  { contractAddress : string;
    networkName : string;
    toAddress : string;
    metadataUrl : string }.

Section Service.
(** The state of the wallet and of the chain. *)
Variable Chain : Type.

Record Provider : Type :=
  { (* [window.ethereum] is present *)
    ethereum : bool;
    (* [ethers.isAddress] *)
    isAddress : string -> bool;
    (* the answer to a wallet request or a chain call: a transaction hash
       for [safeMint], the receipt's hash (or nothing for a [null]
       receipt) for [waitForReceipt] *)
    answer : Chain -> Request -> Reply (option string) * Chain }.

Variable provider : Provider.

Definition P (A : Type) : Type := Chain -> Reply A * Chain * list Request.

Definition pure {A} (a : A) : P A := fun ch => (Ok a, ch, []).

Definition raise {A} (e : Err) : P A := fun ch => (Fail e, ch, []).

Definition andThen {A B} (m : P A) (k : A -> P B) : P B :=
  fun ch =>
    match m ch with
    | (Ok a, ch1, l1) => match k a ch1 with (r, ch2, l2) => (r, ch2, l1 ++ l2) end
    | (Fail e, ch1, l1) => (Fail e, ch1, l1)
    end.

Definition catch {A} (m : P A) (handler : Err -> P A) : P A :=
  fun ch =>
    match m ch with
    | (Ok a, ch1, l1) => (Ok a, ch1, l1)
    | (Fail e, ch1, l1) =>
        match handler e ch1 with (r, ch2, l2) => (r, ch2, l1 ++ l2) end
    end.

(** An awaited request. *)
Definition ask (request : Request) : P (option string) :=
  fun ch => let '(r, ch') := answer provider ch request in (r, ch', [request]).

Definition is4902 (c : option Code) : bool :=
  match c with
  | Some (NumCode n) => n =? 4902
  | _ => false
  end.

Definition isActionRejected (c : option Code) : bool :=
  match c with
  | Some (StrCode s) => String.eqb s "ACTION_REJECTED"
  | _ => false
  end.

Definition switchToNetwork (name : string) : P unit :=
  if negb (ethereum provider) then raise (newError "No crypto wallet found")
  else
    match NETWORKS name with
    | None => raise (newError ("Invalid network name: " ++ name)%string)
    | Some targetNetwork =>
        catch
          (andThen (ask (wallet_switchEthereumChain (chainId targetNetwork)))
                   (fun _ => pure tt))
          (fun switchError =>
             if is4902 (code switchError) then
               catch
                 (andThen (ask (wallet_addEthereumChain targetNetwork))
                          (fun _ => pure tt))
                 (fun _ =>
                    raise (newError ("Failed to add " ++ chainName targetNetwork
                                       ++ " network.")%string))
             else
               raise (newError ("Failed to switch to " ++ chainName targetNetwork
                                  ++ " network.")%string))
    end.

(** [error.reason || error.data?.message || error.message] *)
Definition reasonOf (error : Err) : option string :=
  if truthy_opt (reason error) then reason error
  else if truthy_opt (dataMessage error) then dataMessage error
  else errMessage error.

(** What the [catch] block of [mintFromMetadataUrl] throws for a caught
    error. *)
Definition describe (error : Err) : Err :=
  if isActionRejected (code error) then
    newError "Transaction rejected in wallet."
  else
    newError (or_else (reasonOf error) "An unknown error occurred during minting.").

(** [mintFromMetadataUrl(options)]; it resolves with the receipt's hash
    field ([None] would be a [null] receipt). Building the provider and
    the contract objects is taken not to throw. *)
Definition mintFromMetadataUrl (options : MintOptions) : P (option string) :=
  if negb (ethereum provider) then raise (newError "No crypto wallet found")
  else if negb (isAddress provider (contractAddress options)) then
    raise (newError "Invalid contract address.")
  else
    andThen (switchToNetwork (networkName options)) (fun _ =>
    andThen (ask getSigner) (fun _ =>
    catch
      (andThen (ask (safeMint (contractAddress options) (toAddress options)
                              (metadataUrl options))) (fun mintTx =>
       andThen (ask (waitForReceipt (or_else mintTx ""))) (fun receipt =>
       match receipt with
       | None => raise (newError "Transaction failed to confirm.")
       | Some h => pure (Some h)
       end)))
      (fun error => raise (describe error)))).

(** ** The service as the batch minter calls it *)

Definition toThrown (e : Err) : Thrown :=
  match errMessage e with
  | Some m => ErrorObj m
  | None => NotAnError
  end.

Definition toOptions (o : Minter.MintOptions) : MintOptions :=
  {| contractAddress := Minter.opt_contractAddress o;
     networkName :=
       match Minter.opt_networkName o with
       | Minter.polygon_mainnet => "polygon-mainnet"
       | Minter.polygon_mumbai => "polygon-mumbai"
       end;
     toAddress := Minter.opt_toAddress o;
     metadataUrl := Minter.opt_metadataUrl o |}.

Definition minterEnv (wallet : option string) (confirm : string -> bool)
  : Minter.Env Chain :=
  {| Minter.walletAddress := wallet;
     Minter.confirm := confirm;
     Minter.mintFromMetadataUrl := fun ch o =>
       match mintFromMetadataUrl (toOptions o) ch with
       | (Ok (Some h), ch', _) => (Returned (Some {| Minter.hash := h |}), ch')
       | (Ok None, ch', _) => (Returned None, ch')
       | (Fail e, ch', _) => (Threw (toThrown e), ch')
       end |}.

End Service.
End Polygon.

(* ------------------------------------------------------------------ *)
(** * geminiService.ts: text to image *)
(* ------------------------------------------------------------------ *)

Module TextToImage.

Record ImagesFeedback : Type :=
  { safetyRatings : option (list bool);   (* the [blocked] flag of each rating *)
    blockReason : option string;
    blockReasonMessage : option string }.

Record GenerateImagesResponse : Type :=
  { (* [image?.imageBytes] of each generated image *)
    generatedImages : option (list (option string));
    promptFeedback : option ImagesFeedback }.

(** The part of [generateImageFromText] after the awaited model call. *)
Definition readImagesResponse (response : GenerateImagesResponse) : Outcome string :=
  let firstImage :=
    match generatedImages response with
    | Some images => match get images 0 with Some bytes => bytes | None => None end
    | None => None
    end in
  if truthy_opt firstImage then
    Returned ("data:image/png;base64," ++ or_else firstImage "")%string
  else
    let blocked :=
      match promptFeedback response with
      | Some fb =>
          match safetyRatings fb with
          | Some ratings => if existsb (fun r => r) ratings then Some fb else None
          | None => None
          end
      | None => None
      end in
    match blocked with
    | Some fb =>
        Threw (ErrorObj ("Image generation was blocked. Reason: "
                           ++ or_else (blockReason fb) "Safety settings" ++ ". "
                           ++ or_else (blockReasonMessage fb)
                                      "Your prompt may have violated the safety policy.")%string)
    | None =>
        Threw (ErrorObj "The AI model did not return an image. Please try a different prompt.")
    end.

(** [generateImageFromText(prompt)] over the model call
    [ai.models.generateImages]. *)
Definition generateImageFromText
           (generateImages : string -> Outcome GenerateImagesResponse) (prompt : string)
  : Outcome string :=
  match generateImages prompt with
  | Threw e => Threw e
  | Returned response => readImagesResponse response
  end.

End TextToImage.

(* ------------------------------------------------------------------ *)
(** * components/MintingModal.tsx: the list of properties *)
(* ------------------------------------------------------------------ *)

Module Modal.

(** [arr.filter((_, i) => keep i)], with [i] counted from [from] *)
Fixpoint filterIndex {A} (keep : Z -> bool) (arr : list A) (from : Z) : list A :=
  match arr with
  | [] => []
  | x :: rest =>
      if keep from then x :: filterIndex keep rest (from + 1)
      else filterIndex keep rest (from + 1)
  end.

Definition handleAddProperty (properties : list Store.Trait) : list Store.Trait :=
  properties ++ [{| Store.trait_type := ""; Store.trait_value := "" |}].

Definition handleRemoveProperty (properties : list Store.Trait) (index : Z)
  : list Store.Trait :=
  filterIndex (fun i => negb (i =? index)) properties 0.

End Modal.

(* ------------------------------------------------------------------ *)
(** * pages/DashboardPage.tsx *)
(* ------------------------------------------------------------------ *)

Module Dashboard.

Inductive SortOption : Type :=
| date_desc | date_asc | name_asc | name_desc | custom.

(** An NFT with the index it has in the store. *)
Record Indexed : Type := { nft : Store.MintedNft; originalIndex : Z }.

(** [nfts.map((nft, index) => ({...nft, originalIndex: index}))] *)
Fixpoint withIndexFrom (nfts : list Store.MintedNft) (i : Z) : list Indexed :=
  match nfts with
  | [] => []
  | n :: rest => {| nft := n; originalIndex := i |} :: withIndexFrom rest (i + 1)
  end.

(** [s.startsWith(t)] and [s.includes(t)] *)
Fixpoint startsWith (s t : string) : bool :=
  match t, s with
  | EmptyString, _ => true
  | String b t', String a s' => (Ascii.eqb a b && startsWith s' t')%bool
  | String _ _, EmptyString => false
  end.

Fixpoint includes (s t : string) : bool :=
  (startsWith s t
   || match s with
      | String _ s' => includes s' t
      | EmptyString => false
      end)%bool.

(** [arr.sort(compare)]: the sort is stable; for a comparator that is a
    consistent ordering the result is the stable insertion of each
    element. *)
Section Sort.
Context {A : Type}.
Variable compare : A -> A -> Z.

Fixpoint insertSorted (x : A) (sorted : list A) : list A :=
  match sorted with
  | [] => [x]
  | y :: rest => if compare x y <=? 0 then x :: y :: rest else y :: insertSorted x rest
  end.

Fixpoint sort (arr : list A) : list A :=
  match arr with
  | [] => []
  | x :: rest => insertSorted x (sort rest)
  end.
End Sort.

(** [arr.splice(start, 1)]: the removed element, if any, and what is
    left. *)
Definition spliceOne {A} (arr : list A) (start : Z) : option A * list A :=
  let k := Z.to_nat (clamp (Js.length arr) start) in
  match skipn k arr with
  | x :: rest => (Some x, firstn k arr ++ rest)
  | [] => (None, arr)
  end.

(** [arr.splice(start, 0, item)] *)
Definition spliceInsert {A} (arr : list A) (start : Z) (item : A) : list A :=
  let k := Z.to_nat (clamp (Js.length arr) start) in
  firstn k arr ++ item :: skipn k arr.

Section Page.
(** [a.localeCompare(b)] *)
Variable localeCompare : string -> string -> Z.

(** The store's NFT list and the page's own state. *)
Record State : Type := mkState
  { nfts : list Store.MintedNft;
    searchTerm : string;
    sortBy : SortOption;
    draggedIndex : option Z }.

Definition comparator (by_ : SortOption) (a b : Indexed) : Z :=
  match by_ with
  | date_desc => Store.mintDate (nft b) - Store.mintDate (nft a)
  | date_asc => Store.mintDate (nft a) - Store.mintDate (nft b)
  | name_asc => localeCompare (Store.title (nft a)) (Store.title (nft b))
  | name_desc => localeCompare (Store.title (nft b)) (Store.title (nft a))
  | custom => 0
  end.

(** The memo [filteredAndSortedNfts]. *)
Definition filteredAndSortedNfts (st : State) : list Indexed :=
  let nftsWithOriginalIndex := withIndexFrom (nfts st) 0 in
  let processedNfts :=
    if truthy (searchTerm st) then
      filter (fun n => includes (Csv.toLowerCase (Store.title (nft n)))
                                (Csv.toLowerCase (searchTerm st)))
             nftsWithOriginalIndex
    else nftsWithOriginalIndex in
  match sortBy st with
  | custom => processedNfts
  | by_ => sort (comparator by_) processedNfts
  end.

Definition handleDragStart (st : State) (index : Z) : State :=
  mkState (nfts st) (searchTerm st) (sortBy st) (Some index).

Definition handleDragEnd (st : State) : State :=
  mkState (nfts st) (searchTerm st) (sortBy st) None.

(** [handleDrop(e, dropIndex)]. When [splice] removes nothing the dragged
    item is [undefined], and stripping [originalIndex] from it throws. *)
Definition handleDrop (st : State) (dropIndex : Z) : Outcome State :=
  match draggedIndex st with
  | None => Returned (mkState (nfts st) (searchTerm st) (sortBy st) None)
  | Some dragged =>
      if dragged =? dropIndex then
        Returned (mkState (nfts st) (searchTerm st) (sortBy st) None)
      else
        match spliceOne (filteredAndSortedNfts st) dragged with
        | (Some draggedItem, reorderedNfts) =>
            let nftsToDispatch :=
              map nft (spliceInsert reorderedNfts dropIndex draggedItem) in
            Returned (mkState nftsToDispatch (searchTerm st) custom None)
        | (None, _) =>
            Threw (ErrorObj "Cannot destructure property 'originalIndex' of 'undefined' as it is undefined.")
        end
  end.

End Page.
End Dashboard.

(* ------------------------------------------------------------------ *)
(** * More concrete scenarios *)
(* ------------------------------------------------------------------ *)

Module Fixture.

Definition nl : string := String Csv.newline EmptyString.
Definition crnl : string := String Csv.carriageReturn (String Csv.newline EmptyString).

(** A CSV file with Windows line ends, a blank line, padded cells, an
    extra column and the columns in the other order. *)
Definition goodCsv : Csv.CsvFile :=
  {| Csv.file_name := "collection.csv";
     Csv.file_text :=
       ("Metadata_URL , name, TOKEN_ID" ++ crnl
          ++ "ipfs://one, First , 1" ++ crnl
          ++ crnl
          ++ " ipfs://two,Second,2 " ++ nl)%string |}.

(** The second data row has no token id. *)
Definition badCsv : Csv.CsvFile :=
  {| Csv.file_name := "broken.csv";
     Csv.file_text :=
       ("token_id,metadata_url" ++ nl
          ++ "1,ipfs://one" ++ nl
          ++ ",ipfs://two" ++ nl
          ++ "3,ipfs://three")%string |}.

Definition emptyMinter : Minter.World nat :=
  {| Minter.component :=
       {| Minter.contractAddress := "0xC0FFEE";
          Minter.network := Minter.polygon_mainnet;
          Minter.parsedData := Scenario.batch;
          Minter.fileName := "old.csv";
          Minter.error := Some "stale";
          Minter.isMinting := false;
          Minter.isFinished := false;
          Minter.mintingProgress := Minter.mkProgress 0 0 0 "" [] [] |};
     Minter.chain := 0%nat |}.

(** A wallet with one minted NFT, and a codec that knows its list. *)
Definition sunset : Store.MintedNft :=
  {| Store.title := "Cybernetic Sunset";
     Store.description := "";
     Store.properties := [];
     Store.imageUrl := "blob:1";
     Store.mintDate := 1700000000000;
     Store.transactionHash := Some "0xBEEF" |}.

Definition walletEnv : Wallet.Env :=
  {| Wallet.ethereum := true;
     Wallet.eth_requestAccounts := Returned (Some ["0xA11CE"]);
     Wallet.eth_accounts := Returned (Some ["0xA11CE"]);
     Wallet.parseNfts := fun text =>
       if String.eqb text "[sunset]" then Returned [sunset]
       else Threw (ErrorObj "Unexpected token in JSON");
     Wallet.stringifyNfts := fun l =>
       match l with [] => "[]" | _ => "[sunset]" end |}.

(** A provider whose requests are refused. *)
Definition lockedWalletEnv : Wallet.Env :=
  {| Wallet.ethereum := true;
     Wallet.eth_requestAccounts := Threw (ErrorObj "User rejected the request.");
     Wallet.eth_accounts := Threw (ErrorObj "Provider is locked.");
     Wallet.parseNfts := Wallet.parseNfts walletEnv;
     Wallet.stringifyNfts := Wallet.stringifyNfts walletEnv |}.

Definition connected : Store.World Scenario.File :=
  {| Store.root :=
       {| Store.editor := Scenario.rewound;
          Store.walletAddress := Some "0xA11CE";
          Store.myNfts := [sunset];
          Store.ui := {| Store.isMintingModalOpen := false; Store.nftTraits := [] |} |};
     Store.localStorage :=
       Store.setItem Store.emptyStorage Wallet.WALLET_ADDRESS_STORAGE_KEY "0xA11CE";
     Store.sessionStorage := Store.emptyStorage |}.

(** The application just started, with a list saved for the wallet. *)
Definition starting : Store.World Scenario.File :=
  {| Store.root := Store.initialRoot Scenario.File;
     Store.localStorage :=
       Store.setItem Store.emptyStorage (Wallet.nftsKey "0xA11CE") "[sunset]";
     Store.sessionStorage := Store.emptyStorage |}.

(** An application whose saved session holds two images and the cursor
    on the second; a file is told apart by its data URL. *)
Definition appEnv : App.Env Scenario.File :=
  {| App.parseSession := fun text =>
       if String.eqb text "{session}"
       then Returned {| App.saved_history := Some ["data:a"; "data:b"];
                        App.saved_index := 1 |}
       else Threw (ErrorObj "Unexpected token in JSON");
     App.stringifySession := fun _ _ => "{session}";
     App.dataURLtoFile := fun dataUrl _ => Returned dataUrl;
     App.fileToDataURL := fun file => Returned file;
     App.pathname := "/";
     App.DEFAULT_CONTRACT_ADDRESS := "0xC0FFEE";
     App.DEFAULT_NETWORK := "polygon-mainnet";
     App.mintNftOnPolygon := fun _ _ _ _ =>
       ([ {| Store.step := Store.step_network;
             Store.status_message := "Requesting network switch to Polygon Mainnet...";
             Store.status_txHash := None |} ],
        Returned (Some {| Minter.hash := "0xBEEF" |}));
     App.createObjectURL := fun _ => "blob:2";
     App.now := 1700000000001 |}.

Definition twoImages : Store.World Scenario.File :=
  {| Store.root :=
       {| Store.editor :=
            {| history := ["data:a"; "data:b"]; historyIndex := 1;
               isLoading := false; error := None |};
          Store.walletAddress := Some "0xA11CE";
          Store.myNfts := [sunset];
          Store.ui := {| Store.isMintingModalOpen := true; Store.nftTraits := [] |} |};
     Store.localStorage := Store.emptyStorage;
     Store.sessionStorage := Store.emptyStorage |}.

(** A session storage that holds text which is not JSON. *)
Definition corrupted : Store.World Scenario.File :=
  {| Store.root := Store.root twoImages;
     Store.localStorage := Store.emptyStorage;
     Store.sessionStorage :=
       Store.setItem Store.emptyStorage App.SESSION_STORAGE_KEY "{oops" |}.

(** A wallet that does not know the Polygon chain yet and adds it when
    asked; the chain state counts the requests made. The user then
    rejects the mint transaction. *)
Definition rejectingProvider : Polygon.Provider nat :=
  {| Polygon.ethereum := true;
     Polygon.isAddress := fun a => String.eqb a "0xC0FFEE";
     Polygon.answer := fun n request =>
       (match request with
        | Polygon.wallet_switchEthereumChain _ =>
            Polygon.Fail {| Polygon.code := Some (Polygon.NumCode 4902);
                            Polygon.reason := None;
                            Polygon.dataMessage := None;
                            Polygon.errMessage := Some "Unrecognized chain ID" |}
        | Polygon.wallet_addEthereumChain _ => Polygon.Ok None
        | Polygon.getSigner => Polygon.Ok (Some "0xA11CE")
        | Polygon.safeMint _ _ _ =>
            Polygon.Fail {| Polygon.code := Some (Polygon.StrCode "ACTION_REJECTED");
                            Polygon.reason := Some "rejected";
                            Polygon.dataMessage := None;
                            Polygon.errMessage := Some "user rejected action" |}
        | Polygon.waitForReceipt _ => Polygon.Ok None
        end, S n) |}.

Definition mintRequest : Polygon.MintOptions :=
  {| Polygon.contractAddress := "0xC0FFEE";
     Polygon.networkName := "polygon-mainnet";
     Polygon.toAddress := "0xA11CE";
     Polygon.metadataUrl := "ipfs://one" |}.

(** Three NFTs in the store, shown newest first, while the first card
    shown is being dragged. *)
Definition dawn : Store.MintedNft :=
  {| Store.title := "Dawn";
     Store.description := "";
     Store.properties := [];
     Store.imageUrl := "blob:2";
     Store.mintDate := 1600000000000;
     Store.transactionHash := None |}.

Definition noon : Store.MintedNft :=
  {| Store.title := "High Noon";
     Store.description := "";
     Store.properties := [];
     Store.imageUrl := "blob:3";
     Store.mintDate := 1800000000000;
     Store.transactionHash := None |}.

Definition gallery : Dashboard.State :=
  Dashboard.mkState [sunset; dawn; noon] "" Dashboard.date_desc (Some 0).

(** A comparison of titles by their code units. *)
Definition codeUnitCompare (a b : string) : Z :=
  match String.compare a b with
  | Lt => -1
  | Eq => 0
  | Gt => 1
  end.

End Fixture.

(* ------------------------------------------------------------------ *)
(** * Arrays: facts about [slice], [push] and indexing *)
(* ------------------------------------------------------------------ *)

Unset Implicit Arguments.

Section ArrayFacts.
Context {A : Type}.
Implicit Types (arr : list A) (i j e : Z).

Lemma length_nonneg arr : 0 <= Js.length arr.
Proof. unfold Js.length. lia. Qed.

Lemma length_nil : Js.length (@nil A) = 0.
Proof. reflexivity. Qed.

Lemma length_push arr x : Js.length (push arr x) = Js.length arr + 1.
Proof. unfold Js.length, push. rewrite length_app. simpl. lia. Qed.

(** [slice(0, e)] with [e] in range is the prefix of length [e]. *)
Lemma slice_prefix arr e :
  0 <= e <= Js.length arr -> slice arr 0 e = firstn (Z.to_nat e) arr.
Proof.
  intros He. unfold slice, clamp.
  replace (0 <? 0) with false by reflexivity.
  destruct (e <? 0) eqn:Hneg; [apply Z.ltb_lt in Hneg; lia|].
  rewrite (Z.min_l 0) by apply length_nonneg.
  rewrite Z.min_l by lia. simpl skipn.
  f_equal. lia.
Qed.

Lemma length_slice_prefix arr e :
  0 <= e <= Js.length arr -> Js.length (slice arr 0 e) = e.
Proof.
  intros He. rewrite slice_prefix by exact He.
  unfold Js.length in *. rewrite length_firstn. lia.
Qed.

Lemma get_Some_lt arr i x : get arr i = Some x -> 0 <= i < Js.length arr.
Proof.
  unfold get, Js.length. destruct (i <? 0) eqn:Hneg; [discriminate|].
  apply Z.ltb_ge in Hneg. intros H.
  assert (Z.to_nat i < List.length arr)%nat
    by (apply nth_error_Some; congruence).
  lia.
Qed.

Lemma get_in_range arr i : 0 <= i < Js.length arr -> exists x, get arr i = Some x.
Proof.
  unfold get, Js.length. intros Hi.
  destruct (i <? 0) eqn:Hneg; [apply Z.ltb_lt in Hneg; lia|].
  destruct (nth_error arr (Z.to_nat i)) eqn:Hn; [eauto|].
  apply nth_error_None in Hn. lia.
Qed.

Lemma get_out_of_range arr i : i < 0 \/ Js.length arr <= i -> get arr i = None.
Proof.
  unfold get, Js.length. intros Hi.
  destruct (i <? 0) eqn:Hneg; [reflexivity|].
  apply Z.ltb_ge in Hneg. apply nth_error_None. lia.
Qed.

Lemma get_In arr i x : get arr i = Some x -> In x arr.
Proof.
  unfold get. destruct (i <? 0); [discriminate|]. apply nth_error_In.
Qed.

(** In an array without repetitions, what sits beyond a prefix is not in
    the prefix. *)
Lemma beyond_prefix_not_in arr (n k : nat) x :
  NoDup arr -> (n <= k)%nat -> nth_error arr k = Some x -> ~ In x (firstn n arr).
Proof.
  intros Hnd Hle Hk Hin.
  apply In_nth_error in Hin. destruct Hin as [m Hm].
  assert (Hlt : (m < n)%nat).
  { assert (m < List.length (firstn n arr))%nat
      by (apply nth_error_Some; congruence).
    rewrite length_firstn in H. lia. }
  rewrite nth_error_firstn in Hm.
  destruct (Nat.ltb m n) eqn:Hmn; [|discriminate].
  assert (m = k).
  { apply (proj1 (NoDup_nth_error arr) Hnd).
    - apply nth_error_Some. congruence.
    - congruence. }
  lia.
Qed.
End ArrayFacts.

(* ------------------------------------------------------------------ *)
(** * The history store *)
(* ------------------------------------------------------------------ *)

Section HistoryFacts.
Variable File : Type.
Implicit Types (s : EditorState File) (a : File).

(** What [addImageToHistory] computes when the cursor is in range. *)
Lemma append_in_range s a :
  0 <= historyIndex s < Js.length (history s) ->
  history (reducer s (addImageToHistory a))
    = firstn (Z.to_nat (historyIndex s + 1)) (history s) ++ [a]
  /\ historyIndex (reducer s (addImageToHistory a)) = historyIndex s + 1.
Proof.
  intros Hc. simpl. rewrite length_push.
  rewrite length_slice_prefix by lia.
  rewrite slice_prefix by lia.
  split; [reflexivity | lia].
Qed.

(** After [addImageToHistory] the cursor is on the last element, whatever
    the state was. *)
Lemma append_cursor_last s a :
  historyIndex (reducer s (addImageToHistory a))
    = Js.length (history (reducer s (addImageToHistory a))) - 1
  /\ 0 < Js.length (history (reducer s (addImageToHistory a))).
Proof.
  simpl. rewrite length_push.
  pose proof (length_nonneg (slice (history s) 0 (historyIndex s + 1))).
  split; lia.
Qed.

Lemma append_on_empty s a :
  history s = [] -> historyIndex s = -1 ->
  reducer s (addImageToHistory a)
    = {| history := [a]; historyIndex := 0;
         isLoading := isLoading s; error := error s |}.
Proof.
  intros Hh Hi. simpl. rewrite Hh, Hi. reflexivity.
Qed.
End HistoryFacts.

Section HistoryClaims.
Variable File : Type.
Implicit Types (s : EditorState File) (a : File) (w : Page.World File).

(** C1, amended. On a non-empty history with the cursor [c] in range,
    [addImageToHistory a] gives the sequence [History[0..c] ++ [a]] and
    moves the cursor to [c+1], the new last index. At the tip
    ([c = length-1]) the length grows by exactly one. Below the tip the
    new length is [c+2] and nothing is stored beyond index [c+1]; an
    artifact that was at an index above [c] is still in the sequence
    exactly when it is [a] itself or also occurs at an index up to [c],
    so that it is no longer in the sequence when [a] and the stored
    artifacts are pairwise distinct objects. *)
Theorem append_truncates_then_pushes s a :
  0 < Js.length (history s) ->
  0 <= historyIndex s < Js.length (history s) ->
  let c := historyIndex s in
  let s' := reducer s (addImageToHistory a) in
  history s' = firstn (Z.to_nat (c + 1)) (history s) ++ [a]
  /\ historyIndex s' = c + 1
  /\ historyIndex s' = Js.length (history s') - 1
  /\ (c = Js.length (history s) - 1 ->
      Js.length (history s') = Js.length (history s) + 1)
  /\ (c < Js.length (history s) - 1 ->
      Js.length (history s') = c + 2
      /\ (forall j, c + 1 < j -> get (history s') j = None)
      /\ (NoDup (a :: history s) ->
          forall j x, c < j -> get (history s) j = Some x -> ~ In x (history s'))
      /\ (forall j x, c < j -> get (history s) j = Some x ->
            (In x (history s')
             <-> In x (firstn (Z.to_nat (c + 1)) (history s)) \/ x = a))).
Proof.
  intros Hlen Hc c s'.
  destruct (append_in_range _ s a Hc) as [Hh Hi].
  destruct (append_cursor_last _ s a) as [Hlast _].
  fold s' in Hh, Hi, Hlast. fold c in Hh, Hi.
  assert (Hlen' : Js.length (history s') = c + 2) by lia.
  split; [exact Hh|]. split; [exact Hi|]. split; [exact Hlast|].
  split; [intros; lia|]. intros Hbelow.
  split; [exact Hlen'|]. split; [|split].
  - intros j Hj. apply get_out_of_range. lia.
  - intros Hnd j x Hj Hget Hin.
    rewrite Hh in Hin. apply in_app_or in Hin.
    inversion Hnd as [|? ? Hfresh Hnd']; subst.
    destruct Hin as [Hin | [Heq | []]].
    + pose proof (get_Some_lt _ _ _ Hget) as Hrange.
      unfold get in Hget.
      destruct (j <? 0) eqn:Hneg; [discriminate|].
      revert Hin. apply (beyond_prefix_not_in _ _ (Z.to_nat j) _ Hnd'); [lia | exact Hget].
    + subst x. apply Hfresh. apply (get_In _ j). exact Hget.
  - intros j x Hj Hget. rewrite Hh. split.
    + intros Hin. apply in_app_or in Hin.
      destruct Hin as [Hin | [Heq | []]]; [left; exact Hin | right; symmetry; exact Heq].
    + intros [Hin | Heq]; apply in_or_app;
        [left; exact Hin | right; left; symmetry; exact Heq].
Qed.

(** Each caller operation keeps the invariant. *)
Lemma runHistoryOp_keeps_inv (op : Page.HistoryOp File) w :
  history_inv (Page.store w) ->
  history_inv (Page.store (Eff.final (Page.runHistoryOp op w))).
Proof.
  intros [Hempty Hrange]. destruct op as [a | a | i |].
  - (* seed *)
    split; simpl; [discriminate | unfold Js.length; simpl; lia].
  - (* append *)
    change (Page.store (Eff.final (Page.runHistoryOp (Page.append a) w)))
      with (reducer (Page.store w) (addImageToHistory a)).
    destruct (append_cursor_last _ (Page.store w) a) as [Hlast Hpos].
    split.
    + intros Hnil. rewrite Hnil in Hpos. unfold Js.length in Hpos. simpl in Hpos. lia.
    + intros _. lia.
  - (* seek *)
    unfold Page.runHistoryOp, Page.handleHistoryNavigation, Eff.bind, Eff.gets.
    destruct (0 <=? i) eqn:H0; destruct (i <? Js.length (history (Page.store w))) eqn:H1;
      simpl; try (split; assumption).
    apply Z.leb_le in H0. apply Z.ltb_lt in H1.
    split; simpl.
    + intros Hnil. rewrite Hnil in H1. unfold Js.length in H1. simpl in H1. lia.
    + intros _. lia.
  - (* reset *)
    split; simpl; [reflexivity | unfold Js.length; simpl; lia].
Qed.

Lemma initialState_inv : history_inv (@initialState File).
Proof. split; [reflexivity | unfold Js.length; simpl; lia]. Qed.

(** C2. The invariant [0 <= cursor < length] on a non-empty history, and
    [cursor = -1] on the empty one, holds in the initial state and is
    preserved by each operation callers have on the history: seed,
    append, seek and reset. *)
Theorem history_invariant_preserved :
  history_inv (@initialState File)
  /\ forall (op : Page.HistoryOp File) w,
      history_inv (Page.store w) ->
      history_inv (Page.store (Eff.final (Page.runHistoryOp op w))).
Proof.
  split; [apply initialState_inv | intros op w; apply runHistoryOp_keeps_inv].
Qed.

(** C3, as amended. Appending to the empty history (History = [],
    cursor = -1) does not fail: the dispatch returns normally, with the
    one-element history [[a]] and the cursor on it. No error of any kind
    is raised. *)
Theorem append_on_empty_is_tolerated s a :
  history s = [] -> historyIndex s = -1 ->
  exists s', dispatch_outcome s (addImageToHistory a) = Returned s'
             /\ history s' = [a] /\ historyIndex s' = 0.
Proof.
  intros Hh Hi. eexists. split; [reflexivity|].
  rewrite (append_on_empty _ s a Hh Hi). split; reflexivity.
Qed.

(** What a navigation to an index in range does. *)
Lemma seek_run w i :
  0 <= i < Js.length (history (Page.store w)) ->
  Page.handleHistoryNavigation i w
    = (Returned tt,
       {| Page.store := reducer (Page.store w) (setHistoryIndex i);
          Page.page :=
            Page.mkLocal (Page.prompt (Page.page w)) None None
                         (Page.activeTab (Page.page w)) (Page.crop (Page.page w))
                         (Page.completedCrop (Page.page w))
                         (Page.maskDataUrl (Page.page w)) |},
       [Page.EvDispatch (setHistoryIndex i)]).
Proof.
  intros Hi.
  unfold Page.handleHistoryNavigation, Eff.bind, Eff.gets.
  assert (H0 : (0 <=? i) = true) by (apply Z.leb_le; lia).
  assert (H1 : (i <? Js.length (history (Page.store w))) = true) by (apply Z.ltb_lt; lia).
  rewrite H0, H1. reflexivity.
Qed.

(** C5. On a non-empty history and for an index [i] in range,
    [handleHistoryNavigation i] makes the current image [History[i]],
    leaves the sequence as it was, and doing it twice gives the same
    state as doing it once. *)
Theorem seek_in_range w i :
  0 < Js.length (history (Page.store w)) ->
  0 <= i < Js.length (history (Page.store w)) ->
  let w' := Eff.final (Page.handleHistoryNavigation i w) in
  currentImage (Page.store w') = get (history (Page.store w)) i
  /\ (exists x, currentImage (Page.store w') = Some x)
  /\ history (Page.store w') = history (Page.store w)
  /\ Eff.final (Page.handleHistoryNavigation i w') = w'.
Proof.
  intros _ Hi w'.
  assert (Hw' : w' = Eff.final (Page.handleHistoryNavigation i w)) by reflexivity.
  rewrite (seek_run w i Hi) in Hw'. unfold Eff.final in Hw'. simpl in Hw'.
  assert (Hhist : history (Page.store w') = history (Page.store w))
    by (rewrite Hw'; reflexivity).
  assert (Hcur : currentImage (Page.store w') = get (history (Page.store w)) i)
    by (rewrite Hw'; reflexivity).
  repeat split; try assumption.
  - rewrite Hcur. apply get_in_range. exact Hi.
  - rewrite seek_run by (rewrite Hhist; exact Hi).
    rewrite Hw'. reflexivity.
Qed.

(** C6. For an index out of range ([i < 0] or [i >= length]),
    [handleHistoryNavigation i] does nothing: the cursor, the sequence
    and the rest of the state are unchanged, and nothing is dispatched. *)
Theorem seek_out_of_range w i :
  i < 0 \/ Js.length (history (Page.store w)) <= i ->
  Page.handleHistoryNavigation i w = (Returned tt, w, []).
Proof.
  intros Hi.
  unfold Page.handleHistoryNavigation, Eff.bind, Eff.gets.
  destruct (0 <=? i) eqn:H0; destruct (i <? Js.length (history (Page.store w))) eqn:H1;
    simpl; try reflexivity.
  apply Z.leb_le in H0. apply Z.ltb_lt in H1. lia.
Qed.

(** C7. After [resetHistory] the sequence is empty and the cursor is -1;
    there is no current image and [canUndo] is false. *)
Theorem reset_clears s :
  let s' := reducer s resetHistory in
  history s' = [] /\ historyIndex s' = -1
  /\ currentImage s' = None /\ canUndo s' = false.
Proof. repeat split. Qed.

(** C10. [addImageToHistory a] on the empty store (History = [],
    cursor = -1) does not fail and does what seeding with [a] does: the
    history becomes [[a]] and the cursor 0. *)
Theorem append_on_empty_is_seed s a :
  history s = [] -> historyIndex s = -1 ->
  dispatch_outcome s (addImageToHistory a)
    = Returned (reducer s (setHistoryState [a] 0))
  /\ history (reducer s (addImageToHistory a)) = [a]
  /\ historyIndex (reducer s (addImageToHistory a)) = 0.
Proof.
  intros Hh Hi. unfold dispatch_outcome.
  rewrite (append_on_empty _ s a Hh Hi). repeat split.
Qed.
End HistoryClaims.

(** The invariant along any sequence of caller operations from the
    initial state. *)
Lemma history_invariant_reachable (File : Type) (ops : list (Page.HistoryOp File)) :
  forall w, history_inv (Page.store w) ->
            history_inv (Page.store (Page.runHistoryOps ops w)).
Proof.
  induction ops as [|op rest IH]; intros w Hw; simpl; [exact Hw|].
  apply IH. apply runHistoryOp_keeps_inv. exact Hw.
Qed.

(** The scenario of the specification: seed A0, append A1 and A2, seek 0,
    append A3; the history is then [A0; A3] with the cursor on A3. *)
Example rewind_then_append :
  Page.store (Page.runHistoryOps
                [Page.seed "A0"; Page.append "A1"; Page.append "A2";
                 Page.seek 0; Page.append "A3"]
                Scenario.fresh)
  = {| history := ["A0"; "A3"]; historyIndex := 1; isLoading := true; error := None |}.
Proof. reflexivity. Qed.

(** At the tip an append only grows the history by one. *)
Example append_at_tip :
  reducer Scenario.atTip (addImageToHistory "edit-2.png")
  = {| history := ["original.png"; "edit-1.png"; "edit-2.png"];
       historyIndex := 2; isLoading := false; error := None |}.
Proof. reflexivity. Qed.

(** [slice] with a negative end counts from the end of the array. *)
Example slice_negative_end : slice [1; 2; 3] 0 (-1) = [1; 2].
Proof. reflexivity. Qed.

Lemma append_truncates_then_pushes_witness :
  (0 < Js.length (history Scenario.rewound)
   /\ 0 <= historyIndex Scenario.rewound < Js.length (history Scenario.rewound))
  /\ history (reducer Scenario.rewound (addImageToHistory "edit-3.png"))
     = ["original.png"; "edit-3.png"]
  /\ historyIndex (reducer Scenario.rewound (addImageToHistory "edit-3.png")) = 1
  /\ ~ In "edit-2.png" (history (reducer Scenario.rewound (addImageToHistory "edit-3.png"))).
Proof.
  assert (H0 : 0 < Js.length (history Scenario.rewound)) by reflexivity.
  assert (H1 : 0 <= historyIndex Scenario.rewound < Js.length (history Scenario.rewound))
    by (cbn; lia).
  pose proof (append_truncates_then_pushes Scenario.File Scenario.rewound "edit-3.png" H0 H1)
    as (Hh & Hi & _ & _ & Hbelow).
  split; [split; assumption|].
  split; [exact Hh|]. split; [exact Hi|].
  assert (Hlt : historyIndex Scenario.rewound < Js.length (history Scenario.rewound) - 1)
    by (cbn; lia).
  destruct (Hbelow Hlt) as (_ & _ & Hgone & _).
  apply (Hgone ltac:(repeat constructor; simpl; intuition discriminate) 2).
  - cbn. lia.
  - reflexivity.
Defined.

Lemma history_invariant_preserved_witness :
  history_inv (Page.store Scenario.editing)
  /\ history_inv (Page.store (Eff.final (Page.runHistoryOp (Page.append "edit-3.png")
                                                             Scenario.editing))).
Proof.
  assert (H : history_inv (Page.store Scenario.editing)).
  { split; cbn; [discriminate | lia]. }
  split; [exact H|].
  exact (proj2 (history_invariant_preserved Scenario.File)
               (Page.append "edit-3.png") Scenario.editing H).
Defined.

(** C1, as stated, fails when the appended artifact is one that was
    stored above the cursor: on the history [A0; A1] with the cursor on
    [A0], appending [A1] gives [A0; A1] again, and [A1], which was at
    index 1, is still in the sequence. *)
Lemma append_of_later_artifact_counterexample :
  ~ (forall (s : EditorState Scenario.File) (a : Scenario.File),
        0 < Js.length (history s) ->
        0 <= historyIndex s < Js.length (history s) ->
        historyIndex s < Js.length (history s) - 1 ->
        forall j x, historyIndex s < j -> get (history s) j = Some x ->
                    ~ In x (history (reducer s (addImageToHistory a)))).
Proof.
  intros H.
  apply (H {| history := ["A0"; "A1"]; historyIndex := 0;
              isLoading := false; error := None |} "A1")
    with (j := 1) (x := "A1"); cbn; try lia; try reflexivity.
  right. left. reflexivity.
Qed.

(** C3, as stated, fails on the initial store: the dispatch of
    [addImageToHistory] returns, it does not throw. *)
Lemma append_before_seed_counterexample :
  ~ (exists e, dispatch_outcome (@initialState Scenario.File)
                                (addImageToHistory "first.png") = Threw e).
Proof. intros [e He]. discriminate He. Qed.

Lemma append_on_empty_is_tolerated_witness :
  exists s', dispatch_outcome (@initialState Scenario.File) (addImageToHistory "first.png")
             = Returned s'
             /\ history s' = ["first.png"] /\ historyIndex s' = 0.
Proof.
  apply (append_on_empty_is_tolerated Scenario.File initialState "first.png");
    reflexivity.
Defined.

Lemma seek_in_range_witness :
  currentImage (Page.store (Eff.final (Page.handleHistoryNavigation 2 Scenario.editing)))
  = Some "edit-2.png"
  /\ history (Page.store (Eff.final (Page.handleHistoryNavigation 2 Scenario.editing)))
     = history (Page.store Scenario.editing).
Proof.
  assert (H0 : 0 < Js.length (history (Page.store Scenario.editing))) by reflexivity.
  assert (H1 : 0 <= 2 < Js.length (history (Page.store Scenario.editing))) by (cbn; lia).
  pose proof (seek_in_range Scenario.File Scenario.editing 2 H0 H1) as (Hc & _ & Hh & _).
  split; [exact Hc | exact Hh].
Defined.

Lemma seek_out_of_range_witness :
  Page.handleHistoryNavigation 3 Scenario.editing = (Returned tt, Scenario.editing, [])
  /\ Page.handleHistoryNavigation (-1) Scenario.editing = (Returned tt, Scenario.editing, []).
Proof.
  split.
  - apply (seek_out_of_range Scenario.File Scenario.editing 3). right. cbn. lia.
  - apply (seek_out_of_range Scenario.File Scenario.editing (-1)). left. lia.
Defined.

Lemma append_on_empty_is_seed_witness :
  dispatch_outcome (@initialState Scenario.File) (addImageToHistory "first.png")
  = Returned (reducer initialState (setHistoryState ["first.png"] 0)).
Proof.
  apply (append_on_empty_is_seed Scenario.File initialState "first.png"); reflexivity.
Defined.

(* ------------------------------------------------------------------ *)
(** * The handlers that call the image service *)
(* ------------------------------------------------------------------ *)

(** Runs a handler symbolically: unfolds the handler and the monad, then
    splits on every guard and on every outcome it inspects. *)
Ltac unfold_handlers :=
  unfold Page.runEdit, Page.handleGenerate, Page.handleApplyFilter,
    Page.handleApplyAdjustment, Page.handleRemoveBackground, Page.handleUpscale,
    Page.handleApplyArtStyle, Page.handleMagicErase, Page.handleGenerateImage,
    Page.addNewImage, Page.report, Page.navigate,
    Page.setEditHotspot, Page.setDisplayHotspot, Page.setCrop, Page.setCompletedCrop,
    Page.setMaskDataUrl, Page.setActiveTab, Page.setLocal,
    Page.await_service, Page.dispatch,
    Eff.try_finally, Eff.try_catch, Eff.bind, Eff.gets, Eff.settle, Eff.modify,
    Eff.emit, Eff.throw, Eff.ret.

Ltac reduce_run :=
  cbv beta iota zeta
      delta [Page.store Page.page Page.prompt Page.editHotspot Page.displayHotspot
             Page.activeTab Page.crop Page.completedCrop Page.maskDataUrl app].

Ltac split_cases :=
  reduce_run;
  repeat match goal with
    | |- context [match ?x with _ => _ end] =>
        lazymatch x with
        | context [match _ with _ => _ end] => fail
        | _ => destruct x eqn:?; reduce_run
        end
    end.

Ltac run_handler := unfold_handlers; split_cases; unfold Eff.outcome, Eff.final, Eff.log.

Section EditClaims.
Variable File : Type.
Variable env : Page.Env File.
Implicit Types (w : Page.World File) (op : Page.EditOp).

(** Closes goals about membership in a computed event log. *)
Ltac log_facts :=
  simpl in *; intros;
  repeat match goal with
    | H : _ \/ _ |- _ => destruct H
    | H : False |- _ => destruct H
    | H : Page.EvService _ _ _ = Page.EvService _ _ _ |- _ => inversion H; clear H; subst
    | H : Page.EvDispatch _ = Page.EvDispatch _ |- _ => inversion H; clear H; subst
    | H : Page.EvDispatch _ = _ |- _ => discriminate H
    | H : Page.EvService _ _ _ = _ |- _ => discriminate H
    | H : Page.EvNavigate _ = _ |- _ => discriminate H
    | H : Page.EvSetNftTraits _ = _ |- _ => discriminate H
    end.

(** One run of an operation, described through its final state and its
    log: the operation returns; the busy flag frames the service call;
    the history moves only after a call that resolved. *)
Lemma runEdit_run op w :
  exists w' l,
    Page.runEdit env op w = (Returned tt, w', l)
    /\ (forall name snap res,
          In (Page.EvService name snap res) l -> isLoading snap = true)
    /\ ((l = [] /\ w' = w)
        \/ ((exists rest, l = Page.EvDispatch (setIsLoading true) :: rest)
            /\ isLoading (Page.store w') = false))
    /\ (forall name snap e,
          In (Page.EvService name snap (Threw e)) l ->
          history (Page.store w') = history (Page.store w)
          /\ historyIndex (Page.store w') = historyIndex (Page.store w)
          /\ (forall f, ~ In (Page.EvDispatch (addImageToHistory f)) l)
          /\ (forall h i, ~ In (Page.EvDispatch (setHistoryState h i)) l))
    /\ (forall f,
          In (Page.EvDispatch (addImageToHistory f)) l ->
          exists name snap url, In (Page.EvService name snap (Returned url)) l).
Proof.
  destruct op; run_handler; do 2 eexists; (split; [reflexivity|]).
  all: split; [log_facts; reflexivity|].
  all: split;
    [first [ left; split; reflexivity
           | right; split; [eexists; reflexivity | reflexivity] ]|].
  all: split.
  all: try (intros ? ? ? Hin; log_facts; try discriminate;
            repeat split; unfold not; intros; log_facts).
  all: intros ? Hin; log_facts; do 3 eexists; simpl; eauto 8.
Qed.

(** C4. In every operation that calls the image service, if the call
    fails (the service throws), the history sequence and the cursor are
    after the operation exactly what they were before it, and neither an
    append nor a seed was dispatched. An append is dispatched only after
    a service call that resolved. *)
Theorem failed_call_leaves_history op w :
  let r := Page.runEdit env op w in
  (forall name snap e,
      In (Page.EvService name snap (Threw e)) (Eff.log r) ->
      history (Page.store (Eff.final r)) = history (Page.store w)
      /\ historyIndex (Page.store (Eff.final r)) = historyIndex (Page.store w)
      /\ (forall f, ~ In (Page.EvDispatch (addImageToHistory f)) (Eff.log r))
      /\ (forall h i, ~ In (Page.EvDispatch (setHistoryState h i)) (Eff.log r)))
  /\ (forall f,
        In (Page.EvDispatch (addImageToHistory f)) (Eff.log r) ->
        exists name snap url, In (Page.EvService name snap (Returned url)) (Eff.log r)).
Proof.
  intros r. subst r.
  destruct (runEdit_run op w) as (w' & l & Hrun & _ & _ & Hfail & Hok).
  rewrite Hrun. unfold Eff.log, Eff.final. simpl. split; assumption.
Qed.

(** C9. In every operation that calls the image service, the busy flag
    [isLoading] is true in the store at the moment the call is issued,
    and it is false when the operation has completed, whether the call
    resolved or threw; the operation itself never throws. An operation
    stopped by its guard dispatches nothing and leaves the state as it
    was. *)
Theorem busy_flag_discipline op w :
  let r := Page.runEdit env op w in
  Eff.outcome r = Returned tt
  /\ (forall name snap res,
        In (Page.EvService name snap res) (Eff.log r) -> isLoading snap = true)
  /\ ((Eff.log r = [] /\ Eff.final r = w)
      \/ ((exists rest, Eff.log r = Page.EvDispatch (setIsLoading true) :: rest)
          /\ isLoading (Page.store (Eff.final r)) = false)).
Proof.
  intros r. subst r.
  destruct (runEdit_run op w) as (w' & l & Hrun & Hbusy & Hdone & _ & _).
  rewrite Hrun. unfold Eff.log, Eff.final, Eff.outcome. simpl.
  repeat split; assumption.
Qed.
End EditClaims.

(** [handleApiResponse] resolves only with the data URL of an image part
    of the first candidate; in every other case it throws an [Error]. *)
Lemma handleApiResponse_image_or_error response context :
  (exists c ps p i,
      Gemini.firstCandidate response = Some c
      /\ Gemini.parts c = Some ps
      /\ In p ps
      /\ Gemini.inlineData p = Some i
      /\ Gemini.handleApiResponse response context
         = Returned ("data:" ++ Gemini.mimeType i ++ ";base64," ++ Gemini.data i)%string)
  \/ (exists m, Gemini.handleApiResponse response context = Threw (ErrorObj m)).
Proof.
  unfold Gemini.handleApiResponse.
  destruct (Gemini.promptFeedback response) as [fb|];
    [destruct (truthy_opt (Gemini.blockReason fb)); [right; eexists; reflexivity|]|].
  all: destruct (Gemini.firstCandidate response) as [c|] eqn:Hc;
    [destruct (Gemini.parts c) as [ps|] eqn:Hps;
     [destruct (find _ ps) as [[[i|] t]|] eqn:Hfind|]|].
  all: try (match goal with
            | |- context [if ?b then _ else _] => destruct b
            end; right; eexists; reflexivity).
  all: left; apply find_some in Hfind; destruct Hfind as [Hin _];
    exists c, ps, {| Gemini.inlineData := Some i; Gemini.partText := t |}, i;
    repeat split; assumption.
Qed.

Example blocked_request_throws :
  Gemini.generateEditedImage (Gemini.geminiService Scenario.blockingBackend)
                             "original.png" "make the sky pink" (120, 48)
  = Threw (ErrorObj "Request was blocked. Reason: SAFETY. ").
Proof. reflexivity. Qed.

Example image_response_resolves :
  Gemini.handleApiResponse Scenario.imageResponse "edit"
  = Returned "data:image/png;base64,AAAA".
Proof. reflexivity. Qed.

(** When its guard passes, [handleGenerate] raises the busy flag, clears
    the error and issues the service call, in this order. *)
Lemma handleGenerate_issues_call (File : Type) (env : Page.Env File) (w : Page.World File)
      (img : File) (hotspot : Z * Z) :
  currentImage (Page.store w) = Some img ->
  truthy (trim (Page.prompt (Page.page w))) = true ->
  Page.editHotspot (Page.page w) = Some hotspot ->
  exists rest,
    Eff.log (Page.handleGenerate env w)
    = Page.EvDispatch (setIsLoading true)
        :: Page.EvDispatch (setError None)
        :: Page.EvService Page.svc_generateEditedImage
             (reducer (reducer (Page.store w) (setIsLoading true)) (setError None))
             (Gemini.generateEditedImage (Page.service env) img
                                         (Page.prompt (Page.page w)) hotspot)
        :: rest.
Proof.
  intros Himg Hprompt Hspot.
  unfold Page.handleGenerate. unfold Eff.bind at 1. unfold Eff.gets at 1.
  cbv beta iota. rewrite Himg, Hprompt, Hspot.
  run_handler; eexists; reflexivity.
Qed.

(** A successful edit from a rewound cursor: the redo branch is dropped,
    the new image is appended and the busy flag is down again. *)
Example generate_from_rewound :
  Page.store (Eff.final (Page.handleGenerate (Scenario.browser Scenario.obliging)
                                             Scenario.editing))
  = {| history := ["original.png"; "edited-1700000000000.png"];
       historyIndex := 1;
       isLoading := false;
       error := None |}.
Proof. reflexivity. Qed.

(** A refused filter: the error is shown, the busy flag is down, the
    history is what it was. *)
Example refused_filter :
  Page.store (Eff.final (Page.handleApplyFilter (Scenario.browser Scenario.refusing)
                                                "sepia" Scenario.editing))
  = {| history := ["original.png"; "edit-1.png"; "edit-2.png"];
       historyIndex := 0;
       isLoading := false;
       error := Some "Request was blocked. Reason: SAFETY. " |}.
Proof. reflexivity. Qed.

Lemma failed_call_leaves_history_witness :
  let env := Scenario.browser (Gemini.geminiService Scenario.blockingBackend) in
  let r := Page.runEdit env Page.op_generate Scenario.editing in
  In (Page.EvService Page.svc_generateEditedImage
        {| history := ["original.png"; "edit-1.png"; "edit-2.png"];
           historyIndex := 0; isLoading := true; error := None |}
        (Threw (ErrorObj "Request was blocked. Reason: SAFETY. ")))
     (Eff.log r)
  /\ history (Page.store (Eff.final r)) = history (Page.store Scenario.editing)
  /\ historyIndex (Page.store (Eff.final r)) = historyIndex (Page.store Scenario.editing).
Proof.
  intros env r.
  assert (Hin : In (Page.EvService Page.svc_generateEditedImage
                      {| history := ["original.png"; "edit-1.png"; "edit-2.png"];
                         historyIndex := 0; isLoading := true; error := None |}
                      (Threw (ErrorObj "Request was blocked. Reason: SAFETY. ")))
                   (Eff.log r))
    by (vm_compute; right; right; left; reflexivity).
  split; [exact Hin|].
  pose proof (proj1 (failed_call_leaves_history Scenario.File env Page.op_generate
                                                Scenario.editing) _ _ _ Hin)
    as (Hh & Hi & _).
  split; [exact Hh | exact Hi].
Defined.

Lemma busy_flag_discipline_witness :
  let env := Scenario.browser Scenario.obliging in
  let r := Page.runEdit env Page.op_generate Scenario.editing in
  Eff.outcome r = Returned tt
  /\ isLoading (Page.store (Eff.final r)) = false
  /\ (forall name snap res,
        In (Page.EvService name snap res) (Eff.log r) -> isLoading snap = true).
Proof.
  intros env r.
  pose proof (busy_flag_discipline Scenario.File env Page.op_generate Scenario.editing)
    as (Hret & Hbusy & Hdone).
  split; [exact Hret|]. split; [|exact Hbusy].
  destruct Hdone as [[Hnil _] | [_ Hdown]]; [|exact Hdown].
  vm_compute in Hnil. discriminate Hnil.
Defined.

(* ------------------------------------------------------------------ *)
(** * The batch minter *)
(* ------------------------------------------------------------------ *)

Section MinterClaims.
Variable Chain : Type.
Variable env : Minter.Env Chain.
Implicit Types (w : Minter.World Chain) (item : Minter.CsvData)
         (items : list Minter.CsvData).

(** One pass through the loop body: the mint call is made, the body does
    not throw whatever the call did, and the item is counted once, as a
    success or as a failure. *)
Lemma mintItem_run contract net wallet item w :
  let options := {| Minter.opt_contractAddress := contract;
                    Minter.opt_networkName := net;
                    Minter.opt_toAddress := wallet;
                    Minter.opt_metadataUrl := Minter.metadataUrl item |} in
  let res := Minter.mintFromMetadataUrl env (Minter.chain w) options in
  let p := Minter.mintingProgress (Minter.component w) in
  exists p',
    Minter.mintItem env contract net wallet item w
      = (Returned tt,
         {| Minter.component := Minter.withProgress (Minter.component w) p';
            Minter.chain := snd res |},
         [Minter.EvMint options (fst res)])
    /\ Minter.total p' = Minter.total p
    /\ (if Minter.succeeded (fst res)
        then Minter.completed p' = Minter.completed p + 1
             /\ Minter.errors p' = Minter.errors p
             /\ map Minter.minted_tokenId (Minter.successfulMints p')
                = map Minter.minted_tokenId (Minter.successfulMints p)
                    ++ [Minter.tokenId item]
             /\ Minter.failedMints p' = Minter.failedMints p
        else Minter.completed p' = Minter.completed p
             /\ Minter.errors p' = Minter.errors p + 1
             /\ Minter.successfulMints p' = Minter.successfulMints p
             /\ map Minter.failed_tokenId (Minter.failedMints p')
                = map Minter.failed_tokenId (Minter.failedMints p)
                    ++ [Minter.tokenId item]).
Proof.
  intros options res p. subst p.
  unfold Minter.mintItem, Minter.await_mint, Minter.setMintingProgress,
    Minter.setComponent, Eff.try_catch, Eff.bind, Eff.modify, Eff.ret, Eff.throw.
  cbn [Minter.chain Minter.component].
  fold options. fold res.
  destruct w as [c ch]. destruct c. cbn.
  destruct res as [[[r|]|e] ch']; cbn.
  - destruct (truthy (Minter.hash r)) eqn:Hh; cbn;
      eexists; (split; [reflexivity|]); cbn; rewrite ?map_app; cbn; repeat split.
  - eexists; (split; [reflexivity|]); cbn; rewrite ?map_app; cbn; repeat split.
  - eexists; (split; [reflexivity|]); cbn; rewrite ?map_app; cbn; repeat split.
Qed.

Lemma withProgress_twice c p1 p2 :
  Minter.withProgress (Minter.withProgress c p1) p2 = Minter.withProgress c p2.
Proof. reflexivity. Qed.

Lemma successIds_cons item items e l :
  Minter.successIds (item :: items) (e :: l)
    = if Minter.succeeded (Minter.ev_result e)
      then Minter.tokenId item :: Minter.successIds items l
      else Minter.successIds items l.
Proof.
  unfold Minter.successIds. cbn.
  destruct (Minter.succeeded (Minter.ev_result e)); reflexivity.
Qed.

Lemma failureIds_cons item items e l :
  Minter.failureIds (item :: items) (e :: l)
    = if Minter.succeeded (Minter.ev_result e)
      then Minter.failureIds items l
      else Minter.tokenId item :: Minter.failureIds items l.
Proof.
  unfold Minter.failureIds. cbn.
  destruct (Minter.succeeded (Minter.ev_result e)); reflexivity.
Qed.

(** The loop: by induction on the items still to mint. Every item gets
    its mint call, in order, and lands in exactly one of the two
    counters and lists; the loop itself never throws. *)
Lemma mint_loop contract net wallet items :
  forall w,
    let p := Minter.mintingProgress (Minter.component w) in
    exists p' ch' l,
      Eff.for_of items (Minter.mintItem env contract net wallet) w
        = (Returned tt,
           {| Minter.component := Minter.withProgress (Minter.component w) p';
              Minter.chain := ch' |},
           l)
      /\ Minter.mintedUrls l = map Minter.metadataUrl items
      /\ Minter.total p' = Minter.total p
      /\ Minter.completed p' = Minter.completed p + Js.length (Minter.successIds items l)
      /\ Minter.errors p' = Minter.errors p + Js.length (Minter.failureIds items l)
      /\ map Minter.minted_tokenId (Minter.successfulMints p')
         = map Minter.minted_tokenId (Minter.successfulMints p) ++ Minter.successIds items l
      /\ map Minter.failed_tokenId (Minter.failedMints p')
         = map Minter.failed_tokenId (Minter.failedMints p) ++ Minter.failureIds items l.
Proof.
  induction items as [|item items IH]; intros w p; subst p.
  - exists (Minter.mintingProgress (Minter.component w)), (Minter.chain w), [].
    destruct w as [c ch]. destruct c. cbn.
    rewrite !app_nil_r. repeat split; lia.
  - cbn [Eff.for_of]. unfold Eff.bind.
    destruct (mintItem_run contract net wallet item w)
      as (p1 & Hrun & Htot & Hcount).
    rewrite Hrun. clear Hrun.
    match goal with
    | |- context [Eff.for_of items _ ?w1] =>
        destruct (IH w1) as (p' & ch' & l & Hloop & Hurls & Htot' & Hc & He & Hs & Hf)
    end.
    rewrite Hloop. clear Hloop.
    cbn [Minter.component Minter.chain] in *.
    rewrite withProgress_twice.
    change (Minter.mintingProgress (Minter.withProgress (Minter.component w) p1))
      with p1 in *.
    eexists p', ch', _. split; [reflexivity|].
    cbn [app]. rewrite successIds_cons, failureIds_cons.
    cbn [Minter.ev_result].
    split; [unfold Minter.mintedUrls in *; cbn; f_equal; exact Hurls|].
    split; [congruence|].
    destruct (Minter.succeeded _);
      destruct Hcount as (Hc1 & He1 & Hs1 & Hf1);
      rewrite Hc, He, Hs, Hf;
      unfold Js.length in *; cbn [List.length];
      repeat split; try lia.
    + rewrite Hs1, <- app_assoc. reflexivity.
    + rewrite Hf1. reflexivity.
    + rewrite Hs1. reflexivity.
    + rewrite Hf1, <- app_assoc. reflexivity.
Qed.

(** C8. In a batch mint that passes its guard and is confirmed, every
    item gets its mint call, in the order of the batch: a failure of one
    call is caught, recorded for that item, and the loop goes on. The
    report counts each item exactly once, as completed or as an error,
    and lists its token id on the matching side. In particular, for three
    items of which the second fails, the report shows 2 completed and 1
    error, and the third item was minted. *)
Theorem batch_mint_isolates_failures w wallet :
  0 < Js.length (Minter.parsedData (Minter.component w)) ->
  truthy (Minter.contractAddress (Minter.component w)) = true ->
  Minter.walletAddress env = Some wallet ->
  truthy wallet = true ->
  Minter.confirm env
    (Minter.confirmText (Js.length (Minter.parsedData (Minter.component w)))) = true ->
  let r := Minter.handleMintCollection env w in
  let items := Minter.parsedData (Minter.component w) in
  let p := Minter.mintingProgress (Minter.component (Eff.final r)) in
  Eff.outcome r = Returned tt
  /\ Minter.mintedUrls (Eff.log r) = map Minter.metadataUrl items
  /\ Minter.total p = Js.length items
  /\ Minter.completed p = Js.length (Minter.successIds items (Eff.log r))
  /\ Minter.errors p = Js.length (Minter.failureIds items (Eff.log r))
  /\ Minter.completed p + Minter.errors p = Minter.total p
  /\ map Minter.minted_tokenId (Minter.successfulMints p)
     = Minter.successIds items (Eff.log r)
  /\ map Minter.failed_tokenId (Minter.failedMints p)
     = Minter.failureIds items (Eff.log r)
  /\ Minter.isFinished (Minter.component (Eff.final r)) = true
  /\ (forall i1 i2 i3 e1 e2 e3,
        items = [i1; i2; i3] ->
        Eff.log r = [e1; e2; e3] ->
        Minter.succeeded (Minter.ev_result e1) = true ->
        Minter.succeeded (Minter.ev_result e2) = false ->
        Minter.succeeded (Minter.ev_result e3) = true ->
        Minter.completed p = 2 /\ Minter.errors p = 1
        /\ Minter.opt_metadataUrl (Minter.ev_options e3) = Minter.metadataUrl i3
        /\ map Minter.minted_tokenId (Minter.successfulMints p)
           = [Minter.tokenId i1; Minter.tokenId i3]
        /\ map Minter.failed_tokenId (Minter.failedMints p) = [Minter.tokenId i2]).
Proof.
  intros Hdata Hcontract Hwallet Hw Hconfirm r items p.
  assert (Hr : exists p' ch' l,
             r = (Returned tt,
                  {| Minter.component :=
                       Minter.mkComponent
                         (Minter.contractAddress (Minter.component w))
                         (Minter.network (Minter.component w)) items
                         (Minter.fileName (Minter.component w))
                         (Minter.error (Minter.component w)) true true p';
                     Minter.chain := ch' |}, l)
             /\ Minter.mintedUrls l = map Minter.metadataUrl items
             /\ Minter.total p' = Js.length items
             /\ Minter.completed p' = Js.length (Minter.successIds items l)
             /\ Minter.errors p' = Js.length (Minter.failureIds items l)
             /\ map Minter.minted_tokenId (Minter.successfulMints p')
                = Minter.successIds items l
             /\ map Minter.failed_tokenId (Minter.failedMints p')
                = Minter.failureIds items l).
  { subst r items. clear p.
    destruct w as [c ch]. destruct c as [ca net pd fn err im fi mp].
    cbn [Minter.component Minter.chain Minter.parsedData Minter.contractAddress
         Minter.network Minter.fileName Minter.error] in *.
    unfold Minter.handleMintCollection.
    unfold Eff.bind at 1. unfold Eff.gets at 1.
    cbn [Minter.component Minter.chain Minter.parsedData Minter.contractAddress
         Minter.network Minter.fileName Minter.error].
    rewrite Hcontract, Hwallet, Hw, Hconfirm.
    destruct pd as [|i0 rest];
      [unfold Js.length in Hdata; simpl in Hdata; lia|].
    unfold Minter.setIsMinting, Minter.setIsFinished, Minter.setMintingProgress,
      Minter.setComponent, Eff.bind, Eff.modify.
    cbn [Minter.component Minter.chain].
    match goal with
    | |- context [Eff.for_of _ ?body ?w1] =>
        destruct (mint_loop ca net wallet (i0 :: rest) w1)
          as (p' & ch' & l & Hloop & Hurls & Htot & Hc & He & Hs & Hf)
    end.
    rewrite Hloop. clear Hloop.
    cbn [Minter.component Minter.mintingProgress Minter.withProgress
         Minter.total Minter.completed Minter.errors Minter.successfulMints
         Minter.failedMints map app] in Htot, Hc, He, Hs, Hf.
    rewrite Z.add_0_l in Hc, He.
    cbn. rewrite ?app_nil_r.
    eexists _, ch', l. split; [reflexivity|].
    cbn [Minter.total Minter.completed Minter.errors Minter.successfulMints
         Minter.failedMints].
    repeat split; assumption. }
  destruct Hr as (p' & ch' & l & Hr & Hurls & Htot & Hc & He & Hs & Hf).
  assert (Hp : p = p') by (subst p; rewrite Hr; reflexivity).
  assert (Hl : Eff.log r = l) by (rewrite Hr; reflexivity).
  assert (Hpartition :
           Js.length (Minter.successIds items l) + Js.length (Minter.failureIds items l)
           = Js.length items).
  { assert (Hlen : List.length l = List.length items).
    { unfold Minter.mintedUrls in Hurls.
      rewrite <- (length_map (fun e => Minter.opt_metadataUrl (Minter.ev_options e)) l).
      rewrite Hurls. apply length_map. }
    clear - Hlen. revert l Hlen.
    induction items as [|it its IH]; intros [|e l] Hlen; try discriminate; [reflexivity|].
    rewrite successIds_cons, failureIds_cons.
    specialize (IH l ltac:(simpl in Hlen; lia)).
    destruct (Minter.succeeded _); unfold Js.length in *; cbn [List.length]; lia. }
  rewrite Hp, Hl.
  split; [rewrite Hr; reflexivity|].
  repeat (split; [first [assumption | lia]|]).
  split; [rewrite Hr; reflexivity|].
  intros i1 i2 i3 e1 e2 e3 Hitems Hlog H1 H2 H3.
  rewrite Hc, He, Hs, Hf. rewrite Hitems in *. rewrite Hlog in *.
  rewrite !successIds_cons, !failureIds_cons, H1, H2, H3.
  unfold Minter.mintedUrls in Hurls. cbn in Hurls.
  repeat split; try reflexivity.
  congruence.
Qed.
End MinterClaims.

(** The scenario of the specification: three items, the second rejected. *)
Example three_items_second_fails :
  let r := Minter.handleMintCollection Scenario.secondRejected Scenario.minter in
  Eff.outcome r = Returned tt
  /\ Minter.mintedUrls (Eff.log r) = ["ipfs://one"; "ipfs://two"; "ipfs://three"]
  /\ Minter.mintingProgress (Minter.component (Eff.final r))
     = Minter.mkProgress 3 2 1 "All transactions processed."
         [ {| Minter.minted_tokenId := "1"; Minter.txHash := "0xBEEF" |};
           {| Minter.minted_tokenId := "3"; Minter.txHash := "0xBEEF" |} ]
         [ {| Minter.failed_tokenId := "2";
              Minter.mint_error := "Transaction rejected in wallet." |} ]
  /\ Minter.isFinished (Minter.component (Eff.final r)) = true.
Proof. vm_compute. repeat split. Qed.

Lemma batch_mint_isolates_failures_witness :
  let r := Minter.handleMintCollection Scenario.secondRejected Scenario.minter in
  let p := Minter.mintingProgress (Minter.component (Eff.final r)) in
  Minter.completed p = 2 /\ Minter.errors p = 1
  /\ Minter.mintedUrls (Eff.log r) = map Minter.metadataUrl Scenario.batch
  /\ map Minter.minted_tokenId (Minter.successfulMints p) = ["1"; "3"]
  /\ map Minter.failed_tokenId (Minter.failedMints p) = ["2"].
Proof.
  intros r p.
  assert (H1 : 0 < Js.length (Minter.parsedData (Minter.component Scenario.minter)))
    by (vm_compute; reflexivity).
  assert (H2 : truthy (Minter.contractAddress (Minter.component Scenario.minter)) = true)
    by (vm_compute; reflexivity).
  assert (H3 : Minter.walletAddress Scenario.secondRejected = Some "0xA11CE")
    by (vm_compute; reflexivity).
  assert (H4 : truthy "0xA11CE" = true) by (vm_compute; reflexivity).
  assert (H5 : Minter.confirm Scenario.secondRejected
                 (Minter.confirmText
                    (Js.length (Minter.parsedData (Minter.component Scenario.minter))))
               = true)
    by (vm_compute; reflexivity).
  pose proof (batch_mint_isolates_failures nat Scenario.secondRejected Scenario.minter
                "0xA11CE" H1 H2 H3 H4 H5)
    as (_ & Hurls & _ & _ & _ & _ & _ & _ & _ & Hthree).
  fold r in Hurls, Hthree. fold p in Hthree.
  assert (Hitems : Minter.parsedData (Minter.component Scenario.minter)
                   = [Scenario.item1; Scenario.item2; Scenario.item3])
    by (vm_compute; reflexivity).
  assert (Hevents : exists e1 e2 e3, Eff.log r = [e1; e2; e3])
    by (vm_compute; do 3 eexists; reflexivity).
  destruct Hevents as (e1 & e2 & e3 & Hlog).
  assert (Hresults : Minter.succeeded (Minter.ev_result e1) = true
                     /\ Minter.succeeded (Minter.ev_result e2) = false
                     /\ Minter.succeeded (Minter.ev_result e3) = true).
  { vm_compute in Hlog. inversion Hlog. vm_compute. repeat split. }
  destruct Hresults as (Hr1 & Hr2 & Hr3).
  destruct (Hthree _ _ _ e1 e2 e3 Hitems Hlog Hr1 Hr2 Hr3) as (Hc & He & _ & Hs & Hf).
  split; [exact Hc|]. split; [exact He|]. split; [exact Hurls|].
  split; [exact Hs | exact Hf].
Defined.

(* ------------------------------------------------------------------ *)
(** * More on the history store and the editor page *)
(* ------------------------------------------------------------------ *)

Section HistoryMore.
Variable File : Type.
Implicit Types (s : EditorState File) (a : File) (w : Page.World File).


(** X2. With the cursor [c] in range, [addImageToHistory] keeps every
    artifact at an index up to [c] where it was: the original image stays
    the original, and going back to [c] after the append shows the image
    that was current before it. *)
Theorem append_keeps_prefix s a :
  0 <= historyIndex s < Js.length (history s) ->
  let s' := reducer s (addImageToHistory a) in
  (forall j, 0 <= j <= historyIndex s -> get (history s') j = get (history s) j)
  /\ originalImage s' = originalImage s
  /\ currentImage (reducer s' (setHistoryIndex (historyIndex s))) = currentImage s.
Proof.
  intros Hc s'.
  destruct (append_in_range _ s a Hc) as [Hh _]. fold s' in Hh.
  assert (Hpre : forall j, 0 <= j <= historyIndex s ->
                           get (history s') j = get (history s) j).
  { intros j Hj. rewrite Hh. unfold get.
    destruct (j <? 0) eqn:Hneg; [reflexivity|].
    unfold Js.length in Hc.
    rewrite nth_error_app1 by (rewrite length_firstn; lia).
    rewrite nth_error_firstn.
    destruct (Nat.ltb (Z.to_nat j) (Z.to_nat (historyIndex s + 1))) eqn:Hlt;
      [reflexivity|].
    apply Nat.ltb_ge in Hlt. lia. }
  split; [exact Hpre|]. split.
  - unfold originalImage. apply Hpre. lia.
  - unfold currentImage. simpl historyIndex. simpl history.
    change (push (slice (history s) 0 (historyIndex s + 1)) a) with (history s').
    apply Hpre. lia.
Qed.

(** X3. [handleReset] on a non-empty history moves the cursor to the
    original image and clears the error, without touching the sequence
    or the busy flag: the current image is then the original one and
    there is nothing to undo. On an empty history it does nothing. *)
Theorem handleReset_reverts w :
  (0 < Js.length (history (Page.store w)) ->
   let w' := Eff.final (Page.handleReset w) in
   history (Page.store w') = history (Page.store w)
   /\ historyIndex (Page.store w') = 0
   /\ error (Page.store w') = None
   /\ isLoading (Page.store w') = isLoading (Page.store w)
   /\ currentImage (Page.store w') = originalImage (Page.store w)
   /\ canUndo (Page.store w') = false)
  /\ (Js.length (history (Page.store w)) = 0 ->
      Page.handleReset w = (Returned tt, w, [])).
Proof.
  unfold Page.handleReset, Eff.bind, Eff.gets. split.
  - intros Hlen.
    assert (H : (0 <? Js.length (history (Page.store w))) = true) by (apply Z.ltb_lt; lia).
    rewrite H. cbn. repeat split.
  - intros Hlen. rewrite Hlen. reflexivity.
Qed.

(** X4. [handleApplyCrop] has no [try]: it either stops at its guard and
    changes nothing, or appends the cropped file and clears the crop, or
    lets the exception of [dataURLtoFile] escape with the state as it
    was. In no case does it touch the busy flag or the error. *)
Theorem handleApplyCrop_cases (env : Page.Env File) w :
  let r := Page.handleApplyCrop env w in
  ((r = (Returned tt, w, []))
   \/ (exists f,
         Page.dataURLtoFile env (Page.cropCanvasDataUrl env) (Page.stamped env "cropped")
         = Returned f
         /\ Eff.outcome r = Returned tt
         /\ Page.store (Eff.final r) = reducer (Page.store w) (addImageToHistory f)
         /\ Page.crop (Page.page (Eff.final r)) = None
         /\ Page.completedCrop (Page.page (Eff.final r)) = None
         /\ Eff.log r = [Page.EvDispatch (addImageToHistory f)])
   \/ (exists e, r = (Threw e, w, [])))
  /\ isLoading (Page.store (Eff.final r)) = isLoading (Page.store w)
  /\ error (Page.store (Eff.final r)) = error (Page.store w).
Proof.
  intros r. subst r.
  unfold Page.handleApplyCrop, Page.addNewImage, Page.setCrop, Page.setCompletedCrop,
    Page.setMaskDataUrl, Page.setLocal, Page.dispatch,
    Eff.bind, Eff.gets, Eff.settle, Eff.modify, Eff.ret.
  destruct (Page.completedCrop (Page.page w)) as [c|];
    destruct (Page.imgRef env); destruct (Page.cropContext env);
    try (split; [left; reflexivity | split; reflexivity]).
  destruct (Page.dataURLtoFile env (Page.cropCanvasDataUrl env)
                               (Page.stamped env "cropped")) as [f|e] eqn:Hf.
  - split; [right; left; exists f; repeat split | split; reflexivity].
  - split; [right; right; exists e; reflexivity | split; reflexivity].
Qed.
End HistoryMore.

Section EditMore.
Variable File : Type.
Variable env : Page.Env File.
Implicit Types (w : Page.World File) (op : Page.EditOp).

Ltac log_facts' :=
  simpl in *; intros;
  repeat match goal with
    | H : _ \/ _ |- _ => destruct H
    | H : False |- _ => destruct H
    | H : Page.EvService _ _ _ = Page.EvService _ _ _ |- _ => inversion H; clear H; subst
    | H : Page.EvDispatch _ = Page.EvDispatch _ |- _ => inversion H; clear H; subst
    | H : Page.EvDispatch _ = _ |- _ => discriminate H
    | H : Page.EvService _ _ _ = _ |- _ => discriminate H
    | H : Page.EvNavigate _ = _ |- _ => discriminate H
    | H : Page.EvSetNftTraits _ = _ |- _ => discriminate H
    end.

(** One run of an operation, seen from the history and from the error
    field. *)
Lemma runEdit_effects op w :
  exists w' l,
    Page.runEdit env op w = (Returned tt, w', l)
    /\ ((history (Page.store w') = history (Page.store w)
         /\ historyIndex (Page.store w') = historyIndex (Page.store w))
        \/ (exists f,
              history (Page.store w')
              = history (reducer (Page.store w) (addImageToHistory f))
              /\ historyIndex (Page.store w')
                 = historyIndex (reducer (Page.store w) (addImageToHistory f)))
        \/ (exists f, history (Page.store w') = [f] /\ historyIndex (Page.store w') = 0))
    /\ (forall name snap e,
          In (Page.EvService name snap (Threw e)) l ->
          error (Page.store w') = Some (message_or e "An unknown error occurred."))
    /\ (forall f,
          In (Page.EvDispatch (addImageToHistory f)) l -> error (Page.store w') = None)
    /\ (forall h i,
          In (Page.EvDispatch (setHistoryState h i)) l -> error (Page.store w') = None).
Proof.
  destruct op; run_handler; do 2 eexists; (split; [reflexivity|]).
  all: split;
    [first [ left; split; reflexivity
           | right; left; eexists; split; reflexivity
           | right; right; eexists; split; reflexivity ]|].
  all: split; [intros ? ? ? Hin; log_facts'; try discriminate; reflexivity|].
  all: split; intros; log_facts'; try discriminate; reflexivity.
Qed.

(** X5. An operation that calls the image service commits at most one
    artifact: afterwards the history and the cursor are what they were,
    or what one [addImageToHistory] makes of them, or (text to image) a
    fresh one-element history. *)
Theorem edit_commits_at_most_once op w :
  let s := Page.store w in
  let s' := Page.store (Eff.final (Page.runEdit env op w)) in
  (history s' = history s /\ historyIndex s' = historyIndex s)
  \/ (exists f,
        history s' = history (reducer s (addImageToHistory f))
        /\ historyIndex s' = historyIndex (reducer s (addImageToHistory f)))
  \/ (exists f, history s' = [f] /\ historyIndex s' = 0).
Proof.
  intros s s'. subst s s'.
  destruct (runEdit_effects op w) as (w' & l & Hrun & Hhist & _).
  rewrite Hrun. exact Hhist.
Qed.

(** X6. When the service call throws, the error shown afterwards is the
    message of the thrown [Error] (or the fixed fallback text for another
    thrown value); when an artifact was committed, by
    [addImageToHistory] in the editor or by [setHistoryState] on the home
    page, no error is shown. *)
Theorem edit_failure_is_reported op w :
  let r := Page.runEdit env op w in
  (forall name snap e,
      In (Page.EvService name snap (Threw e)) (Eff.log r) ->
      error (Page.store (Eff.final r)) = Some (message_or e "An unknown error occurred."))
  /\ (forall f,
        In (Page.EvDispatch (addImageToHistory f)) (Eff.log r) ->
        error (Page.store (Eff.final r)) = None)
  /\ (forall h i,
        In (Page.EvDispatch (setHistoryState h i)) (Eff.log r) ->
        error (Page.store (Eff.final r)) = None).
Proof.
  intros r. subst r.
  destruct (runEdit_effects op w) as (w' & l & Hrun & _ & Hfail & Hok & Hseed).
  rewrite Hrun. split; [exact Hfail|]. split; [exact Hok | exact Hseed].
Qed.
End EditMore.

(* ------------------------------------------------------------------ *)
(** * The CSV parser of the collection minter *)
(* ------------------------------------------------------------------ *)

Section CsvFacts.
Implicit Types (rows : list string) (out : list Minter.CsvData).


Lemma truthy_or_else (t : option string) :
  truthy_opt t = true -> truthy (or_else t "") = true.
Proof.
  destruct t as [s|]; simpl; [|discriminate].
  intros H. rewrite H. exact H.
Qed.

Lemma parseRow_cases k m line i :
  (exists row, Csv.parseRow k m line i = Returned row /\ Csv.validRow row)
  \/ Csv.parseRow k m line i = Threw (Csv.rowError i).
Proof.
  unfold Csv.parseRow, Csv.rowError.
  destruct (truthy_opt (option_map trim (get (Csv.split Csv.comma line) k))) eqn:Ht;
    [|right; reflexivity].
  destruct (truthy_opt (option_map trim (get (Csv.split Csv.comma line) m))) eqn:Hm;
    [|right; reflexivity].
  left. eexists. split; [reflexivity|].
  split; simpl; apply truthy_or_else; assumption.
Qed.

Lemma mapRows_ok k m rows : forall i out,
  Csv.mapRows k m rows i = Returned out ->
  List.length out = List.length rows /\ Forall Csv.validRow out.
Proof.
  induction rows as [|line rest IH]; intros i out H; simpl in H.
  - inversion H. split; [reflexivity | constructor].
  - destruct (parseRow_cases k m line i) as [(row & Hrow & Hvalid) | Hbad];
      [rewrite Hrow in H | rewrite Hbad in H; discriminate].
    destruct (Csv.mapRows k m rest (i + 1)) as [out'|e] eqn:Hrest; [|discriminate].
    inversion H; subst. destruct (IH _ _ Hrest) as [Hlen Hall].
    split; [simpl; congruence | constructor; assumption].
Qed.

(** A failed [map] stopped at its first bad row. *)
Lemma mapRows_fail k m rows : forall i e,
  Csv.mapRows k m rows i = Threw e ->
  exists n line,
    nth_error rows n = Some line
    /\ e = Csv.rowError (i + Z.of_nat n)
    /\ Csv.parseRow k m line (i + Z.of_nat n) = Threw e
    /\ forall n' line', (n' < n)%nat -> nth_error rows n' = Some line' ->
         exists row, Csv.parseRow k m line' (i + Z.of_nat n') = Returned row
                     /\ Csv.validRow row.
Proof.
  induction rows as [|line rest IH]; intros i e H; simpl in H; [discriminate|].
  destruct (parseRow_cases k m line i) as [(row & Hrow & Hvalid) | Hbad].
  - rewrite Hrow in H.
    destruct (Csv.mapRows k m rest (i + 1)) as [out'|e'] eqn:Hrest; [discriminate|].
    inversion H; subst e'.
    destruct (IH _ _ Hrest) as (n & l & Hn & He & Hp & Hbefore).
    exists (S n), l.
    replace (i + Z.of_nat (S n)) with (i + 1 + Z.of_nat n) by lia.
    repeat split; try assumption.
    intros [|n'] line' Hlt Hnth; simpl in Hnth.
    + inversion Hnth; subst. rewrite Z.add_0_r. eauto.
    + replace (i + Z.of_nat (S n')) with (i + 1 + Z.of_nat n') by lia.
      apply Hbefore; [lia | exact Hnth].
  - rewrite Hbad in H. inversion H; subst e.
    exists 0%nat, line. rewrite Z.add_0_r.
    repeat split; try assumption.
    intros n' line' Hlt. lia.
Qed.

(** A row that lacks one of the two cells makes the callback throw. *)
Lemma parseRow_lacking k m line i :
  truthy_opt (option_map trim (get (Csv.split Csv.comma line) k)) = false
  \/ truthy_opt (option_map trim (get (Csv.split Csv.comma line) m)) = false ->
  Csv.parseRow k m line i = Threw (Csv.rowError i).
Proof.
  intros Hlack. unfold Csv.parseRow, Csv.rowError. cbv zeta.
  destruct Hlack as [H | H]; rewrite H; simpl negb; rewrite ?Bool.orb_true_r;
    reflexivity.
Qed.

(** A row on which the callback returned has both cells. *)
Lemma parseRow_returned k m line i row :
  Csv.parseRow k m line i = Returned row ->
  truthy_opt (option_map trim (get (Csv.split Csv.comma line) k)) = true
  /\ truthy_opt (option_map trim (get (Csv.split Csv.comma line) m)) = true.
Proof.
  unfold Csv.parseRow. cbv zeta.
  destruct (truthy_opt (option_map trim (get (Csv.split Csv.comma line) k)));
    destruct (truthy_opt (option_map trim (get (Csv.split Csv.comma line) m)));
    simpl; intros H; try discriminate; split; reflexivity.
Qed.

(** The [map] throws at the first row that lacks a cell. *)
Lemma mapRows_first_lacking k m rows : forall i n line,
  nth_error rows n = Some line ->
  (truthy_opt (option_map trim (get (Csv.split Csv.comma line) k)) = false
   \/ truthy_opt (option_map trim (get (Csv.split Csv.comma line) m)) = false) ->
  (forall n' line', (n' < n)%nat -> nth_error rows n' = Some line' ->
     truthy_opt (option_map trim (get (Csv.split Csv.comma line') k)) = true
     /\ truthy_opt (option_map trim (get (Csv.split Csv.comma line') m)) = true) ->
  Csv.mapRows k m rows i = Threw (Csv.rowError (i + Z.of_nat n)).
Proof.
  induction rows as [|line0 rest IH]; intros i n line Hnth Hlack Hbefore.
  - destruct n; discriminate Hnth.
  - destruct n as [|n]; simpl in Hnth.
    + inversion Hnth; subst line0. simpl.
      rewrite (parseRow_lacking k m line i Hlack). rewrite Z.add_0_r. reflexivity.
    + simpl.
      destruct (parseRow_cases k m line0 i) as [(row & Hrow & _) | Hbad].
      * rewrite Hrow.
        rewrite (IH (i + 1) n line Hnth Hlack).
        -- replace (i + 1 + Z.of_nat n) with (i + Z.of_nat (S n)) by lia. reflexivity.
        -- intros n' line' Hlt Hn'. apply (Hbefore (S n') line'); [lia | exact Hn'].
      * destruct (Hbefore 0%nat line0 ltac:(lia) eq_refl) as [Hk Hm].
        unfold Csv.parseRow, Csv.rowError in Hbad. cbv zeta in Hbad.
        rewrite Hk, Hm in Hbad. discriminate Hbad.
Qed.

(** X7. When a data row lacks a token id or a metadata URL (the cell is
    missing or blank), the row mapping throws, whatever the rows after it
    are; the error names the first such row, counted in the file's
    non-blank lines with the header as row 1. When no row lacks a cell the
    mapping returns one valid row for each line, and the mapping throws
    in no other case than a lacking row. *)
Theorem mapRows_reports_first_bad_row k m rows i :
  let cell line index := option_map trim (get (Csv.split Csv.comma line) index) in
  let lacking line :=
    truthy_opt (cell line k) = false \/ truthy_opt (cell line m) = false in
  (forall n line,
      nth_error rows n = Some line ->
      lacking line ->
      (forall n' line', (n' < n)%nat -> nth_error rows n' = Some line' ->
                        ~ lacking line') ->
      Csv.mapRows k m rows i = Threw (Csv.rowError (i + Z.of_nat n)))
  /\ ((exists line, In line rows /\ lacking line) ->
      exists e, Csv.mapRows k m rows i = Threw e)
  /\ ((forall line, In line rows -> ~ lacking line) ->
      exists out, Csv.mapRows k m rows i = Returned out
                  /\ List.length out = List.length rows
                  /\ Forall Csv.validRow out)
  /\ (forall e,
        Csv.mapRows k m rows i = Threw e ->
        exists n line,
          nth_error rows n = Some line
          /\ lacking line
          /\ e = Csv.rowError (i + Z.of_nat n)
          /\ forall n' line', (n' < n)%nat -> nth_error rows n' = Some line' ->
                              ~ lacking line').
Proof.
  intros cell lacking.
  assert (Hnot : forall line,
             ~ lacking line ->
             truthy_opt (cell line k) = true /\ truthy_opt (cell line m) = true).
  { intros line Hn. unfold lacking in Hn.
    destruct (truthy_opt (cell line k)); destruct (truthy_opt (cell line m));
      try (split; reflexivity); exfalso; apply Hn; auto. }
  assert (Hthrown : forall e,
             Csv.mapRows k m rows i = Threw e ->
             exists n line,
               nth_error rows n = Some line
               /\ lacking line
               /\ e = Csv.rowError (i + Z.of_nat n)
               /\ forall n' line', (n' < n)%nat -> nth_error rows n' = Some line' ->
                                   ~ lacking line').
  { intros e He. apply mapRows_fail in He.
    destruct He as (n & line & Hn & Herr & Hrow & Hbefore).
    exists n, line. split; [exact Hn|]. split; [|split; [exact Herr|]].
    - unfold lacking, cell.
      destruct (truthy_opt (option_map trim (get (Csv.split Csv.comma line) k))) eqn:Hk;
        [|left; reflexivity].
      destruct (truthy_opt (option_map trim (get (Csv.split Csv.comma line) m))) eqn:Hm;
        [|right; reflexivity].
      unfold Csv.parseRow in Hrow. cbv zeta in Hrow. rewrite Hk, Hm in Hrow.
      discriminate Hrow.
    - intros n' line' Hlt Hn' Hlack.
      destruct (Hbefore n' line' Hlt Hn') as (row & Hrow' & _).
      rewrite (parseRow_lacking k m line' _ Hlack) in Hrow'. discriminate Hrow'. }
  assert (Hreturns : (forall line, In line rows -> ~ lacking line) ->
                     exists out, Csv.mapRows k m rows i = Returned out).
  { intros Hall. destruct (Csv.mapRows k m rows i) as [out|e] eqn:Hmap;
      [exists out; reflexivity|].
    destruct (Hthrown e eq_refl) as (n & line & Hn & Hlack & _).
    exfalso. apply (Hall line); [apply (nth_error_In _ _ Hn) | exact Hlack]. }
  split; [|split; [|split]].
  - intros n line Hn Hlack Hbefore.
    apply (mapRows_first_lacking k m rows i n line Hn Hlack).
    intros n' line' Hlt Hn'. apply Hnot. apply (Hbefore n' line' Hlt Hn').
  - intros (line & Hin & Hlack).
    destruct (Csv.mapRows k m rows i) as [out|e] eqn:Hmap; [|exists e; reflexivity].
    exfalso. clear Hthrown Hreturns. revert i out Hmap.
    induction rows as [|line0 rest IH]; intros i out Hmap; [destruct Hin|].
    simpl in Hmap.
    destruct (Csv.parseRow k m line0 i) as [row|e0] eqn:Hrow; [|discriminate].
    destruct (Csv.mapRows k m rest (i + 1)) as [out'|e'] eqn:Hrest; [|discriminate].
    destruct Hin as [Heq | Hin].
    + subst line0. rewrite (parseRow_lacking k m line i Hlack) in Hrow.
      discriminate Hrow.
    + apply (IH Hin (i + 1) out'). exact Hrest.
  - intros Hall. destruct (Hreturns Hall) as [out Hout].
    exists out. split; [exact Hout|]. apply (mapRows_ok k m rows i out Hout).
  - exact Hthrown.
Qed.

Lemma slice_from {A} (arr : list A) (k : Z) :
  0 <= k <= Js.length arr -> slice arr k (Js.length arr) = skipn (Z.to_nat k) arr.
Proof.
  intros Hk. unfold slice, clamp.
  destruct (k <? 0) eqn:Hneg; [apply Z.ltb_lt in Hneg; lia|].
  destruct (Js.length arr <? 0) eqn:Hneg'; [apply Z.ltb_lt in Hneg'; lia|].
  rewrite !Z.min_l by lia.
  rewrite Z.max_l by lia.
  apply firstn_all2. rewrite length_skipn. unfold Js.length. lia.
Qed.

(** X8. A CSV text that parses gives one row for each non-blank line
    after the header, and each row has a non-empty token id and a
    non-empty metadata URL. *)
Theorem parseCsv_rows_valid text out :
  Csv.parseCsv text = Returned out ->
  Js.length out = Js.length (Csv.nonBlankLines text) - 1
  /\ 1 <= Js.length out
  /\ Forall Csv.validRow out.
Proof.
  unfold Csv.parseCsv.
  destruct (Js.length (Csv.nonBlankLines text) <? 2) eqn:Hshort; [discriminate|].
  apply Z.ltb_ge in Hshort.
  match goal with
  | |- (if ?c then _ else _) = _ -> _ => destruct c; [discriminate|]
  end.
  intros H. apply mapRows_ok in H. destruct H as [Hlen Hall].
  rewrite slice_from in Hlen by lia.
  rewrite length_skipn in Hlen.
  unfold Js.length in *. repeat split; try assumption; lia.
Qed.

End CsvFacts.

Example parse_goodCsv :
  Csv.parseCsv (Csv.file_text Fixture.goodCsv)
  = Returned [ {| Minter.tokenId := "1"; Minter.metadataUrl := "ipfs://one" |};
               {| Minter.tokenId := "2"; Minter.metadataUrl := "ipfs://two" |} ].
Proof. vm_compute. reflexivity. Qed.

Example parse_badCsv :
  Csv.parseCsv (Csv.file_text Fixture.badCsv)
  = Threw (ErrorObj "Invalid data on row 3. Both token_id and metadata_url are required.").
Proof. vm_compute. reflexivity. Qed.

Example parse_header_only :
  Csv.parseCsv "token_id,metadata_url"
  = Threw (ErrorObj "CSV must have a header and at least one data row.").
Proof. vm_compute. reflexivity. Qed.

Lemma parseCsv_rows_valid_witness :
  Js.length [ {| Minter.tokenId := "1"; Minter.metadataUrl := "ipfs://one" |};
              {| Minter.tokenId := "2"; Minter.metadataUrl := "ipfs://two" |} ]
  = Js.length (Csv.nonBlankLines (Csv.file_text Fixture.goodCsv)) - 1.
Proof.
  apply (parseCsv_rows_valid (Csv.file_text Fixture.goodCsv)).
  vm_compute. reflexivity.
Defined.

Lemma mapRows_reports_first_bad_row_witness :
  Csv.mapRows 0 1 ["1,ipfs://one"; ",ipfs://two"; "3,ipfs://three"] 0
  = Threw (ErrorObj "Invalid data on row 3. Both token_id and metadata_url are required.").
Proof.
  apply (proj1 (mapRows_reports_first_bad_row
                  0 1 ["1,ipfs://one"; ",ipfs://two"; "3,ipfs://three"] 0)
               1%nat ",ipfs://two").
  - reflexivity.
  - left. reflexivity.
  - intros [|n'] line' Hlt Hnth; [|lia].
    inversion Hnth; subst line'. intros [Hlack | Hlack]; discriminate Hlack.
Defined.

Section CsvHandler.
Variable Chain : Type.
Implicit Types (w : Minter.World Chain).

End CsvHandler.

Example load_badCsv :
  Minter.component (Eff.final (Csv.handleFileChange (Some Fixture.badCsv)
                                                    Fixture.emptyMinter))
  = {| Minter.contractAddress := "0xC0FFEE";
       Minter.network := Minter.polygon_mainnet;
       Minter.parsedData := [];
       Minter.fileName := "";
       Minter.error :=
         Some "Invalid data on row 3. Both token_id and metadata_url are required.";
       Minter.isMinting := false;
       Minter.isFinished := false;
       Minter.mintingProgress := Minter.mkProgress 0 0 0 "" [] [] |}.
Proof. vm_compute. reflexivity. Qed.

(* ------------------------------------------------------------------ *)
(** * The wallet thunks *)
(* ------------------------------------------------------------------ *)

Ltac unfold_store :=
  unfold Store.dispatch, Store.localSetItem, Store.localRemoveItem,
    Store.sessionSetItem, Store.sessionRemoveItem,
    Eff.try_finally, Eff.try_catch, Eff.bind, Eff.gets, Eff.settle, Eff.modify,
    Eff.emit, Eff.throw, Eff.ret.

Section WalletFacts.
Variable File : Type.
Variable env : Wallet.Env.
Implicit Types (w : Store.World File).

(** Loading the NFTs of a wallet never fails: it sets the list to
    what is stored for that wallet, and to the empty list when nothing is
    stored or the stored text does not parse. *)
Lemma loadNfts_best_effort address w :
  Wallet.loadNftsForWallet env address w
  = Store.dispatch (Store.setNfts (Wallet.savedNfts env (Store.localStorage w) address)) w.
Proof.
  unfold Wallet.loadNftsForWallet, Wallet.savedNfts. unfold_store.
  destruct (Store.getItem (Store.localStorage w) (Wallet.nftsKey address)) as [text|];
    simpl; [|reflexivity].
  destruct (truthy text); [|reflexivity].
  destruct (Wallet.parseNfts env text); reflexivity.
Qed.

(** The same fact, for use in the proofs below. *)
Lemma loadNfts_run address w :
  Wallet.loadNftsForWallet env address w
  = (Returned tt,
     Store.mkWorld
       (Store.rootReducer (Store.root w)
          (Store.setNfts (Wallet.savedNfts env (Store.localStorage w) address)))
       (Store.localStorage w) (Store.sessionStorage w),
     [Store.EvDispatch
        (Store.setNfts (Wallet.savedNfts env (Store.localStorage w) address))]).
Proof.
  unfold Wallet.loadNftsForWallet, Wallet.savedNfts. unfold_store.
  destruct (Store.getItem (Store.localStorage w) (Wallet.nftsKey address)) as [text|];
    simpl; [|reflexivity].
  destruct (truthy text); [|reflexivity].
  destruct (Wallet.parseNfts env text); reflexivity.
Qed.

(** X10. [silentConnect] never throws and always ends with the busy
    flag down: without a wallet provider, when the provider answers, and
    when its request fails. It leaves the history, the cursor, the error
    and the session storage alone. *)
Theorem silentConnect_clears_loading w :
  let r := Wallet.silentConnect env w in
  let e' := Store.editor (Store.root (Eff.final r)) in
  Eff.outcome r = Returned tt
  /\ isLoading e' = false
  /\ history e' = history (Store.editor (Store.root w))
  /\ historyIndex e' = historyIndex (Store.editor (Store.root w))
  /\ error e' = error (Store.editor (Store.root w))
  /\ Store.sessionStorage (Eff.final r) = Store.sessionStorage w.
Proof.
  intros r e'. subst r e'. unfold Wallet.silentConnect.
  destruct (Wallet.ethereum env); simpl; [|repeat split].
  unfold Eff.try_finally, Eff.try_catch, Eff.bind at 1, Eff.settle.
  destruct (Wallet.eth_accounts env) as [[[|address rest]|]|e]; try (repeat split; fail).
  - unfold_store. simpl.
    destruct (truthy_opt _); repeat split.
  - unfold Eff.bind, Eff.gets.
    cbv beta iota.
    destruct (Wallet.differs address _);
      unfold Store.localSetItem, Eff.modify, Eff.ret, Store.dispatch;
      cbv beta iota; rewrite loadNfts_run; repeat split.
  - unfold_store. simpl.
    destruct (truthy_opt _); repeat split.
Qed.

Lemma nftsKey_is_not_wallet_key address :
  String.eqb (Wallet.nftsKey address) Wallet.WALLET_ADDRESS_STORAGE_KEY = false.
Proof. reflexivity. Qed.

Lemma wallet_key_is_not_nftsKey address :
  String.eqb Wallet.WALLET_ADDRESS_STORAGE_KEY (Wallet.nftsKey address) = false.
Proof. reflexivity. Qed.

Lemma savedNfts_setItem_wallet_key st address v :
  Wallet.savedNfts env (Store.setItem st Wallet.WALLET_ADDRESS_STORAGE_KEY v) address
  = Wallet.savedNfts env st address.
Proof.
  unfold Wallet.savedNfts, Store.getItem, Store.setItem.
  rewrite nftsKey_is_not_wallet_key. reflexivity.
Qed.

Lemma savedNfts_removeItem_wallet_key st address :
  Wallet.savedNfts env (Store.removeItem st Wallet.WALLET_ADDRESS_STORAGE_KEY) address
  = Wallet.savedNfts env st address.
Proof.
  unfold Wallet.savedNfts, Store.getItem, Store.removeItem.
  rewrite nftsKey_is_not_wallet_key. reflexivity.
Qed.

(** X11. When the provider reports an authorised account, [silentConnect]
    connects it: the wallet address is that account, the stored last
    address agrees with it, and the NFT list is the one saved for that
    account. *)
Theorem silentConnect_reconnects w address rest :
  Wallet.ethereum env = true ->
  Wallet.eth_accounts env = Returned (Some (address :: rest)) ->
  let w' := Eff.final (Wallet.silentConnect env w) in
  Store.walletAddress (Store.root w') = Some address
  /\ Store.getItem (Store.localStorage w') Wallet.WALLET_ADDRESS_STORAGE_KEY = Some address
  /\ Store.myNfts (Store.root w') = Wallet.savedNfts env (Store.localStorage w) address.
Proof.
  intros Heth Hacc w'. subst w'. unfold Wallet.silentConnect.
  rewrite Heth. change (negb true) with false. cbv iota.
  unfold Eff.try_finally, Eff.try_catch, Eff.bind at 1, Eff.settle.
  rewrite Hacc. unfold Eff.bind, Eff.gets. cbv beta iota.
  destruct (Wallet.differs address
              (Store.getItem (Store.localStorage w) Wallet.WALLET_ADDRESS_STORAGE_KEY))
           eqn:Hdiff;
    unfold Store.localSetItem, Eff.modify, Eff.ret, Store.dispatch;
    cbv beta iota; rewrite loadNfts_run; cbn.
  - rewrite savedNfts_setItem_wallet_key.
    unfold Store.getItem, Store.setItem. rewrite ?String.eqb_refl. repeat split.
  - repeat split.
    unfold Wallet.differs, Store.getItem in Hdiff. unfold Store.getItem.
    destruct (Store.localStorage w Wallet.WALLET_ADDRESS_STORAGE_KEY)
      as [s|]; [|discriminate].
    apply Bool.negb_false_iff in Hdiff. apply String.eqb_eq in Hdiff. congruence.
Qed.

(** X12. [disconnectWallet] forgets the wallet: no address, an empty NFT
    list, no stored last address. Every other key of the storage, the
    saved NFT lists among them, keeps its value, and the editor is not
    touched. *)
Theorem disconnect_forgets_wallet w :
  let r := Wallet.disconnectWallet w in
  let w' := Eff.final r in
  Eff.outcome r = Returned tt
  /\ Store.walletAddress (Store.root w') = None
  /\ Store.myNfts (Store.root w') = []
  /\ Store.getItem (Store.localStorage w') Wallet.WALLET_ADDRESS_STORAGE_KEY = None
  /\ (forall key, key <> Wallet.WALLET_ADDRESS_STORAGE_KEY ->
                  Store.getItem (Store.localStorage w') key
                  = Store.getItem (Store.localStorage w) key)
  /\ Store.editor (Store.root w') = Store.editor (Store.root w).
Proof.
  cbn. repeat split.
  intros key Hkey. unfold Store.getItem, Store.removeItem.
  destruct (String.eqb_spec key Wallet.WALLET_ADDRESS_STORAGE_KEY) as [Heq|Hne];
    [contradiction | reflexivity].
Qed.

(** An [accountsChanged] event that reports another account. *)
Lemma accountsChanged_connects w address rest :
  Wallet.differs address (Store.walletAddress (Store.root w)) = true ->
  let w' := Eff.final (Wallet.handleAccountsChanged env (address :: rest) w) in
  Store.walletAddress (Store.root w') = Some address
  /\ Store.getItem (Store.localStorage w') Wallet.WALLET_ADDRESS_STORAGE_KEY
     = Some address
  /\ Store.myNfts (Store.root w')
     = Wallet.savedNfts env (Store.localStorage w) address.
Proof.
  intros Hdiff. unfold Wallet.handleAccountsChanged, Eff.bind, Eff.gets.
  rewrite Hdiff.
  unfold Store.localSetItem, Eff.modify, Store.dispatch.
  cbv beta iota. rewrite loadNfts_run. cbn.
  rewrite savedNfts_setItem_wallet_key.
  unfold Store.getItem, Store.setItem. rewrite ?String.eqb_refl. repeat split.
Qed.

(** X13. An [accountsChanged] event that reports the connected account
    changes nothing; one that reports no account is a disconnection; one
    that reports another account connects it, stores it as the last
    address and loads the NFT list saved for it. *)
Theorem accountsChanged_cases w address rest :
  (Wallet.differs address (Store.walletAddress (Store.root w)) = false ->
   Wallet.handleAccountsChanged env (address :: rest) w = (Returned tt, w, []))
  /\ Wallet.handleAccountsChanged env [] w = Wallet.disconnectWallet w
  /\ (Wallet.differs address (Store.walletAddress (Store.root w)) = true ->
      let w' := Eff.final (Wallet.handleAccountsChanged env (address :: rest) w) in
      Store.walletAddress (Store.root w') = Some address
      /\ Store.getItem (Store.localStorage w') Wallet.WALLET_ADDRESS_STORAGE_KEY
         = Some address
      /\ Store.myNfts (Store.root w')
         = Wallet.savedNfts env (Store.localStorage w) address).
Proof.
  split; [|split].
  - intros Hsame. unfold Wallet.handleAccountsChanged, Eff.bind, Eff.gets.
    rewrite Hsame. reflexivity.
  - unfold Wallet.handleAccountsChanged, Wallet.disconnectWallet. unfold_store.
    reflexivity.
  - apply accountsChanged_connects.
Qed.
End WalletFacts.

Section WalletRoundTrip.
Variable File : Type.
Variable env : Wallet.Env.
Implicit Types (w : Store.World File).

(** X14. The NFT list survives a disconnection: when the list of the
    connected wallet has been saved by the saving effect, a
    disconnection followed by a reconnection of the same account brings
    the same list back, provided the stored text is non-empty and parses
    back to the list. *)
Theorem save_disconnect_reconnect w address :
  Store.walletAddress (Store.root w) = Some address ->
  truthy address = true ->
  truthy (Wallet.stringifyNfts env (Store.myNfts (Store.root w))) = true ->
  Wallet.parseNfts env (Wallet.stringifyNfts env (Store.myNfts (Store.root w)))
  = Returned (Store.myNfts (Store.root w)) ->
  let w1 := Eff.final (Wallet.saveNftsEffect env w) in
  let w2 := Eff.final (Wallet.disconnectWallet w1) in
  let w3 := Eff.final (Wallet.handleAccountsChanged env [address] w2) in
  Store.myNfts (Store.root w2) = []
  /\ Store.walletAddress (Store.root w3) = Some address
  /\ Store.myNfts (Store.root w3) = Store.myNfts (Store.root w).
Proof.
  intros Hwallet Haddr Htext Hparse w1 w2 w3.
  assert (Hw1 : w1 = Store.mkWorld (Store.root w)
                       (Store.setItem (Store.localStorage w) (Wallet.nftsKey address)
                          (Wallet.stringifyNfts env (Store.myNfts (Store.root w))))
                       (Store.sessionStorage w)).
  { subst w1. unfold Wallet.saveNftsEffect, Eff.bind, Eff.gets.
    rewrite Hwallet, Haddr. reflexivity. }
  assert (Hw2 : w2 = Store.mkWorld
                       (Store.rootReducer
                          (Store.rootReducer (Store.root w1) (Store.setWalletAddress None))
                          (Store.setNfts []))
                       (Store.removeItem (Store.localStorage w1)
                                         Wallet.WALLET_ADDRESS_STORAGE_KEY)
                       (Store.sessionStorage w1)) by reflexivity.
  assert (Hsaved : Wallet.savedNfts env (Store.localStorage w2) address
                   = Store.myNfts (Store.root w)).
  { rewrite Hw2. cbn [Store.localStorage].
    rewrite savedNfts_removeItem_wallet_key. rewrite Hw1. cbn [Store.localStorage].
    unfold Wallet.savedNfts, Store.getItem, Store.setItem.
    rewrite String.eqb_refl, Htext, Hparse. reflexivity. }
  assert (Hdiff : Wallet.differs address (Store.walletAddress (Store.root w2)) = true)
    by (rewrite Hw2; reflexivity).
  split; [rewrite Hw2; reflexivity|].
  destruct (accountsChanged_connects File env w2 address [] Hdiff) as (Hwal & _ & Hnfts).
  split; [exact Hwal | rewrite <- Hsaved; exact Hnfts].
Qed.

(** X15. A connection that cannot be made changes neither the wallet,
    nor the NFT list, nor the storage: without a provider, or when the
    provider refuses the request, only an error message is set; when the
    provider answers with no account, nothing at all happens. *)
Theorem connectWallet_failure w :
  let r := Wallet.connectWallet env w in
  (Wallet.ethereum env = false
   \/ (exists e, Wallet.eth_requestAccounts env = Threw e)
   \/ Wallet.eth_requestAccounts env = Returned None
   \/ Wallet.eth_requestAccounts env = Returned (Some [])) ->
  Eff.outcome r = Returned tt
  /\ Store.walletAddress (Store.root (Eff.final r)) = Store.walletAddress (Store.root w)
  /\ Store.myNfts (Store.root (Eff.final r)) = Store.myNfts (Store.root w)
  /\ Store.localStorage (Eff.final r) = Store.localStorage w
  /\ history (Store.editor (Store.root (Eff.final r)))
     = history (Store.editor (Store.root w))
  /\ (Wallet.ethereum env = false ->
      error (Store.editor (Store.root (Eff.final r)))
      = Some "Please install a Web3 wallet like MetaMask.")
  /\ (Wallet.ethereum env = true ->
      (exists e, Wallet.eth_requestAccounts env = Threw e) ->
      error (Store.editor (Store.root (Eff.final r)))
      = Some "Failed to connect wallet. Please try again.")
  /\ (Wallet.ethereum env = true ->
      (Wallet.eth_requestAccounts env = Returned None
       \/ Wallet.eth_requestAccounts env = Returned (Some [])) ->
      r = (Returned tt, w, [])).
Proof.
  intros r Hfail. subst r. unfold Wallet.connectWallet.
  destruct (Wallet.ethereum env) eqn:Heth.
  - unfold Eff.try_catch, Eff.bind, Eff.settle.
    destruct (Wallet.eth_requestAccounts env) as [[[|address rest]|]|e] eqn:Hreq.
    2: { exfalso. destruct Hfail as [H | [[e He] | [H | H]]]; discriminate. }
    all: cbn; repeat split; intros;
      repeat match goal with
        | H : exists _, _ |- _ => destruct H
        | H : _ \/ _ |- _ => destruct H
        end;
      try discriminate; try reflexivity; destruct w; reflexivity.
  - cbn. repeat split; intros; try discriminate; reflexivity.
Qed.
End WalletRoundTrip.

Lemma silentConnect_reconnects_witness :
  let w' := Eff.final (Wallet.silentConnect Fixture.walletEnv Fixture.starting) in
  Store.walletAddress (Store.root w') = Some "0xA11CE"
  /\ Store.myNfts (Store.root w') = [Fixture.sunset]
  /\ isLoading (Store.editor (Store.root w')) = false.
Proof.
  intros w'.
  destruct (silentConnect_reconnects Scenario.File Fixture.walletEnv Fixture.starting
              "0xA11CE" [] ltac:(reflexivity) ltac:(reflexivity))
    as (Hwal & _ & Hnfts).
  split; [exact Hwal|]. split; [exact Hnfts | reflexivity].
Defined.

Lemma accountsChanged_cases_witness :
  Wallet.handleAccountsChanged Fixture.walletEnv ["0xA11CE"; "0xB0B"] Fixture.connected
  = (Returned tt, Fixture.connected, [])
  /\ Store.walletAddress
       (Store.root (Eff.final (Wallet.handleAccountsChanged Fixture.walletEnv ["0xB0B"]
                                                            Fixture.connected)))
     = Some "0xB0B".
Proof.
  split.
  - apply (proj1 (accountsChanged_cases Scenario.File Fixture.walletEnv Fixture.connected
                                        "0xA11CE" ["0xB0B"])).
    reflexivity.
  - apply (proj2 (proj2 (accountsChanged_cases Scenario.File Fixture.walletEnv
                                               Fixture.connected "0xB0B" []))).
    reflexivity.
Defined.

Lemma save_disconnect_reconnect_witness :
  let w1 := Eff.final (Wallet.saveNftsEffect Fixture.walletEnv Fixture.connected) in
  let w2 := Eff.final (Wallet.disconnectWallet w1) in
  let w3 := Eff.final (Wallet.handleAccountsChanged Fixture.walletEnv ["0xA11CE"] w2) in
  Store.myNfts (Store.root w2) = []
  /\ Store.walletAddress (Store.root w3) = Some "0xA11CE"
  /\ Store.myNfts (Store.root w3) = [Fixture.sunset].
Proof.
  apply (save_disconnect_reconnect Scenario.File Fixture.walletEnv Fixture.connected
                                   "0xA11CE");
    reflexivity.
Defined.

Lemma connectWallet_failure_witness :
  error (Store.editor (Store.root (Eff.final (Wallet.connectWallet Fixture.lockedWalletEnv
                                                                   Fixture.connected))))
  = Some "Failed to connect wallet. Please try again."
  /\ Store.walletAddress
       (Store.root (Eff.final (Wallet.connectWallet Fixture.lockedWalletEnv
                                                    Fixture.connected)))
     = Some "0xA11CE".
Proof.
  assert (Hfail : Wallet.ethereum Fixture.lockedWalletEnv = false
                  \/ (exists e, Wallet.eth_requestAccounts Fixture.lockedWalletEnv = Threw e)
                  \/ Wallet.eth_requestAccounts Fixture.lockedWalletEnv = Returned None
                  \/ Wallet.eth_requestAccounts Fixture.lockedWalletEnv = Returned (Some []))
    by (right; left; eexists; reflexivity).
  destruct (connectWallet_failure Scenario.File Fixture.lockedWalletEnv Fixture.connected
                                  Hfail)
    as (_ & Hwal & _ & _ & _ & _ & Herr & _).
  split; [|exact Hwal].
  apply Herr; [reflexivity | eexists; reflexivity].
Defined.

(* ------------------------------------------------------------------ *)
(** * App.tsx: the saved session and the mint confirmation *)
(* ------------------------------------------------------------------ *)

Section AppFacts.
Variable File : Type.
Variable env : App.Env File.
Implicit Types (w : Store.World File).

Lemma decodeAll_length urls : forall i files,
  App.decodeAll env urls i = Returned files -> List.length files = List.length urls.
Proof.
  induction urls as [|u rest IH]; intros i files H; simpl in H.
  - inversion H. reflexivity.
  - destruct (App.dataURLtoFile env u _); [|discriminate].
    destruct (App.decodeAll env rest (i + 1)) eqn:Hrest; [|discriminate].
    inversion H. simpl. f_equal. eapply IH. exact Hrest.
Qed.

(** What the session loading effect does, by cases on the stored text. *)
Lemma loadSession_run w :
  let stored := Store.getItem (Store.sessionStorage w) App.SESSION_STORAGE_KEY in
  let lowered :=
    if isLoading (Store.editor (Store.root w))
    then Store.rootReducer (Store.root w) (Store.editorAction (setIsLoading false))
    else Store.root w in
  exists l,
    (App.loadSessionEffect env w
     = (Returned tt, Store.mkWorld lowered (Store.localStorage w) (Store.sessionStorage w), l)
     /\ (truthy_opt stored = false
         \/ (exists parsed,
               App.parseSession env (or_else stored "") = Returned parsed
               /\ (match App.saved_history parsed with
                   | Some (u :: us) =>
                       exists e, App.decodeAll env (u :: us) 0 = Threw e
                   | _ => True
                   end))))
    \/ (truthy_opt stored = true
        /\ (exists e, App.parseSession env (or_else stored "") = Threw e)
        /\ App.loadSessionEffect env w
           = (Returned tt,
              Store.mkWorld lowered (Store.localStorage w)
                            (Store.removeItem (Store.sessionStorage w)
                                              App.SESSION_STORAGE_KEY), l))
    \/ (truthy_opt stored = true
        /\ exists parsed urls files,
            App.parseSession env (or_else stored "") = Returned parsed
            /\ App.saved_history parsed = Some urls
            /\ urls <> []
            /\ App.decodeAll env urls 0 = Returned files
            /\ App.loadSessionEffect env w
               = (Returned tt,
                  Store.mkWorld
                    (Store.rootReducer lowered
                       (Store.editorAction (setHistoryState files (App.saved_index parsed))))
                    (Store.localStorage w) (Store.sessionStorage w), l)).
Proof.
  intros stored lowered. subst stored lowered.
  unfold App.loadSessionEffect. unfold_store.
  destruct w as [rt ls ss]. cbn [Store.sessionStorage Store.root Store.localStorage].
  destruct (truthy_opt (Store.getItem ss App.SESSION_STORAGE_KEY)) eqn:Hstored.
  2: { destruct (isLoading (Store.editor rt)); eexists; left; split;
       first [reflexivity | left; reflexivity]. }
  destruct (App.parseSession env (or_else (Store.getItem ss App.SESSION_STORAGE_KEY) ""))
    as [parsed|e] eqn:Hparse.
  2: { destruct (isLoading (Store.editor rt)); eexists; right; left;
       (split; [reflexivity|]); (split; [eexists; reflexivity|]); reflexivity. }
  destruct (App.saved_history parsed) as [[|u us]|] eqn:Hhist.
  1, 3: destruct (isLoading (Store.editor rt)); eexists; left;
    (split; [reflexivity|]); right; exists parsed; rewrite Hhist; split; trivial.
  destruct (App.decodeAll env (u :: us) 0) as [files|e] eqn:Hdec.
  - destruct (isLoading (Store.editor rt)); destruct (String.eqb (App.pathname env) "/");
      eexists; right; right; (split; [reflexivity|]);
      exists parsed, (u :: us), files;
      (repeat split; try assumption; try discriminate; try reflexivity).
  - destruct (isLoading (Store.editor rt)); eexists; left;
      (split; [reflexivity|]); right; exists parsed; rewrite Hhist;
      (split; [reflexivity | exists e; exact Hdec]).
Qed.


Lemma lowered_editor (rt : Store.RootState File) :
  let lowered :=
    if isLoading (Store.editor rt)
    then Store.rootReducer rt (Store.editorAction (setIsLoading false))
    else rt in
  isLoading (Store.editor lowered) = false
  /\ history (Store.editor lowered) = history (Store.editor rt)
  /\ historyIndex (Store.editor lowered) = historyIndex (Store.editor rt)
  /\ error (Store.editor lowered) = error (Store.editor rt)
  /\ Store.walletAddress lowered = Store.walletAddress rt
  /\ Store.myNfts lowered = Store.myNfts rt.
Proof.
  destruct (isLoading (Store.editor rt)) eqn:Hl; cbn; repeat split; assumption.
Qed.

(** X16. Restoring a saved session is all or nothing. The effect never
    throws and leaves the busy flag down; the history and the cursor are
    either what they were, or the decoded files of the whole saved list
    with the saved cursor. One saved image that does not decode, an
    empty saved list or a text that does not parse restores nothing. *)
Theorem loadSession_all_or_nothing w :
  let r := App.loadSessionEffect env w in
  let e := Store.editor (Store.root w) in
  let e' := Store.editor (Store.root (Eff.final r)) in
  Eff.outcome r = Returned tt
  /\ isLoading e' = false
  /\ error e' = error e
  /\ Store.localStorage (Eff.final r) = Store.localStorage w
  /\ Store.myNfts (Store.root (Eff.final r)) = Store.myNfts (Store.root w)
  /\ ((history e' = history e /\ historyIndex e' = historyIndex e)
      \/ (exists text parsed urls files,
            Store.getItem (Store.sessionStorage w) App.SESSION_STORAGE_KEY = Some text
            /\ App.parseSession env text = Returned parsed
            /\ App.saved_history parsed = Some urls
            /\ App.decodeAll env urls 0 = Returned files
            /\ List.length files = List.length urls
            /\ files <> []
            /\ history e' = files
            /\ historyIndex e' = App.saved_index parsed)).
Proof.
  intros r e e'. subst r e e'.
  destruct (lowered_editor (Store.root w)) as (Hl & Hh & Hi & He & _ & Hn).
  destruct (loadSession_run w)
    as [l [[Hrun _] | [(_ & _ & Hrun) | (Hstored & parsed & urls & files & Hp & Hs & Hne & Hd & Hrun)]]];
    rewrite Hrun; unfold Eff.outcome, Eff.final; cbn [fst snd Store.root Store.localStorage];
    repeat (split; [first [reflexivity | assumption]|]).
  - left. split; assumption.
  - left. split; assumption.
  - right.
    destruct (Store.getItem (Store.sessionStorage w) App.SESSION_STORAGE_KEY)
      as [text|] eqn:Hget; [|discriminate].
    simpl in Hstored. assert (Htext : or_else (Some text) "" = text)
      by (simpl; rewrite Hstored; reflexivity).
    rewrite Htext in Hp.
    pose proof (decodeAll_length _ _ _ Hd) as Hlen.
    exists text, parsed, urls, files. repeat split; try assumption.
    intros ->. destruct urls; [congruence | discriminate].
Qed.

(** X17. A saved session whose text does not parse is removed from the
    session storage, and the history and the cursor stay as they were. *)
Theorem corrupt_session_is_dropped w text e0 :
  Store.getItem (Store.sessionStorage w) App.SESSION_STORAGE_KEY = Some text ->
  truthy text = true ->
  App.parseSession env text = Threw e0 ->
  let w' := Eff.final (App.loadSessionEffect env w) in
  Store.getItem (Store.sessionStorage w') App.SESSION_STORAGE_KEY = None
  /\ history (Store.editor (Store.root w')) = history (Store.editor (Store.root w))
  /\ historyIndex (Store.editor (Store.root w'))
     = historyIndex (Store.editor (Store.root w)).
Proof.
  intros Hget Htruthy Hparse w'. subst w'.
  destruct (lowered_editor (Store.root w)) as (_ & Hh & Hi & _).
  assert (Htext : or_else (Some text) "" = text) by (simpl; rewrite Htruthy; reflexivity).
  destruct (loadSession_run w)
    as [l [[_ [Hno | (parsed & Hp & _)]] | [(_ & _ & Hrun) | (_ & parsed & ? & ? & Hp & _)]]];
    try rewrite Hget in Hno; try rewrite Hget in Hp.
  - simpl in Hno. congruence.
  - rewrite Htext in Hp. congruence.
  - rewrite Hrun. unfold Eff.final. cbn [fst snd Store.root Store.sessionStorage].
    split; [|split; assumption].
    unfold Store.getItem, Store.removeItem. rewrite String.eqb_refl. reflexivity.
  - rewrite Htext in Hp. congruence.
Qed.






Lemma encodeAll_length files : forall urls,
  App.encodeAll env files = Returned urls -> List.length urls = List.length files.
Proof.
  induction files as [|f rest IH]; intros urls H; simpl in H.
  - inversion H. reflexivity.
  - destruct (App.fileToDataURL env f); [|discriminate].
    destruct (App.encodeAll env rest) eqn:Hrest; [|discriminate].
    inversion H. simpl. f_equal. apply IH. reflexivity.
Qed.

(** X19. Starting over forgets the session: after [handleUploadNew] the
    history is empty, the saving effect writes nothing, and a later run
    of the loading effect finds nothing to restore. *)
Theorem uploadNew_forgets_session w :
  let w1 := Eff.final (App.handleUploadNew w) in
  let w2 := Eff.final (App.saveSessionEffect env w1) in
  let w3 := Eff.final (App.loadSessionEffect env w2) in
  history (Store.editor (Store.root w1)) = []
  /\ historyIndex (Store.editor (Store.root w1)) = -1
  /\ w2 = w1
  /\ Store.getItem (Store.sessionStorage w3) App.SESSION_STORAGE_KEY = None
  /\ history (Store.editor (Store.root w3)) = []
  /\ historyIndex (Store.editor (Store.root w3)) = -1.
Proof.
  intros w1 w2 w3.
  assert (Hw1 : w1 = Store.mkWorld
                       (Store.rootReducer (Store.root w) (Store.editorAction resetHistory))
                       (Store.localStorage w)
                       (Store.removeItem (Store.sessionStorage w) App.SESSION_STORAGE_KEY))
    by reflexivity.
  assert (Hw2 : w2 = w1) by (subst w2; rewrite Hw1; reflexivity).
  assert (Hnone : Store.getItem (Store.sessionStorage w1) App.SESSION_STORAGE_KEY = None).
  { rewrite Hw1. cbn [Store.sessionStorage]. unfold Store.getItem, Store.removeItem.
    rewrite String.eqb_refl. reflexivity. }
  split; [rewrite Hw1; reflexivity|]. split; [rewrite Hw1; reflexivity|].
  split; [exact Hw2|].
  subst w3. rewrite Hw2.
  destruct (lowered_editor (Store.root w1)) as (_ & Hh & Hi & _).
  destruct (loadSession_run w1)
    as [l [[Hrun _] | [(Hs & _) | (Hs & _)]]];
    try (rewrite Hnone in Hs; discriminate Hs).
  rewrite Hrun. unfold Eff.final. cbn [fst snd Store.root Store.sessionStorage].
  split; [exact Hnone|]. rewrite Hh, Hi. rewrite Hw1. split; reflexivity.
Qed.

(** X20. A saved session comes back: when the history is non-empty and
    the cursor is not negative, the saving effect followed by the
    loading effect restores the decoded files of the whole history, as
    many as there were, with the cursor where it was, provided the stored
    text is non-empty and parses back to what was saved. *)
Theorem save_then_load_session w urls files :
  let e := Store.editor (Store.root w) in
  0 < Js.length (history e) ->
  0 <= historyIndex e ->
  App.encodeAll env (history e) = Returned urls ->
  truthy (App.stringifySession env urls (historyIndex e)) = true ->
  App.parseSession env (App.stringifySession env urls (historyIndex e))
  = Returned {| App.saved_history := Some urls; App.saved_index := historyIndex e |} ->
  App.decodeAll env urls 0 = Returned files ->
  let w1 := Eff.final (App.saveSessionEffect env w) in
  let w2 := Eff.final (App.loadSessionEffect env w1) in
  history (Store.editor (Store.root w2)) = files
  /\ historyIndex (Store.editor (Store.root w2)) = historyIndex e
  /\ List.length files = List.length (history e).
Proof.
  intros e Hlen Hidx Henc Htext Hparse Hdec w1 w2. subst e.
  assert (Hw1 : w1 = Store.mkWorld (Store.root w) (Store.localStorage w)
                       (Store.setItem (Store.sessionStorage w) App.SESSION_STORAGE_KEY
                          (App.stringifySession env urls
                             (historyIndex (Store.editor (Store.root w)))))).
  { subst w1. unfold App.saveSessionEffect, Eff.bind at 1, Eff.gets at 1.
    cbv beta iota zeta.
    assert (H1 : (0 <? Js.length (history (Store.editor (Store.root w)))) = true)
      by (apply Z.ltb_lt; lia).
    assert (H2 : (0 <=? historyIndex (Store.editor (Store.root w))) = true)
      by (apply Z.leb_le; lia).
    rewrite H1, H2. unfold Eff.try_catch, Eff.bind, Eff.settle. rewrite Henc.
    reflexivity. }
  assert (Hget : Store.getItem (Store.sessionStorage w1) App.SESSION_STORAGE_KEY
                 = Some (App.stringifySession env urls
                           (historyIndex (Store.editor (Store.root w))))).
  { rewrite Hw1. cbn [Store.sessionStorage]. unfold Store.getItem, Store.setItem.
    rewrite String.eqb_refl. reflexivity. }
  assert (Hroot : Store.root w1 = Store.root w) by (rewrite Hw1; reflexivity).
  assert (Hcount : List.length files = List.length (history (Store.editor (Store.root w)))).
  { rewrite (decodeAll_length _ _ _ Hdec). apply encodeAll_length. exact Henc. }
  subst w2.
  destruct (loadSession_run w1)
    as [l [[_ [Hno | (parsed & Hp & Hfail)]]
          | [(_ & (e0 & Hp) & _)
            | (_ & parsed & urls' & files' & Hp & Hs & _ & Hd & Hrun)]]];
    rewrite Hget in *; simpl or_else in *; try rewrite Htext in *.
  - simpl in Hno. congruence.
  - rewrite Hparse in Hp. inversion Hp; subst parsed. cbn [App.saved_history] in Hfail.
    destruct urls as [|u us].
    + apply encodeAll_length in Henc. unfold Js.length in Hlen.
      destruct (history (Store.editor (Store.root w))); simpl in *; [lia | discriminate].
    + destruct Hfail as [e0 He0]. congruence.
  - congruence.
  - rewrite Hparse in Hp. inversion Hp; subst parsed.
    cbn [App.saved_history] in Hs. inversion Hs; subst urls'.
    rewrite Hdec in Hd. inversion Hd; subst files'.
    rewrite Hrun. unfold Eff.final. cbn [fst snd Store.root App.saved_index].
    rewrite Hroot. destruct (isLoading (Store.editor (Store.root w)));
      repeat split; assumption.
Qed.
End AppFacts.

Lemma corrupt_session_is_dropped_witness :
  let w' := Eff.final (App.loadSessionEffect Fixture.appEnv Fixture.corrupted) in
  Store.getItem (Store.sessionStorage w') App.SESSION_STORAGE_KEY = None
  /\ history (Store.editor (Store.root w')) = ["data:a"; "data:b"].
Proof.
  intros w'.
  destruct (corrupt_session_is_dropped Scenario.File Fixture.appEnv Fixture.corrupted
              "{oops" (ErrorObj "Unexpected token in JSON")
              ltac:(reflexivity) ltac:(reflexivity) ltac:(reflexivity))
    as (Hgone & Hh & _).
  split; [exact Hgone | exact Hh].
Defined.

Lemma save_then_load_session_witness :
  let w1 := Eff.final (App.saveSessionEffect Fixture.appEnv Fixture.twoImages) in
  let w2 := Eff.final (App.loadSessionEffect Fixture.appEnv w1) in
  history (Store.editor (Store.root w2)) = ["data:a"; "data:b"]
  /\ historyIndex (Store.editor (Store.root w2)) = 1.
Proof.
  intros w1 w2.
  destruct (save_then_load_session Scenario.File Fixture.appEnv Fixture.twoImages
              ["data:a"; "data:b"] ["data:a"; "data:b"]
              ltac:(reflexivity) ltac:(cbn; lia) ltac:(reflexivity) ltac:(reflexivity)
              ltac:(reflexivity) ltac:(reflexivity))
    as (Hh & Hi & _).
  split; [exact Hh | exact Hi].
Defined.

(** A confirmed mint in the scenario: the new NFT comes after the one the
    wallet had. *)
Example confirm_mint_appends :
  map Store.title
      (Store.myNfts
         (Store.root
            (Eff.final (App.handleConfirmMint Fixture.appEnv
                          {| App.meta_title := "Pink Sky";
                             App.meta_description := "";
                             App.meta_properties := [] |}
                          Fixture.twoImages))))
  = ["Cybernetic Sunset"; "Pink Sky"].
Proof. vm_compute. reflexivity. Qed.

(* ------------------------------------------------------------------ *)
(** * polygonService.ts *)
(* ------------------------------------------------------------------ *)

Ltac unfold_polygon :=
  unfold Polygon.andThen, Polygon.catch, Polygon.ask, Polygon.pure, Polygon.raise.

Section PolygonFacts.
Variable Chain : Type.
Variable provider : Polygon.Provider Chain.
Implicit Types (ch : Chain) (options : Polygon.MintOptions).

Lemma or_else_truthy (t : option string) (d : string) :
  truthy d = true -> truthy (or_else t d) = true.
Proof.
  intros Hd. destruct t as [s|]; simpl; [|exact Hd].
  destruct (truthy s) eqn:Hs; [exact Hs | exact Hd].
Qed.

(** How [switchToNetwork] ends on a network of the table, with a wallet
    present. *)
Lemma switchToNetwork_run name net ch :
  Polygon.ethereum provider = true ->
  Polygon.NETWORKS name = Some net ->
  let switch := Polygon.wallet_switchEthereumChain (Polygon.chainId net) in
  let add := Polygon.wallet_addEthereumChain net in
  let first := Polygon.answer provider ch switch in
  let second := Polygon.answer provider (snd first) add in
  Polygon.switchToNetwork provider name ch
  = match fst first with
    | Polygon.Ok _ => (Polygon.Ok tt, snd first, [switch])
    | Polygon.Fail switchError =>
        if Polygon.is4902 (Polygon.code switchError) then
          match fst second with
          | Polygon.Ok _ => (Polygon.Ok tt, snd second, [switch; add])
          | Polygon.Fail _ =>
              (Polygon.Fail (Polygon.newError
                               ("Failed to add " ++ Polygon.chainName net ++ " network.")),
               snd second, [switch; add])
          end
        else
          (Polygon.Fail (Polygon.newError
                           ("Failed to switch to " ++ Polygon.chainName net ++ " network.")),
           snd first, [switch])
    end%string.
Proof.
  intros Heth Hnet switch add first second. subst switch add first second.
  unfold Polygon.switchToNetwork. rewrite Heth, Hnet. change (negb true) with false.
  unfold_polygon. cbv beta iota.
  destruct (Polygon.answer provider ch _) as [[v|switchError] ch1]; cbn [fst snd];
    [reflexivity|].
  destruct (Polygon.is4902 (Polygon.code switchError)); [|reflexivity].
  destruct (Polygon.answer provider ch1 _) as [[v|addError] ch2]; reflexivity.
Qed.

(** X21. [switchToNetwork] asks the wallet to add a chain only after the
    wallet refused the switch with code 4902, and then for the same
    network. A switch that the wallet accepts resolves after that one
    request; a switch refused with another code, or with none, fails at
    once with "Failed to switch to ..." and the chain is not added; after
    a refusal with code 4902 the service resolves when the wallet adds
    the chain and fails with "Failed to add ..." when it does not.
    Whatever error object the wallet rejects with, the service throws
    one of its own two messages. *)
Theorem switchToNetwork_cases name net ch :
  Polygon.ethereum provider = true ->
  Polygon.NETWORKS name = Some net ->
  let r := Polygon.switchToNetwork provider name ch in
  let switch := Polygon.wallet_switchEthereumChain (Polygon.chainId net) in
  let add := Polygon.wallet_addEthereumChain net in
  (snd r = [switch] \/ snd r = [switch; add])
  /\ (snd r = [switch; add] ->
      exists switchError,
        fst (Polygon.answer provider ch switch) = Polygon.Fail switchError
        /\ Polygon.code switchError = Some (Polygon.NumCode 4902))
  /\ (fst (fst r) = Polygon.Ok tt
      \/ fst (fst r)
         = Polygon.Fail (Polygon.newError
                           ("Failed to add " ++ Polygon.chainName net ++ " network."))
      \/ fst (fst r)
         = Polygon.Fail (Polygon.newError
                           ("Failed to switch to " ++ Polygon.chainName net
                              ++ " network.")))%string
  /\ (forall v,
        fst (Polygon.answer provider ch switch) = Polygon.Ok v ->
        r = (Polygon.Ok tt, snd (Polygon.answer provider ch switch), [switch]))
  /\ (forall switchError,
        fst (Polygon.answer provider ch switch) = Polygon.Fail switchError ->
        Polygon.code switchError <> Some (Polygon.NumCode 4902) ->
        r = (Polygon.Fail (Polygon.newError
                             ("Failed to switch to " ++ Polygon.chainName net
                                ++ " network.")%string),
             snd (Polygon.answer provider ch switch), [switch]))
  /\ (forall switchError,
        fst (Polygon.answer provider ch switch) = Polygon.Fail switchError ->
        Polygon.code switchError = Some (Polygon.NumCode 4902) ->
        let added := Polygon.answer provider
                                    (snd (Polygon.answer provider ch switch)) add in
        (forall v, fst added = Polygon.Ok v ->
                   r = (Polygon.Ok tt, snd added, [switch; add]))
        /\ (forall addError,
              fst added = Polygon.Fail addError ->
              r = (Polygon.Fail (Polygon.newError
                                   ("Failed to add " ++ Polygon.chainName net
                                      ++ " network.")%string),
                   snd added, [switch; add]))).
Proof.
  intros Heth Hnet r switch add. subst r.
  rewrite (switchToNetwork_run name net ch Heth Hnet). cbv zeta.
  fold switch. fold add.
  assert (Hnot : forall e, Polygon.code e <> Some (Polygon.NumCode 4902) ->
                           Polygon.is4902 (Polygon.code e) = false).
  { intros e Hne. unfold Polygon.is4902.
    destruct (Polygon.code e) as [[n|t]|]; try reflexivity.
    apply Z.eqb_neq. intros Heq. apply Hne. congruence. }
  assert (Hyes : forall e, Polygon.code e = Some (Polygon.NumCode 4902) ->
                           Polygon.is4902 (Polygon.code e) = true).
  { intros e He. rewrite He. reflexivity. }
  split; [|split; [|split; [|split; [|split; [|]]]]].
  4: { intros v Hv. rewrite Hv. reflexivity. }
  4: { intros e He Hcode. rewrite He, (Hnot e Hcode). reflexivity. }
  4: { intros e He Hcode. rewrite He, (Hyes e Hcode). split.
       - intros v Hv. rewrite Hv. reflexivity.
       - intros addError Hadd. rewrite Hadd. reflexivity. }
  all: revert Hnot Hyes; intros _ _.
  all: destruct (Polygon.answer provider ch switch) as [[v|switchError] ch1];
    cbn [fst snd].
  all: try (destruct (Polygon.is4902 (Polygon.code switchError)) eqn:H4902;
            [assert (Hcode : Polygon.code switchError = Some (Polygon.NumCode 4902))
               by (unfold Polygon.is4902 in H4902;
                   destruct (Polygon.code switchError) as [[n|t]|]; try discriminate;
                   apply Z.eqb_eq in H4902; congruence);
             destruct (Polygon.answer provider ch1 add) as [[v|addError] ch2];
             cbn [fst snd]|]).
  all: first [ left; reflexivity
             | right; reflexivity
             | discriminate
             | intros _; exists switchError; split; [reflexivity | exact Hcode]
             | right; left; reflexivity
             | right; right; reflexivity ].
Qed.

(** The requests of [switchToNetwork] are wallet requests only. *)
Lemma switchToNetwork_log name ch request :
  In request (snd (Polygon.switchToNetwork provider name ch)) ->
  (exists c, request = Polygon.wallet_switchEthereumChain c)
  \/ (exists n, request = Polygon.wallet_addEthereumChain n).
Proof.
  unfold Polygon.switchToNetwork.
  destruct (Polygon.ethereum provider); cbn [negb]; cbv beta iota; [|intros []].
  destruct (Polygon.NETWORKS name) as [net|]; [|intros []].
  unfold_polygon. cbv beta iota.
  destruct (Polygon.answer provider ch _) as [[v|switchError] ch1].
  - simpl. intros [H | []]. left. eexists. symmetry. exact H.
  - destruct (Polygon.is4902 (Polygon.code switchError)).
    + destruct (Polygon.answer provider ch1 _) as [[v|addError] ch2];
        simpl; intros [H | [H | []]];
        first [left; eexists; symmetry; exact H | right; eexists; symmetry; exact H].
    + simpl. intros [H | []]. left. eexists. symmetry. exact H.
Qed.

(** The run of [mintFromMetadataUrl] once its two guards have passed. *)
Lemma mint_run options ch :
  Polygon.ethereum provider = true ->
  Polygon.isAddress provider (Polygon.contractAddress options) = true ->
  let s := Polygon.switchToNetwork provider (Polygon.networkName options) ch in
  let a1 := Polygon.answer provider (snd (fst s)) Polygon.getSigner in
  let mintReq := Polygon.safeMint (Polygon.contractAddress options)
                                  (Polygon.toAddress options)
                                  (Polygon.metadataUrl options) in
  let a2 := Polygon.answer provider (snd a1) mintReq in
  Polygon.mintFromMetadataUrl provider options ch
  = match fst (fst s) with
    | Polygon.Fail e => (Polygon.Fail e, snd (fst s), snd s)
    | Polygon.Ok _ =>
        match fst a1 with
        | Polygon.Fail e => (Polygon.Fail e, snd a1, snd s ++ [Polygon.getSigner])
        | Polygon.Ok _ =>
            match fst a2 with
            | Polygon.Fail error =>
                (Polygon.Fail (Polygon.describe error), snd a2,
                 snd s ++ [Polygon.getSigner; mintReq])
            | Polygon.Ok mintTx =>
                let waitReq := Polygon.waitForReceipt (or_else mintTx "") in
                let a3 := Polygon.answer provider (snd a2) waitReq in
                match fst a3 with
                | Polygon.Fail error =>
                    (Polygon.Fail (Polygon.describe error), snd a3,
                     snd s ++ [Polygon.getSigner; mintReq; waitReq])
                | Polygon.Ok None =>
                    (Polygon.Fail (Polygon.newError "Transaction failed to confirm."),
                     snd a3, snd s ++ [Polygon.getSigner; mintReq; waitReq])
                | Polygon.Ok (Some h) =>
                    (Polygon.Ok (Some h), snd a3,
                     snd s ++ [Polygon.getSigner; mintReq; waitReq])
                end
            end
        end
    end.
Proof.
  intros Heth Haddr s a1 mintReq a2. subst s a1 mintReq a2.
  unfold Polygon.mintFromMetadataUrl. rewrite Heth, Haddr.
  change (negb true) with false. cbv iota.
  unfold Polygon.andThen at 1.
  destruct (Polygon.switchToNetwork provider (Polygon.networkName options) ch)
    as [[[u|e] ch0] l0]; cbn [fst snd]; [|reflexivity].
  unfold_polygon. cbv beta iota.
  destruct (Polygon.answer provider ch0 Polygon.getSigner) as [[v1|e1] ch1];
    cbn [fst snd]; [|reflexivity].
  destruct (Polygon.answer provider ch1 _) as [[tx|e2] ch2];
    cbn [fst snd]; [|rewrite app_nil_r; reflexivity].
  cbv zeta.
  destruct (Polygon.answer provider ch2 _) as [[[h|]|e3] ch3];
    cbn [fst snd]; rewrite ?app_nil_r; reflexivity.
Qed.


Lemma describe_message error :
  exists m, Polygon.describe error = Polygon.newError m /\ truthy m = true.
Proof.
  unfold Polygon.describe.
  destruct (Polygon.isActionRejected (Polygon.code error)).
  - eexists. split; reflexivity.
  - eexists. split; [reflexivity|]. apply or_else_truthy. reflexivity.
Qed.

(** X22. [mintFromMetadataUrl] never resolves with a [null] receipt: it
    resolves with a receipt or it rejects. Without a wallet, or with a
    contract address that is not an address, it rejects before asking
    the wallet anything. *)
Theorem mint_resolves_with_receipt options ch :
  let r := Polygon.mintFromMetadataUrl provider options ch in
  fst (fst r) <> Polygon.Ok None
  /\ (Polygon.ethereum provider = false ->
      r = (Polygon.Fail (Polygon.newError "No crypto wallet found"), ch, []))
  /\ (Polygon.ethereum provider = true ->
      Polygon.isAddress provider (Polygon.contractAddress options) = false ->
      r = (Polygon.Fail (Polygon.newError "Invalid contract address."), ch, [])).
Proof.
  intros r. subst r.
  destruct (Polygon.ethereum provider) eqn:Heth.
  2: { unfold Polygon.mintFromMetadataUrl. rewrite Heth. cbn.
       repeat split; try discriminate. }
  destruct (Polygon.isAddress provider (Polygon.contractAddress options)) eqn:Haddr.
  2: { unfold Polygon.mintFromMetadataUrl. rewrite Heth, Haddr. cbn.
       repeat split; try discriminate. }
  split; [|split; discriminate].
  rewrite (mint_run options ch Heth Haddr). cbv zeta.
  destruct (fst (fst (Polygon.switchToNetwork provider _ ch))); [|discriminate].
  destruct (fst (Polygon.answer provider _ Polygon.getSigner)); [|discriminate].
  destruct (fst (Polygon.answer provider _ (Polygon.safeMint _ _ _))); [|discriminate].
  destruct (fst (Polygon.answer provider _ (Polygon.waitForReceipt _))) as [[h|]|];
    discriminate.
Qed.

(** How the mint ends once the mint transaction has been requested. *)
Lemma mint_stage options ch contract to uri :
  let r := Polygon.mintFromMetadataUrl provider options ch in
  In (Polygon.safeMint contract to uri) (snd r) ->
  exists chain_state,
    (exists h, fst (fst r) = Polygon.Ok (Some h))
    \/ fst (fst r) = Polygon.Fail (Polygon.newError "Transaction failed to confirm.")
    \/ (exists error tx,
          fst (fst r) = Polygon.Fail (Polygon.describe error)
          /\ (fst (Polygon.answer provider chain_state
                                  (Polygon.safeMint (Polygon.contractAddress options)
                                                    (Polygon.toAddress options)
                                                    (Polygon.metadataUrl options)))
              = Polygon.Fail error
              \/ fst (Polygon.answer provider chain_state (Polygon.waitForReceipt tx))
                 = Polygon.Fail error)).
Proof.
  intros r. subst r.
  destruct (Polygon.ethereum provider) eqn:Heth.
  2: { unfold Polygon.mintFromMetadataUrl. rewrite Heth. cbn. intros []. }
  destruct (Polygon.isAddress provider (Polygon.contractAddress options)) eqn:Haddr.
  2: { unfold Polygon.mintFromMetadataUrl. rewrite Heth, Haddr. cbn. intros []. }
  rewrite (mint_run options ch Heth Haddr). cbv zeta.
  set (s := Polygon.switchToNetwork provider (Polygon.networkName options) ch).
  assert (Hs : ~ In (Polygon.safeMint contract to uri) (snd s)).
  { intros Hin. apply switchToNetwork_log in Hin.
    destruct Hin as [[c H] | [n H]]; discriminate. }
  destruct (fst (fst s)); [|intros Hin; contradiction].
  set (ch1 := snd (Polygon.answer provider (snd (fst s)) Polygon.getSigner)).
  destruct (fst (Polygon.answer provider (snd (fst s)) Polygon.getSigner)).
  2: { cbn [snd]. intros Hin. apply in_app_or in Hin.
       destruct Hin as [Hin | [Hin | []]]; [contradiction | discriminate]. }
  destruct (fst (Polygon.answer provider ch1 _)) as [tx|error] eqn:Hmint.
  2: { intros _. exists ch1. right. right. exists error, "". split; [reflexivity|].
       left. exact Hmint. }
  match goal with
  | |- context [Polygon.answer provider ?c (Polygon.waitForReceipt ?t)] =>
      set (ch2 := c); set (waitTx := t)
  end.
  destruct (fst (Polygon.answer provider ch2 (Polygon.waitForReceipt waitTx)))
    as [[h|]|error] eqn:Hwait; intros _; exists ch2.
  - left. exists h. reflexivity.
  - right. left. reflexivity.
  - right. right. exists error, waitTx. split; [reflexivity|]. right. exact Hwait.
Qed.

(** X23. Once the mint transaction has been requested, a failure of
    [mintFromMetadataUrl] is always an [Error] of the service's own
    making, with a non-empty message: the errors of the wallet and of
    the chain do not escape as they are. *)
Theorem mint_stage_failure_has_message options ch contract to uri e :
  let r := Polygon.mintFromMetadataUrl provider options ch in
  In (Polygon.safeMint contract to uri) (snd r) ->
  fst (fst r) = Polygon.Fail e ->
  exists m, e = Polygon.newError m /\ truthy m = true.
Proof.
  intros r Hin Hfail. subst r.
  destruct (mint_stage options ch contract to uri Hin)
    as [st [[h Hok] | [Hnull | (error & tx & Hdesc & _)]]].
  - congruence.
  - rewrite Hnull in Hfail. inversion Hfail. eexists. split; reflexivity.
  - rewrite Hdesc in Hfail. inversion Hfail. apply describe_message.
Qed.

(** X24. When the user rejects each mint transaction in the wallet
    (error code ACTION_REJECTED), a mint that reaches the transaction
    fails with the message "Transaction rejected in wallet.". *)
Theorem rejected_transaction_message options ch contract to uri :
  (forall st c t u,
      exists error,
        fst (Polygon.answer provider st (Polygon.safeMint c t u)) = Polygon.Fail error
        /\ Polygon.isActionRejected (Polygon.code error) = true) ->
  let r := Polygon.mintFromMetadataUrl provider options ch in
  In (Polygon.safeMint contract to uri) (snd r) ->
  fst (fst r) = Polygon.Fail (Polygon.newError "Transaction rejected in wallet.").
Proof.
  intros Hreject r. subst r.
  destruct (Polygon.ethereum provider) eqn:Heth.
  2: { unfold Polygon.mintFromMetadataUrl. rewrite Heth. cbn. intros []. }
  destruct (Polygon.isAddress provider (Polygon.contractAddress options)) eqn:Haddr.
  2: { unfold Polygon.mintFromMetadataUrl. rewrite Heth, Haddr. cbn. intros []. }
  rewrite (mint_run options ch Heth Haddr). cbv zeta.
  set (s := Polygon.switchToNetwork provider (Polygon.networkName options) ch).
  assert (Hs : ~ In (Polygon.safeMint contract to uri) (snd s)).
  { intros Hin. apply switchToNetwork_log in Hin.
    destruct Hin as [[c H] | [n H]]; discriminate. }
  destruct (fst (fst s)); [|intros Hin; contradiction].
  set (ch1 := snd (Polygon.answer provider (snd (fst s)) Polygon.getSigner)).
  destruct (fst (Polygon.answer provider (snd (fst s)) Polygon.getSigner)).
  2: { cbn [snd]. intros Hin. apply in_app_or in Hin.
       destruct Hin as [Hin | [Hin | []]]; [contradiction | discriminate]. }
  destruct (Hreject ch1 (Polygon.contractAddress options) (Polygon.toAddress options)
                    (Polygon.metadataUrl options)) as (error & Herr & Hcode).
  rewrite Herr. intros _. cbn [fst].
  unfold Polygon.describe. rewrite Hcode. reflexivity.
Qed.
End PolygonFacts.

Example reject_after_adding_chain :
  Polygon.mintFromMetadataUrl Fixture.rejectingProvider Fixture.mintRequest 0%nat
  = (Polygon.Fail (Polygon.newError "Transaction rejected in wallet."), 4%nat,
     [Polygon.wallet_switchEthereumChain "0x89";
      Polygon.wallet_addEthereumChain
        {| Polygon.chainId := "0x89"; Polygon.chainName := "Polygon Mainnet";
           Polygon.rpcUrl := "https://polygon-rpc.com/";
           Polygon.blockExplorerUrl := "https://polygonscan.com/" |};
      Polygon.getSigner;
      Polygon.safeMint "0xC0FFEE" "0xA11CE" "ipfs://one"]).
Proof. vm_compute. reflexivity. Qed.

Lemma switchToNetwork_cases_witness :
  snd (Polygon.switchToNetwork Fixture.rejectingProvider "polygon-mainnet" 0%nat)
  = [Polygon.wallet_switchEthereumChain "0x89";
     Polygon.wallet_addEthereumChain
       {| Polygon.chainId := "0x89"; Polygon.chainName := "Polygon Mainnet";
          Polygon.rpcUrl := "https://polygon-rpc.com/";
          Polygon.blockExplorerUrl := "https://polygonscan.com/" |}]
  /\ exists switchError,
      fst (Polygon.answer Fixture.rejectingProvider 0%nat
                          (Polygon.wallet_switchEthereumChain "0x89"))
      = Polygon.Fail switchError
      /\ Polygon.code switchError = Some (Polygon.NumCode 4902).
Proof.
  assert (Hlog : snd (Polygon.switchToNetwork Fixture.rejectingProvider
                                              "polygon-mainnet" 0%nat)
                 = [Polygon.wallet_switchEthereumChain "0x89";
                    Polygon.wallet_addEthereumChain
                      {| Polygon.chainId := "0x89"; Polygon.chainName := "Polygon Mainnet";
                         Polygon.rpcUrl := "https://polygon-rpc.com/";
                         Polygon.blockExplorerUrl := "https://polygonscan.com/" |}])
    by (vm_compute; reflexivity).
  split; [exact Hlog|].
  destruct (switchToNetwork_cases nat Fixture.rejectingProvider "polygon-mainnet"
              {| Polygon.chainId := "0x89"; Polygon.chainName := "Polygon Mainnet";
                 Polygon.rpcUrl := "https://polygon-rpc.com/";
                 Polygon.blockExplorerUrl := "https://polygonscan.com/" |}
              0%nat ltac:(reflexivity) ltac:(reflexivity))
    as (_ & Hadd & _).
  exact (Hadd Hlog).
Defined.

Lemma mint_stage_failure_has_message_witness :
  exists m,
    Polygon.newError "Transaction rejected in wallet." = Polygon.newError m
    /\ truthy m = true.
Proof.
  apply (mint_stage_failure_has_message nat Fixture.rejectingProvider Fixture.mintRequest
           0%nat "0xC0FFEE" "0xA11CE" "ipfs://one").
  - vm_compute. right. right. right. left. reflexivity.
  - vm_compute. reflexivity.
Defined.

Lemma rejected_transaction_message_witness :
  fst (fst (Polygon.mintFromMetadataUrl Fixture.rejectingProvider Fixture.mintRequest
                                        0%nat))
  = Polygon.Fail (Polygon.newError "Transaction rejected in wallet.").
Proof.
  apply (rejected_transaction_message nat Fixture.rejectingProvider Fixture.mintRequest
           0%nat "0xC0FFEE" "0xA11CE" "ipfs://one").
  - intros st c t u. eexists. split; reflexivity.
  - vm_compute. right. right. right. left. reflexivity.
Defined.

(* ------------------------------------------------------------------ *)
(** * geminiService.ts: reading the model's answers *)
(* ------------------------------------------------------------------ *)

(** X25. [handleApiResponse] resolves only with the data URL of an image
    part of the first candidate, and every other answer makes it throw
    an [Error]. A blocked prompt makes it throw whatever else the
    response carries, an image included. *)
Theorem handleApiResponse_outcomes response context :
  ((exists c ps p i,
       Gemini.firstCandidate response = Some c
       /\ Gemini.parts c = Some ps
       /\ In p ps
       /\ Gemini.inlineData p = Some i
       /\ Gemini.handleApiResponse response context
          = Returned ("data:" ++ Gemini.mimeType i ++ ";base64," ++ Gemini.data i)%string)
   \/ (exists m, Gemini.handleApiResponse response context = Threw (ErrorObj m)))
  /\ (forall fb,
        Gemini.promptFeedback response = Some fb ->
        truthy_opt (Gemini.blockReason fb) = true ->
        Gemini.handleApiResponse response context
        = Threw (ErrorObj ("Request was blocked. Reason: "
                             ++ or_else (Gemini.blockReason fb) "" ++ ". "
                             ++ or_else (Gemini.blockReasonMessage fb) "")%string)).
Proof.
  split; [apply handleApiResponse_image_or_error|].
  intros fb Hfb Hblock. unfold Gemini.handleApiResponse. rewrite Hfb, Hblock.
  reflexivity.
Qed.

Lemma handleApiResponse_outcomes_witness :
  Gemini.handleApiResponse Scenario.blockedResponse "edit"
  = Threw (ErrorObj "Request was blocked. Reason: SAFETY. ").
Proof.
  apply (proj2 (handleApiResponse_outcomes Scenario.blockedResponse "edit")
               {| Gemini.blockReason := Some "SAFETY"; Gemini.blockReasonMessage := None |});
    reflexivity.
Defined.

(** X26. Text to image resolves exactly when the first generated image
    has bytes, with the PNG data URL of these bytes. When it has none and
    a safety rating of the prompt feedback is blocked, it throws an
    [Error] whose message says that the generation was blocked, with the
    reason and the message of the feedback or their fixed texts; when it
    has none and no rating is blocked, it throws the [Error] that says
    that no image was returned. A rejection of the model call is passed
    on as it is. *)
Theorem generateImageFromText_outcomes generateImages prompt :
  let r := TextToImage.generateImageFromText generateImages prompt in
  (forall e, generateImages prompt = Threw e -> r = Threw e)
  /\ (forall response,
        generateImages prompt = Returned response ->
        let hasBytes bytes :=
          exists images,
            TextToImage.generatedImages response = Some images
            /\ get images 0 = Some (Some bytes)
            /\ truthy bytes = true in
        let blockedBy fb :=
          exists ratings,
            TextToImage.promptFeedback response = Some fb
            /\ TextToImage.safetyRatings fb = Some ratings
            /\ In true ratings in
        (forall bytes,
            hasBytes bytes -> r = Returned ("data:image/png;base64," ++ bytes)%string)
        /\ (forall url,
              r = Returned url ->
              exists bytes,
                hasBytes bytes /\ url = ("data:image/png;base64," ++ bytes)%string)
        /\ ((forall bytes, ~ hasBytes bytes) ->
            forall fb,
              blockedBy fb ->
              r = Threw (ErrorObj
                           ("Image generation was blocked. Reason: "
                              ++ or_else (TextToImage.blockReason fb) "Safety settings"
                              ++ ". "
                              ++ or_else (TextToImage.blockReasonMessage fb)
                                   "Your prompt may have violated the safety policy.")%string))
        /\ ((forall bytes, ~ hasBytes bytes) ->
            (forall fb, ~ blockedBy fb) ->
            r = Threw (ErrorObj
                         "The AI model did not return an image. Please try a different prompt."))).
Proof.
  intros r. split.
  - intros e He. subst r. unfold TextToImage.generateImageFromText.
    rewrite He. reflexivity.
  - intros response Hresp hasBytes blockedBy. subst r.
    unfold TextToImage.generateImageFromText. rewrite Hresp.
    unfold TextToImage.readImagesResponse. cbv zeta.
    assert (Hfirst : forall first,
               first = match TextToImage.generatedImages response with
                       | Some images =>
                           match get images 0 with Some bytes => bytes | None => None end
                       | None => None
                       end ->
               (forall bytes, hasBytes bytes -> first = Some bytes /\ truthy bytes = true)
               /\ (truthy_opt first = true ->
                   exists bytes, hasBytes bytes /\ first = Some bytes)).
    { intros first Hdef. split.
      - intros bytes (images & Himages & Hget & Htruthy).
        rewrite Himages, Hget in Hdef. split; assumption.
      - intros Htruthy. destruct first as [bytes|]; [|discriminate].
        exists bytes. split; [|reflexivity].
        destruct (TextToImage.generatedImages response) as [images|]; [|discriminate].
        exists images. split; [reflexivity|].
        destruct (get images 0) as [[b|]|]; try discriminate.
        inversion Hdef; subst b. split; [reflexivity | exact Htruthy]. }
    match goal with
    | |- context [truthy_opt ?f] => set (first := f) in *
    end.
    destruct (Hfirst first eq_refl) as [Hhas Hconv]. clear Hfirst.
    assert (Hblocked : forall fb,
               blockedBy fb ->
               match TextToImage.promptFeedback response with
               | Some fb0 =>
                   match TextToImage.safetyRatings fb0 with
                   | Some ratings => if existsb (fun r => r) ratings then Some fb0 else None
                   | None => None
                   end
               | None => None
               end = Some fb).
    { intros fb (ratings & Hfb & Hratings & Hin). rewrite Hfb, Hratings.
      replace (existsb (fun r => r) ratings) with true; [reflexivity|].
      symmetry. apply existsb_exists. exists true. split; [exact Hin | reflexivity]. }
    assert (Hclear : (forall fb, ~ blockedBy fb) ->
               match TextToImage.promptFeedback response with
               | Some fb0 =>
                   match TextToImage.safetyRatings fb0 with
                   | Some ratings => if existsb (fun r => r) ratings then Some fb0 else None
                   | None => None
                   end
               | None => None
               end = None).
    { intros Hnone.
      destruct (TextToImage.promptFeedback response) as [fb0|] eqn:Hfb; [|reflexivity].
      destruct (TextToImage.safetyRatings fb0) as [ratings|] eqn:Hratings; [|reflexivity].
      destruct (existsb (fun r => r) ratings) eqn:Hex; [|reflexivity].
      exfalso. apply (Hnone fb0). exists ratings.
      split; [reflexivity|]. split; [exact Hratings|].
      apply existsb_exists in Hex. destruct Hex as [[|] [Hin Htrue]];
        [exact Hin | discriminate]. }
    split; [|split; [|split]].
    + intros bytes Hb. destruct (Hhas bytes Hb) as [Heq Htruthy].
      rewrite Heq. simpl. rewrite Htruthy. reflexivity.
    + intros url Hurl. destruct (truthy_opt first) eqn:Htruthy.
      * destruct (Hconv eq_refl) as (bytes & Hb & Heq).
        exists bytes. split; [exact Hb|].
        rewrite Heq in Hurl, Htruthy. simpl in Hurl, Htruthy.
        rewrite Htruthy in Hurl. inversion Hurl. reflexivity.
      * exfalso. revert Hurl. clear.
        match goal with
        | |- match ?b with _ => _ end = _ -> _ => destruct b
        end; discriminate.
    + intros Hno fb Hfb. destruct (truthy_opt first) eqn:Htruthy.
      * destruct (Hconv eq_refl) as (bytes & Hb & _). destruct (Hno bytes Hb).
      * rewrite (Hblocked fb Hfb). reflexivity.
    + intros Hno Hnone. destruct (truthy_opt first) eqn:Htruthy.
      * destruct (Hconv eq_refl) as (bytes & Hb & _). destruct (Hno bytes Hb).
      * rewrite (Hclear Hnone). reflexivity.
Qed.

Lemma generateImageFromText_outcomes_witness :
  TextToImage.generateImageFromText
    (fun _ => Returned {| TextToImage.generatedImages := Some [Some "AAAA"];
                          TextToImage.promptFeedback := None |})
    "a pink sky"
  = Returned "data:image/png;base64,AAAA"
  /\ TextToImage.generateImageFromText
       (fun _ => Returned {| TextToImage.generatedImages := Some [];
                             TextToImage.promptFeedback :=
                               Some {| TextToImage.safetyRatings := Some [false; true];
                                       TextToImage.blockReason := None;
                                       TextToImage.blockReasonMessage := Some "No." |} |})
       "a pink sky"
     = Threw (ErrorObj "Image generation was blocked. Reason: Safety settings. No.")
  /\ TextToImage.generateImageFromText (fun _ => Threw (ErrorObj "quota")) "a pink sky"
     = Threw (ErrorObj "quota").
Proof.
  split; [|split].
  - apply (proj1 (proj2 (generateImageFromText_outcomes
                           (fun _ => Returned
                                       {| TextToImage.generatedImages := Some [Some "AAAA"];
                                          TextToImage.promptFeedback := None |})
                           "a pink sky") _ eq_refl) "AAAA").
    exists [Some "AAAA"]. repeat split.
  - apply (proj1 (proj2 (proj2 (proj2 (generateImageFromText_outcomes
             (fun _ => Returned
                {| TextToImage.generatedImages := Some [];
                   TextToImage.promptFeedback :=
                     Some {| TextToImage.safetyRatings := Some [false; true];
                             TextToImage.blockReason := None;
                             TextToImage.blockReasonMessage := Some "No." |} |})
             "a pink sky") _ eq_refl))))
      with (fb := {| TextToImage.safetyRatings := Some [false; true];
                     TextToImage.blockReason := None;
                     TextToImage.blockReasonMessage := Some "No." |}).
    + intros bytes (images & Himages & Hget & _).
      inversion Himages; subst images. discriminate Hget.
    + exists [false; true]. repeat split. right. left. reflexivity.
  - apply (proj1 (generateImageFromText_outcomes
                    (fun _ => Threw (ErrorObj "quota")) "a pink sky")).
    reflexivity.
Defined.

(* ------------------------------------------------------------------ *)
(** * MintingModal.tsx: the properties of an NFT *)
(* ------------------------------------------------------------------ *)

Lemma filterIndex_remove {A} (arr : list A) (index : Z) : forall from,
  Modal.filterIndex (fun i => negb (i =? index)) arr from
  = if ((from <=? index) && (index <? from + Js.length arr))%bool
    then firstn (Z.to_nat (index - from)) arr
           ++ skipn (S (Z.to_nat (index - from))) arr
    else arr.
Proof.
  induction arr as [|x rest IH]; intros from.
  - simpl. destruct ((from <=? index) && (index <? from + Js.length (@nil A)))%bool;
      [rewrite firstn_nil; reflexivity | reflexivity].
  - simpl Modal.filterIndex. rewrite IH.
    assert (Hlen : Js.length (x :: rest) = Js.length rest + 1)
      by (unfold Js.length; simpl List.length; lia).
    rewrite Hlen.
    destruct (from =? index) eqn:Heq; simpl negb; cbv iota.
    + apply Z.eqb_eq in Heq. subst index.
      pose proof (length_nonneg rest).
      replace (from + 1 <=? from) with false by (symmetry; apply Z.leb_gt; lia).
      replace (from <=? from) with true by (symmetry; apply Z.leb_le; lia).
      replace (from <? from + (Js.length rest + 1)) with true
        by (symmetry; apply Z.ltb_lt; lia).
      simpl. rewrite Z.sub_diag. reflexivity.
    + apply Z.eqb_neq in Heq.
      destruct (from <=? index) eqn:Hle.
      * apply Z.leb_le in Hle.
        replace (from + 1 <=? index) with true by (symmetry; apply Z.leb_le; lia).
        replace (from + 1 + Js.length rest) with (from + (Js.length rest + 1)) by lia.
        simpl andb.
        destruct (index <? from + (Js.length rest + 1)); [|reflexivity].
        replace (Z.to_nat (index - from)) with (S (Z.to_nat (index - (from + 1)))) by lia.
        reflexivity.
      * apply Z.leb_gt in Hle.
        replace (from + 1 <=? index) with false by (symmetry; apply Z.leb_gt; lia).
        reflexivity.
Qed.

(** X27. Removing the property at an index of the list takes out that
    one entry and keeps the others in their order; an index outside the
    list removes nothing; removing the entry that was just added gives
    the list back. *)
Theorem handleRemoveProperty_spec properties index :
  (0 <= index < Js.length properties ->
   Modal.handleRemoveProperty properties index
   = firstn (Z.to_nat index) properties ++ skipn (S (Z.to_nat index)) properties
   /\ Js.length (Modal.handleRemoveProperty properties index) = Js.length properties - 1)
  /\ (index < 0 \/ Js.length properties <= index ->
      Modal.handleRemoveProperty properties index = properties)
  /\ Modal.handleRemoveProperty (Modal.handleAddProperty properties) (Js.length properties)
     = properties.
Proof.
  unfold Modal.handleRemoveProperty. split; [|split].
  - intros Hi. rewrite filterIndex_remove.
    replace (0 <=? index) with true by (symmetry; apply Z.leb_le; lia).
    replace (index <? 0 + Js.length properties) with true
      by (symmetry; apply Z.ltb_lt; lia).
    simpl andb. cbv iota. rewrite Z.sub_0_r. split; [reflexivity|].
    unfold Js.length in *. rewrite length_app, length_firstn, length_skipn. lia.
  - intros Hi. rewrite filterIndex_remove.
    destruct (0 <=? index) eqn:H0; [|reflexivity].
    apply Z.leb_le in H0.
    replace (index <? 0 + Js.length properties) with false
      by (symmetry; apply Z.ltb_ge; lia).
    reflexivity.
  - rewrite filterIndex_remove. unfold Modal.handleAddProperty.
    pose proof (length_nonneg properties).
    replace (0 <=? Js.length properties) with true by (symmetry; apply Z.leb_le; lia).
    assert (Hlen : Js.length (properties ++ [{| Store.trait_type := "";
                                                Store.trait_value := "" |}])
                   = Js.length properties + 1)
      by (unfold Js.length; rewrite length_app; simpl; lia).
    rewrite Hlen.
    replace (Js.length properties <? 0 + (Js.length properties + 1)) with true
      by (symmetry; apply Z.ltb_lt; lia).
    simpl andb. cbv iota. rewrite Z.sub_0_r. unfold Js.length. rewrite Nat2Z.id.
    rewrite firstn_app, Nat.sub_diag, firstn_all. simpl firstn. rewrite app_nil_r.
    rewrite skipn_all2; [apply app_nil_r | rewrite length_app; simpl; lia].
Qed.

Lemma handleRemoveProperty_spec_witness :
  Modal.handleRemoveProperty
    [ {| Store.trait_type := "Hair"; Store.trait_value := "Blue" |};
      {| Store.trait_type := "Eyes"; Store.trait_value := "Green" |};
      {| Store.trait_type := "Mouth"; Store.trait_value := "Smile" |} ] 1
  = [ {| Store.trait_type := "Hair"; Store.trait_value := "Blue" |};
      {| Store.trait_type := "Mouth"; Store.trait_value := "Smile" |} ].
Proof.
  apply (proj1 (handleRemoveProperty_spec
                  [ {| Store.trait_type := "Hair"; Store.trait_value := "Blue" |};
                    {| Store.trait_type := "Eyes"; Store.trait_value := "Green" |};
                    {| Store.trait_type := "Mouth"; Store.trait_value := "Smile" |} ] 1)).
  cbn. lia.
Defined.


(* ------------------------------------------------------------------ *)
(** * DashboardPage.tsx: the cards shown and their reordering *)
(* ------------------------------------------------------------------ *)

Lemma withIndexFrom_In nfts : forall i n,
  In n (Dashboard.withIndexFrom nfts i) ->
  exists k, nth_error nfts k = Some (Dashboard.nft n)
            /\ Dashboard.originalIndex n = i + Z.of_nat k.
Proof.
  induction nfts as [|x rest IH]; intros i n Hin; simpl in Hin.
  - contradiction.
  - destruct Hin as [<- | Hin].
    + exists 0%nat. simpl. split; [reflexivity | lia].
    + destruct (IH _ _ Hin) as [k [Hk Hi]]. exists (S k). simpl.
      split; [exact Hk | lia].
Qed.

Lemma withIndexFrom_nft nfts : forall i,
  map Dashboard.nft (Dashboard.withIndexFrom nfts i) = nfts.
Proof.
  induction nfts as [|x rest IH]; intros i; simpl; [reflexivity|].
  rewrite IH. reflexivity.
Qed.

Lemma withIndexFrom_NoDup nfts : forall i,
  NoDup (map Dashboard.originalIndex (Dashboard.withIndexFrom nfts i)).
Proof.
  induction nfts as [|x rest IH]; intros i; simpl; constructor.
  - intros Hin. apply in_map_iff in Hin. destruct Hin as [m [Hm Hin]].
    apply withIndexFrom_In in Hin. destruct Hin as [k [_ Hk]]. lia.
  - apply IH.
Qed.

Lemma NoDup_map_filter {A B} (f : A -> B) (p : A -> bool) l :
  NoDup (map f l) -> NoDup (map f (filter p l)).
Proof.
  induction l as [|x rest IH]; simpl; intros Hnd; [constructor|].
  inversion Hnd as [|? ? Hnotin Hrest]; subst.
  destruct (p x); simpl.
  - constructor; [|apply IH; exact Hrest].
    intros Hin. apply Hnotin. apply in_map_iff in Hin.
    destruct Hin as [y [Hy Hin]]. apply filter_In in Hin.
    apply in_map_iff. exists y. split; [exact Hy | apply Hin].
  - apply IH; exact Hrest.
Qed.

Lemma insertSorted_perm {A} (cmp : A -> A -> Z) x l :
  Permutation (Dashboard.insertSorted cmp x l) (x :: l).
Proof.
  induction l as [|y rest IH]; simpl.
  - apply Permutation_refl.
  - destruct (cmp x y <=? 0); [apply Permutation_refl|].
    apply perm_trans with (y :: x :: rest); [constructor; exact IH | apply perm_swap].
Qed.

Lemma sort_perm {A} (cmp : A -> A -> Z) l : Permutation (Dashboard.sort cmp l) l.
Proof.
  induction l as [|x rest IH]; simpl; [constructor|].
  apply perm_trans with (x :: Dashboard.sort cmp rest);
    [apply insertSorted_perm | constructor; exact IH].
Qed.

Lemma insertSorted_sorted {A} (cmp : A -> A -> Z) (R : A -> A -> Prop)
      (Hle : forall x y, cmp x y <= 0 -> R x y)
      (Hgt : forall x y, 0 < cmp x y -> R y x) x l :
  Sorted R l -> Sorted R (Dashboard.insertSorted cmp x l).
Proof.
  induction l as [|y rest IH]; intros Hs; simpl.
  - constructor; constructor.
  - destruct (cmp x y <=? 0) eqn:Hc.
    + constructor; [exact Hs | constructor; apply Hle, Z.leb_le; exact Hc].
    + apply Z.leb_gt in Hc. inversion Hs as [|? ? Hrest Hhd]; subst.
      constructor; [apply IH; exact Hrest|].
      destruct rest as [|z rest']; simpl.
      * constructor. apply Hgt. exact Hc.
      * destruct (cmp x z <=? 0); constructor;
          [apply Hgt; exact Hc | inversion Hhd; assumption].
Qed.

Lemma sort_sorted {A} (cmp : A -> A -> Z) (R : A -> A -> Prop)
      (Hle : forall x y, cmp x y <= 0 -> R x y)
      (Hgt : forall x y, 0 < cmp x y -> R y x) l :
  Sorted R (Dashboard.sort cmp l).
Proof.
  induction l as [|x rest IH]; simpl; [constructor|].
  apply insertSorted_sorted; assumption.
Qed.

Lemma truthy_false s : truthy s = false <-> s = "".
Proof.
  destruct s; simpl; split; intros H; try reflexivity; discriminate.
Qed.

Lemma spliceOne_split {A} (l1 : list A) x l2 :
  Dashboard.spliceOne (l1 ++ x :: l2) (Js.length l1) = (Some x, l1 ++ l2).
Proof.
  unfold Dashboard.spliceOne, clamp, Js.length. rewrite length_app.
  simpl List.length.
  replace (Z.of_nat (List.length l1) <? 0) with false
    by (symmetry; apply Z.ltb_ge; lia).
  rewrite Z.min_l by lia. rewrite Nat2Z.id.
  rewrite skipn_app, Nat.sub_diag, skipn_all. simpl.
  rewrite firstn_app, Nat.sub_diag, firstn_all. simpl.
  rewrite app_nil_r. reflexivity.
Qed.

Lemma spliceOne_nothing {A} (arr : list A) d :
  Js.length arr <= d -> Dashboard.spliceOne arr d = (None, arr).
Proof.
  intros Hd. pose proof (length_nonneg arr) as Hlen.
  unfold Dashboard.spliceOne, clamp.
  replace (d <? 0) with false by (symmetry; apply Z.ltb_ge; lia).
  rewrite Z.min_r by lia. unfold Js.length. rewrite Nat2Z.id, skipn_all.
  reflexivity.
Qed.

Lemma spliceInsert_split {A} (l1 l2 : list A) item :
  Dashboard.spliceInsert (l1 ++ l2) (Js.length l1) item = l1 ++ item :: l2.
Proof.
  unfold Dashboard.spliceInsert, clamp, Js.length. rewrite length_app.
  replace (Z.of_nat (List.length l1) <? 0) with false
    by (symmetry; apply Z.ltb_ge; lia).
  rewrite Z.min_l by lia. rewrite Nat2Z.id.
  rewrite skipn_app, Nat.sub_diag, skipn_all. simpl.
  rewrite firstn_app, Nat.sub_diag, firstn_all. simpl.
  rewrite app_nil_r. reflexivity.
Qed.

Section DashboardFacts.
Variable localeCompare : string -> string -> Z.

Lemma displayed_perm st :
  Permutation
    (Dashboard.filteredAndSortedNfts localeCompare st)
    (if truthy (Dashboard.searchTerm st) then
       filter (fun n => Dashboard.includes
                          (Csv.toLowerCase (Store.title (Dashboard.nft n)))
                          (Csv.toLowerCase (Dashboard.searchTerm st)))
              (Dashboard.withIndexFrom (Dashboard.nfts st) 0)
     else Dashboard.withIndexFrom (Dashboard.nfts st) 0).
Proof.
  unfold Dashboard.filteredAndSortedNfts. cbv zeta.
  destruct (Dashboard.sortBy st); try apply sort_perm; apply Permutation_refl.
Qed.

Lemma displayed_nfts_perm st :
  Dashboard.searchTerm st = "" ->
  Permutation (map Dashboard.nft (Dashboard.filteredAndSortedNfts localeCompare st))
              (Dashboard.nfts st).
Proof.
  intros Hsearch. pose proof (displayed_perm st) as Hperm.
  rewrite Hsearch in Hperm. simpl truthy in Hperm. cbv iota in Hperm.
  apply (Permutation_map Dashboard.nft) in Hperm.
  rewrite withIndexFrom_nft in Hperm. exact Hperm.
Qed.

(** X28. The cards of the dashboard are the NFTs of the store whose
    title contains the search term (all of them when there is none),
    each shown once; the index a card links to is the place of its NFT in
    the store. *)
Theorem displayed_cards st :
  let displayed := Dashboard.filteredAndSortedNfts localeCompare st in
  (forall n, In n displayed <->
             In n (Dashboard.withIndexFrom (Dashboard.nfts st) 0)
             /\ (Dashboard.searchTerm st = ""
                 \/ Dashboard.includes
                      (Csv.toLowerCase (Store.title (Dashboard.nft n)))
                      (Csv.toLowerCase (Dashboard.searchTerm st)) = true))
  /\ (forall n, In n displayed ->
                get (Dashboard.nfts st) (Dashboard.originalIndex n)
                = Some (Dashboard.nft n))
  /\ NoDup (map Dashboard.originalIndex displayed)
  /\ (Dashboard.searchTerm st = "" ->
      Permutation (map Dashboard.nft displayed) (Dashboard.nfts st)).
Proof.
  intros displayed. pose proof (displayed_perm st) as Hperm. fold displayed in Hperm.
  assert (Hsub : forall n, In n displayed ->
                           In n (Dashboard.withIndexFrom (Dashboard.nfts st) 0)).
  { intros n Hin. apply (Permutation_in _ Hperm) in Hin.
    destruct (truthy (Dashboard.searchTerm st)); [|exact Hin].
    apply filter_In in Hin. apply Hin. }
  split; [|split; [|split]].
  - intros n. split.
    + intros Hin. split; [apply Hsub; exact Hin|].
      apply (Permutation_in _ Hperm) in Hin.
      destruct (truthy (Dashboard.searchTerm st)) eqn:Ht.
      * right. apply filter_In in Hin. apply Hin.
      * left. apply truthy_false. exact Ht.
    + intros [Hin Hmatch]. apply (Permutation_in _ (Permutation_sym Hperm)).
      destruct (truthy (Dashboard.searchTerm st)) eqn:Ht; [|exact Hin].
      apply filter_In. split; [exact Hin|].
      destruct Hmatch as [Hempty | Hmatch]; [|exact Hmatch].
      rewrite Hempty in Ht. discriminate.
  - intros n Hin. apply Hsub in Hin. apply withIndexFrom_In in Hin.
    destruct Hin as [k [Hk Hi]]. rewrite Hi. unfold get.
    replace (0 + Z.of_nat k <? 0) with false by (symmetry; apply Z.ltb_ge; lia).
    replace (Z.to_nat (0 + Z.of_nat k)) with k by lia. exact Hk.
  - apply (Permutation_NoDup
             (Permutation_map Dashboard.originalIndex (Permutation_sym Hperm))).
    destruct (truthy (Dashboard.searchTerm st));
      [apply NoDup_map_filter|]; apply withIndexFrom_NoDup.
  - apply displayed_nfts_perm.
Qed.

(** X29. Sorted by date the cards are in the order of their mint dates,
    newest or oldest first as chosen; sorted by name, and with a title
    comparison that orders any two titles one way or the other, each card
    comes before the next in that comparison; in the custom order without
    a search the cards are in the order of the store. *)
Theorem displayed_order st :
  let displayed := Dashboard.filteredAndSortedNfts localeCompare st in
  (Dashboard.sortBy st = Dashboard.date_desc ->
   StronglySorted (fun a b => Store.mintDate (Dashboard.nft b)
                              <= Store.mintDate (Dashboard.nft a)) displayed)
  /\ (Dashboard.sortBy st = Dashboard.date_asc ->
      StronglySorted (fun a b => Store.mintDate (Dashboard.nft a)
                                 <= Store.mintDate (Dashboard.nft b)) displayed)
  /\ ((forall s t, 0 < localeCompare s t -> localeCompare t s <= 0) ->
      (Dashboard.sortBy st = Dashboard.name_asc ->
       Sorted (fun a b => localeCompare (Store.title (Dashboard.nft a))
                                        (Store.title (Dashboard.nft b)) <= 0)
              displayed)
      /\ (Dashboard.sortBy st = Dashboard.name_desc ->
          Sorted (fun a b => localeCompare (Store.title (Dashboard.nft b))
                                           (Store.title (Dashboard.nft a)) <= 0)
                 displayed))
  /\ (Dashboard.sortBy st = Dashboard.custom -> Dashboard.searchTerm st = "" ->
      map Dashboard.nft displayed = Dashboard.nfts st).
Proof.
  intros displayed. subst displayed. unfold Dashboard.filteredAndSortedNfts.
  cbv zeta. split; [|split; [|split]].
  - intros ->. apply Sorted_StronglySorted; [intros a b c Hab Hbc; lia|].
    apply sort_sorted; unfold Dashboard.comparator; intros; lia.
  - intros ->. apply Sorted_StronglySorted; [intros a b c Hab Hbc; lia|].
    apply sort_sorted; unfold Dashboard.comparator; intros; lia.
  - intros Htotal. split; intros ->.
    + apply sort_sorted; unfold Dashboard.comparator; intros x y H;
        [exact H | apply Htotal; exact H].
    + apply sort_sorted; unfold Dashboard.comparator; intros x y H;
        [exact H | apply Htotal; exact H].
  - intros -> ->. simpl truthy. cbv iota. apply withIndexFrom_nft.
Qed.

(** X30. Dropping a card: with no card being dragged, or on the card's
    own place, only the drag ends. Otherwise the store's list becomes the
    list shown with the dragged card moved to the place of the drop, the
    other cards keeping their order, and the sort order becomes the custom
    one; without a search this is a rearrangement of the store's list, and
    the dashboard then shows it as dropped. A dragged index past the end
    of the list shown makes the handler throw. *)
Theorem handleDrop_cases st dropIndex :
  let displayed := Dashboard.filteredAndSortedNfts localeCompare st in
  (Dashboard.draggedIndex st = None \/ Dashboard.draggedIndex st = Some dropIndex ->
   Dashboard.handleDrop localeCompare st dropIndex
   = Returned (Dashboard.handleDragEnd st))
  /\ (forall d x,
        Dashboard.draggedIndex st = Some d -> d <> dropIndex ->
        get displayed d = Some x ->
        0 <= dropIndex < Js.length displayed ->
        exists before after before' after',
          displayed = before ++ x :: after
          /\ Js.length before = d
          /\ before ++ after = before' ++ after'
          /\ Js.length before' = dropIndex
          /\ Dashboard.handleDrop localeCompare st dropIndex
             = Returned (Dashboard.mkState
                           (map Dashboard.nft (before' ++ x :: after'))
                           (Dashboard.searchTerm st) Dashboard.custom None)
          /\ Permutation (map Dashboard.nft (before' ++ x :: after'))
                         (map Dashboard.nft displayed)
          /\ (Dashboard.searchTerm st = "" ->
              Permutation (map Dashboard.nft (before' ++ x :: after'))
                          (Dashboard.nfts st)
              /\ map Dashboard.nft
                     (Dashboard.filteredAndSortedNfts localeCompare
                        (Dashboard.mkState
                           (map Dashboard.nft (before' ++ x :: after'))
                           (Dashboard.searchTerm st) Dashboard.custom None))
                 = map Dashboard.nft (before' ++ x :: after')))
  /\ (forall d,
        Dashboard.draggedIndex st = Some d -> d <> dropIndex ->
        Js.length displayed <= d ->
        exists e, Dashboard.handleDrop localeCompare st dropIndex = Threw e).
Proof.
  intros displayed. split; [|split].
  - intros [Hnone | Hsame]; unfold Dashboard.handleDrop; rewrite ?Hnone, ?Hsame;
      [reflexivity | rewrite Z.eqb_refl; reflexivity].
  - intros d x Hdrag Hne Hx Hdrop.
    pose proof (get_Some_lt _ _ _ Hx) as Hd.
    unfold get in Hx.
    replace (d <? 0) with false in Hx by (symmetry; apply Z.ltb_ge; lia).
    apply nth_error_split in Hx. destruct Hx as [before [after [Hsplit Hlen]]].
    assert (Hbefore : Js.length before = d) by (unfold Js.length; lia).
    set (k := Z.to_nat dropIndex).
    assert (Hk : (k <= List.length (before ++ after))%nat).
    { rewrite Hsplit in Hdrop. unfold Js.length in Hdrop.
      rewrite length_app in *. simpl List.length in Hdrop. subst k. lia. }
    exists before, after, (firstn k (before ++ after)), (skipn k (before ++ after)).
    assert (Hbefore' : Js.length (firstn k (before ++ after)) = dropIndex).
    { unfold Js.length. rewrite length_firstn, Nat.min_l by exact Hk. subst k. lia. }
    assert (Hperm : Permutation
                      (map Dashboard.nft
                           (firstn k (before ++ after)
                              ++ x :: skipn k (before ++ after)))
                      (map Dashboard.nft displayed)).
    { apply Permutation_map. rewrite Hsplit.
      apply perm_trans with (x :: before ++ after).
      - apply Permutation_sym.
        rewrite <- (firstn_skipn k (before ++ after)) at 1.
        apply Permutation_middle.
      - apply Permutation_middle. }
    split; [exact Hsplit|]. split; [exact Hbefore|].
    split; [symmetry; apply firstn_skipn|]. split; [exact Hbefore'|].
    split; [|split; [exact Hperm|]].
    + unfold Dashboard.handleDrop. rewrite Hdrag.
      replace (d =? dropIndex) with false by (symmetry; apply Z.eqb_neq; exact Hne).
      fold displayed. rewrite Hsplit, <- Hbefore, spliceOne_split.
      rewrite <- (firstn_skipn k (before ++ after)) at 1.
      rewrite <- Hbefore', spliceInsert_split. reflexivity.
    + intros Hsearch. split.
      * apply perm_trans with (map Dashboard.nft displayed);
          [exact Hperm | apply displayed_nfts_perm; exact Hsearch].
      * unfold Dashboard.filteredAndSortedNfts. cbn [Dashboard.sortBy
          Dashboard.searchTerm Dashboard.nfts]. rewrite Hsearch. simpl truthy.
        cbv iota zeta. apply withIndexFrom_nft.
  - intros d Hdrag Hne Hlen. unfold Dashboard.handleDrop. rewrite Hdrag.
    replace (d =? dropIndex) with false by (symmetry; apply Z.eqb_neq; exact Hne).
    fold displayed. rewrite (spliceOne_nothing _ _ Hlen). eexists. reflexivity.
Qed.

End DashboardFacts.


Lemma displayed_cards_witness :
  get (Dashboard.nfts Fixture.gallery) 2 = Some Fixture.noon.
Proof.
  apply (proj1 (proj2 (displayed_cards Fixture.codeUnitCompare Fixture.gallery))
               {| Dashboard.nft := Fixture.noon; Dashboard.originalIndex := 2 |}).
  vm_compute. left. reflexivity.
Defined.

Lemma displayed_order_witness :
  Sorted (fun a b => Fixture.codeUnitCompare (Store.title (Dashboard.nft a))
                                             (Store.title (Dashboard.nft b)) <= 0)
         (Dashboard.filteredAndSortedNfts
            Fixture.codeUnitCompare
            (Dashboard.mkState [Fixture.sunset; Fixture.dawn; Fixture.noon] ""
                               Dashboard.name_asc None)).
Proof.
  apply (proj1 (proj2 (proj2 (displayed_order
                                Fixture.codeUnitCompare
                                (Dashboard.mkState
                                   [Fixture.sunset; Fixture.dawn; Fixture.noon] ""
                                   Dashboard.name_asc None)))));
    [|reflexivity].
  intros s t. unfold Fixture.codeUnitCompare.
  rewrite (String.compare_antisym s t).
  destruct (String.compare t s); simpl; lia.
Defined.

Lemma handleDrop_cases_witness :
  let shown := Dashboard.filteredAndSortedNfts Fixture.codeUnitCompare Fixture.gallery in
  let card := {| Dashboard.nft := Fixture.noon; Dashboard.originalIndex := 2 |} in
  exists before after before' after',
    shown = before ++ card :: after
    /\ Js.length before = 0
    /\ before ++ after = before' ++ after'
    /\ Js.length before' = 2
    /\ Dashboard.handleDrop Fixture.codeUnitCompare Fixture.gallery 2
       = Returned (Dashboard.mkState
                     (map Dashboard.nft (before' ++ card :: after'))
                     "" Dashboard.custom None).
Proof.
  intros shown card.
  destruct (proj1 (proj2 (handleDrop_cases Fixture.codeUnitCompare Fixture.gallery 2))
                  0 card)
    as (before & after & before' & after' & H1 & H2 & H3 & H4 & H5 & _).
  - reflexivity.
  - lia.
  - reflexivity.
  - cbn. lia.
  - exists before, after, before', after'. repeat split; assumption.
Defined.

Lemma append_keeps_prefix_witness :
  originalImage (reducer Scenario.rewound (addImageToHistory "edit-3.png"))
  = originalImage Scenario.rewound
  /\ currentImage (reducer (reducer Scenario.rewound (addImageToHistory "edit-3.png"))
                           (setHistoryIndex 0))
     = currentImage Scenario.rewound.
Proof.
  apply (append_keeps_prefix Scenario.File Scenario.rewound "edit-3.png").
  cbn. lia.
Defined.

Lemma handleReset_reverts_witness :
  let w := {| Page.store := Scenario.atTip; Page.page := Scenario.idle |} in
  let w' := Eff.final (Page.handleReset w) in
  historyIndex (Page.store w') = 0
  /\ currentImage (Page.store w') = Some "original.png".
Proof.
  intros w w'.
  assert (Hlen : 0 < Js.length (history (Page.store w))) by (cbn; lia).
  pose proof (proj1 (handleReset_reverts Scenario.File w) Hlen)
    as (_ & Hindex & _ & _ & Hcurrent & _).
  split; [exact Hindex | exact Hcurrent].
Defined.

Lemma edit_failure_is_reported_witness :
  let env := Scenario.browser Scenario.refusing in
  let r := Page.runEdit env (Page.op_applyFilter "sepia") Scenario.editing in
  let home := Page.runEdit (Scenario.browser Scenario.obliging)
                           (Page.op_generateImage "a cat") Scenario.fresh in
  error (Page.store (Eff.final r)) = Some "Request was blocked. Reason: SAFETY. "
  /\ error (Page.store (Eff.final home)) = None.
Proof.
  intros env r home. split.
  - apply (proj1 (edit_failure_is_reported Scenario.File env (Page.op_applyFilter "sepia")
                                           Scenario.editing)
                 Page.svc_generateFilteredImage
                 {| history := ["original.png"; "edit-1.png"; "edit-2.png"];
                    historyIndex := 0; isLoading := true; error := None |}
                 (ErrorObj "Request was blocked. Reason: SAFETY. ")).
    vm_compute. right. right. left. reflexivity.
  - apply (proj2 (proj2 (edit_failure_is_reported
                           Scenario.File (Scenario.browser Scenario.obliging)
                           (Page.op_generateImage "a cat") Scenario.fresh))
                 ["generated-1700000000000.png"] 0).
    vm_compute. right. right. right. left. reflexivity.
Defined.

Lemma disconnect_forgets_wallet_witness :
  let w' := Eff.final (Wallet.disconnectWallet Fixture.starting) in
  Store.getItem (Store.localStorage w') (Wallet.nftsKey "0xA11CE") = Some "[sunset]".
Proof.
  intros w'.
  pose proof (disconnect_forgets_wallet Scenario.File Fixture.starting)
    as (_ & _ & _ & _ & Hother & _).
  subst w'. rewrite (Hother (Wallet.nftsKey "0xA11CE")); [reflexivity|].
  intros Heq. vm_compute in Heq. discriminate Heq.
Defined.

Lemma mint_resolves_with_receipt_witness :
  Polygon.mintFromMetadataUrl
    Fixture.rejectingProvider
    {| Polygon.contractAddress := "not an address";
       Polygon.networkName := "polygon-mainnet";
       Polygon.toAddress := "0xA11CE";
       Polygon.metadataUrl := "ipfs://one" |} 0%nat
  = (Polygon.Fail (Polygon.newError "Invalid contract address."), 0%nat, []).
Proof.
  apply (proj2 (proj2 (mint_resolves_with_receipt
                         nat Fixture.rejectingProvider
                         {| Polygon.contractAddress := "not an address";
                            Polygon.networkName := "polygon-mainnet";
                            Polygon.toAddress := "0xA11CE";
                            Polygon.metadataUrl := "ipfs://one" |} 0%nat)));
    reflexivity.
Defined.
